(** * huawei_solar: a shallow embedding of the Modbus client

    The development follows [src/huawei_solar/huawei_solar.py]
    ([AsyncHuaweiSolar] and the private 0x41 frames) and
    [src/huawei_solar/bridge.py] ([HuaweiSolarBridge]).

    Coroutines become functions in a state-and-exception monad over a
    [World]: the Modbus client with the replies it is going to give, the
    chronological trace of what the program did to it (requests, sleeps,
    taking and releasing the communication lock) and the log records.
    Durations are kept in milliseconds, so that the 0.05 s cooldown is
    the integer 50. *)

From Stdlib Require Import Strings.Byte.
From Stdlib Require Import ZArith List String Ascii Bool Lia.
From Stdlib Require Import DecimalString HexadecimalString.
Import ListNotations.
Open Scope string_scope.
Open Scope Z_scope.

Set Implicit Arguments.

(** ** Python values and exceptions *)

Definition bytes := list byte.

Definition b2z (b : byte) : Z := Z.of_N (Byte.to_N b).

Definition z2b (z : Z) : byte :=
  match Byte.of_N (Z.to_N (z mod 256)) with
  | Some b => b
  | None => Byte.x00
  end.

(** [str(n)] and [hex(n)] of a Python int. *)
Definition str_int (z : Z) : string :=
  DecimalString.NilZero.string_of_int (Z.to_int z).

Definition hex (z : Z) : string :=
  if z <? 0
  then "-0x" ++ HexadecimalString.NilZero.string_of_uint (N.to_hex_uint (Z.to_N (- z)))
  else "0x" ++ HexadecimalString.NilZero.string_of_uint (N.to_hex_uint (Z.to_N z)).

(** [needle in haystack] on strings. *)
Fixpoint str_contains (needle haystack : string) : bool :=
  String.prefix needle haystack
  || match haystack with
     | EmptyString => false
     | String _ rest => str_contains needle rest
     end.

(** The values a register decodes to, as far as the client looks at
    them: [None], booleans, integers, strings and members of the
    [IntEnum] classes of [register_values] (class name, member name and
    integer value). *)
Inductive Value : Type :=
| VNone
| VBool (b : bool)
| VInt (z : Z)
| VStr (s : string)
| VEnum (cls member : string) (val : Z).

Definition is_not_None (v : Value) : bool :=
  match v with VNone => false | _ => true end.

(** Truth value of a Python object ([if x:]). *)
Definition truthy (v : Value) : bool :=
  match v with
  | VNone => false
  | VBool b => b
  | VInt z => negb (z =? 0)
  | VStr s => negb (String.eqb s "")
  | VEnum _ _ val => negb (val =? 0)
  end.

(** The exception classes the two modules raise or let through.
    [huawei_solar/exceptions.py] is not among the sources; its classes
    are siblings under [HuaweiSolarException], so [except ReadException]
    catches [ReadException] alone. *)
Inductive Exn : Type :=
| ValueError (msg : string)
| TypeError
| IndexError
| AttributeError
| AssertionError
| StructError
| TimeoutError
| ModbusConnectionException (string : string)
| HuaweiSolarException (msg : string)
| ConnectionException (msg : string)
| ReadException (msg : string)
| WriteException (msg : string)
| PermissionDenied (msg : string)
| SlaveBusyException
| InvalidCredentials.

(** [str(err)]; pymodbus prints its [ConnectionException(string)] as
    ["Modbus Error: [Connection] " + string]. *)
Definition str_exn (e : Exn) : string :=
  match e with
  | ValueError m | HuaweiSolarException m | ConnectionException m
  | ReadException m | WriteException m | PermissionDenied m => m
  | ModbusConnectionException string => "Modbus Error: [Connection] " ++ string
  | _ => ""
  end.

Inductive Outcome (A : Type) : Type :=
| Return (a : A)
| Raise (e : Exn)
| OutOfFuel.

Arguments Return {A} a.
Arguments Raise {A} e.
Arguments OutOfFuel {A}.

(** ** The Modbus client seen from the program *)

(** pymodbus [ModbusExceptions]. *)
Module ModbusExceptions.
Definition IllegalFunction : Z := 1.
Definition IllegalAddress : Z := 2.
Definition IllegalValue : Z := 3.
Definition SlaveFailure : Z := 4.
Definition Acknowledge : Z := 5.
Definition SlaveBusy : Z := 6.
Definition MemoryParityError : Z := 8.
Definition GatewayPathUnavailable : Z := 10.
Definition GatewayNoResponse : Z := 11.

  (** [ModbusExceptions.decode(code)]: the name of the code, or [None]. *)
Definition decode (code : Z) : option string :=
    if code =? IllegalFunction then Some "IllegalFunction"
    else if code =? IllegalAddress then Some "IllegalAddress"
    else if code =? IllegalValue then Some "IllegalValue"
    else if code =? SlaveFailure then Some "SlaveFailure"
    else if code =? Acknowledge then Some "Acknowledge"
    else if code =? SlaveBusy then Some "SlaveBusy"
    else if code =? MemoryParityError then Some "MemoryParityError"
    else if code =? GatewayPathUnavailable then Some "GatewayPathUnavailable"
    else if code =? GatewayNoResponse then Some "GatewayNoResponse"
    else None.
End ModbusExceptions.

Definition str_option (o : option string) : string :=
  match o with Some s => s | None => "None" end.

(** Requests with the private function code 0x41, and the frames of the
    file upload. [unit] is the slave the request is addressed to. *)
Inductive Request : Type :=
| PrivateHuaweiModbusRequest (sub_command : Z) (content : bytes) (unit : Z)
| StartUploadModbusRequest (file_type : Z) (customised_data : bytes) (unit : Z)
| UploadModbusRequest (file_type : Z) (frame_no : Z) (unit : Z)
| CompleteUploadModbusRequest (file_type : Z) (unit : Z).

Inductive Response : Type :=
| ReadHoldingRegistersResponse (registers : list Z)
| WriteMultipleRegistersResponse (address count : Z)
| WriteSingleRegisterResponse (address value : Z)
| PrivateHuaweiModbusResponse (sub_command : Z) (content : bytes)
| ExceptionResponse (original_code exception_code : Z).

(** [str(response)] of an [ExceptionResponse] (pymodbus prints the
    function code with its high bit set, the original code and the name
    of the exception code); the other responses print their class name. *)
Definition str_response (r : Response) : string :=
  match r with
  | ExceptionResponse original_code exception_code =>
      "Exception Response(" ++ str_int (Z.lor original_code 128) ++ ", "
        ++ str_int original_code ++ ", "
        ++ str_option (ModbusExceptions.decode exception_code) ++ ")"
  | ReadHoldingRegistersResponse regs =>
      "ReadHoldingRegistersResponse (" ++ str_int (Z.of_nat (List.length regs)) ++ ")"
  | WriteMultipleRegistersResponse a c =>
      "WriteMultipleRegisterResponse (" ++ str_int a ++ "," ++ str_int c ++ ")"
  | WriteSingleRegisterResponse a v =>
      "WriteRegisterResponse " ++ str_int a ++ " => " ++ str_int v
  | PrivateHuaweiModbusResponse sub _ =>
      "PrivateHuaweiModbusResponse(" ++ str_int sub ++ ")"
  end.

(** What the client does with one request: it hands back a response, the
    request times out ([asyncio.TimeoutError]) or the connection is lost
    (the [ConnectionException(string)] of pymodbus, imported as
    [ModbusConnectionException]). *)
Inductive Reply : Type :=
| Responds (r : Response)
| TimesOut
| ConnectionLost (string : string).

Inductive Event : Type :=
| EvAcquire
| EvRelease
| EvReadHolding (address count unit timeout : Z)
| EvWriteRegisters (address : Z) (values : list Z) (unit timeout : Z)
| EvWriteRegister (address value unit : Z)
| EvExecute (request : Request)
| EvSleep (milliseconds : Z)
| EvStop.

(** The levels of the log records that are kept; [LOGGER.exception]
    logs at the level [ERROR]. The records of [LOGGER.debug] are left
    out: they change nothing the program or its caller can see. *)
Inductive LogLevel : Type := INFO | WARNING | ERROR.

(** [script] holds the replies the client is going to give, in order; a
    client whose script is used up does not answer any more, so the
    request times out. [connected] is what [is_client_connected()]
    reports. *)
Record World : Type := mkWorld {
  script : list Reply;
  trace : list Event;
  log : list (LogLevel * string);
  connected : bool
}.

Definition M (A : Type) : Type := World -> Outcome A * World.

Definition ret {A} (a : A) : M A := fun w => (Return a, w).

Definition raise {A} (e : Exn) : M A := fun w => (Raise e, w).

Definition bind {A B} (c : M A) (k : A -> M B) : M B :=
  fun w =>
    match c w with
    | (Return a, w') => k a w'
    | (Raise e, w') => (Raise e, w')
    | (OutOfFuel, w') => (OutOfFuel, w')
    end.

Declare Scope py_scope.
Delimit Scope py_scope with py.
Notation "x <- c ;; k" := (bind c (fun x => k))
  (at level 61, c at next level, right associativity) : py_scope.
Notation "c ;;; k" := (bind c (fun _ => k))
  (at level 61, right associativity) : py_scope.
Open Scope py_scope.

(** [try: body except ...: handler]: [handler e] is [None] when no
    [except] clause matches [e]. *)
Definition try_except {A} (body : M A) (handler : Exn -> option (M A)) : M A :=
  fun w =>
    match body w with
    | (Raise e, w') =>
        match handler e with
        | Some h => h w'
        | None => (Raise e, w')
        end
    | r => r
    end.

Definition emit (ev : Event) : M unit :=
  fun w => (Return tt, mkWorld (script w) (trace w ++ [ev]) (log w) (connected w)).

Definition LOGGER (level : LogLevel) (msg : string) : M unit :=
  fun w => (Return tt, mkWorld (script w) (trace w) (log w ++ [(level, msg)]) (connected w)).

(** [await asyncio.sleep(...)] *)
Definition sleep (milliseconds : Z) : M unit := emit (EvSleep milliseconds).

(** [async with self._communication_lock: body]; the lock is released
    when the body raises as well. *)
Definition with_lock {A} (body : M A) : M A :=
  fun w =>
    match emit EvAcquire w with
    | (_, w1) =>
        match body w1 with
        | (r, w2) => (r, snd (emit EvRelease w2))
        end
    end.

(** One call of the client: the request is recorded and the next reply
    of the script decides how the call ends. *)
Definition transport (ev : Event) : M Response :=
  fun w =>
    let w1 := snd (emit ev w) in
    match script w1 with
    | [] => (Raise TimeoutError, w1)
    | reply :: rest =>
        let w2 := mkWorld rest (trace w1) (log w1) (connected w1) in
        match reply with
        | Responds r => (Return r, w2)
        | TimesOut => (Raise TimeoutError, w2)
        | ConnectionLost string => (Raise (ModbusConnectionException string), w2)
        end
    end.

Definition is_client_connected : M bool := fun w => (Return (connected w), w).

(** ** The [backoff.on_exception] decorator

    The decorator of the [backoff] package with the [constant] wait
    generator and no jitter: call the target; when it raises one of the
    listed exceptions and this was try number [max_tries], call
    [on_giveup] (here always a function that raises) and, should that
    return, re-raise; otherwise sleep [interval] and try again. Any other
    exception passes through. [tries] is the number of the running try
    and [rest] the tries that remain after it, so the decorator is
    [attempt (max_tries - 1) 1] for [max_tries >= 1]. *)
Section Backoff.
Variable A : Type.
Variable retried : Exn -> bool.
Variable interval : Z.
Variable on_giveup : Z -> M unit.
Variable target : M A.

Fixpoint attempt (rest : nat) (tries : Z) : M A :=
    fun w =>
      match target w with
      | (Raise e, w') =>
          if retried e then
            match rest with
            | O => (on_giveup tries ;;; raise e) w'
            | S rest' => (sleep interval ;;; attempt rest' (tries + 1)) w'
            end
          else (Raise e, w')
      | r => r
      end.

Definition on_exception (max_tries : nat) : M A :=
    attempt (Nat.pred max_tries) 1.
End Backoff.

(** [(asyncio.TimeoutError, SlaveBusyException)] *)
Definition timeout_or_busy (e : Exn) : bool :=
  match e with
  | TimeoutError | SlaveBusyException => true
  | _ => false
  end.

(** ** The session object and the register catalogue *)

Definition DEFAULT_SLAVE : Z := 0.
Definition DEFAULT_TIMEOUT : Z := 5000.
Definition DEFAULT_WAIT : Z := 2000.
Definition DEFAULT_COOLDOWN_TIME : Z := 50.

Definition HEARTBEAT_REGISTER : Z := 49999.

Definition FILE_UPLOAD_MAX_RETRIES : nat := 6.
Definition FILE_UPLOAD_RETRY_TIMEOUT : Z := 10000.

(** The attributes of an [AsyncHuaweiSolar] instance. [inv_1_power]
    exists only once [_initialize] has probed for a SmartLogger. *)
Module AsyncHuaweiSolar.
Record t : Type := mk {
    slave : Z;
    _timeout : Z;
    _cooldown_time : Z;
    time_zone : Value;
    battery_type : Value;
    detected_smart_logger : bool;
    inv_1_power : option Value
  }.

  (** [AsyncHuaweiSolar.__init__] *)
Definition __init__ (slave timeout cooldown_time : Z) : t :=
    mk slave timeout cooldown_time VNone VNone false None.
End AsyncHuaweiSolar.

(** [slave or self.slave] on an [Optional[int]]: [None] and [0] are
    both false. *)
Definition slave_or (slave : option Z) (default : Z) : Z :=
  match slave with
  | Some s => if s =? 0 then default else s
  | None => default
  end.

(** pymodbus [BinaryPayloadDecoder]: the payload and the read pointer. *)
Record BinaryPayloadDecoder : Type := mkDecoder {
  payload : bytes;
  pointer : Z
}.

(** [struct.pack('!H', x)] *)
Definition pack_H (x : Z) : bytes := [z2b (Z.shiftr x 8); z2b x].

(** [BinaryPayloadDecoder.fromRegisters(registers, Endian.Big, Endian.Big)] *)
Definition fromRegisters (registers : list Z) : BinaryPayloadDecoder :=
  mkDecoder (flat_map pack_H registers) 0.

Definition skip_bytes (nbytes : Z) (decoder : BinaryPayloadDecoder) : BinaryPayloadDecoder :=
  mkDecoder (payload decoder) (pointer decoder + nbytes).

(** The [unit] attribute of a register definition, as [_decode_response]
    tells the cases apart. *)
Inductive UnitAttr : Type :=
| UnitAbsent
| UnitCallable
| UnitDict
| UnitStatic (u : option string).

(** [registers.py] is not among the sources. A [RegisterDefinition] is
    taken with the attributes the client reads and with its two methods:
    [decode] reads from the decoder (and may look at the session, for
    the time zone), [encode] gives the words [builder.to_registers()]
    holds after [reg.encode(value, builder)]. *)
Module Reg.
Record t : Type := mk {
    register : Z;
    length : Z;
    unit : UnitAttr;
    writeable : bool;
    decode : BinaryPayloadDecoder -> AsyncHuaweiSolar.t -> Outcome Value * BinaryPayloadDecoder;
    encode : Value -> Outcome (list Z)
  }.
End Reg.

Definition RegisterDefinition : Type := Reg.t.

(** [Result = namedtuple("Result", "value unit")] *)
Module Result.
Record t : Type := mk {
    value : Value;
    unit : option string
  }.
End Result.

(** [AsyncHuaweiSolar._decode_response] *)
Definition _decode_response (self : AsyncHuaweiSolar.t) (reg : RegisterDefinition)
    (decoder : BinaryPayloadDecoder) : Outcome Result.t * BinaryPayloadDecoder :=
  match Reg.decode reg decoder self with
  | (Return result, decoder') =>
      match Reg.unit reg with
      | UnitAbsent | UnitCallable | UnitDict => (Return (Result.mk result None), decoder')
      | UnitStatic u => (Return (Result.mk result u), decoder')
      end
  | (Raise e, decoder') => (Raise e, decoder')
  | (OutOfFuel, decoder') => (OutOfFuel, decoder')
  end.

(** [x in o for o in list]: does the list hold [None]? *)
Fixpoint all_known {A} (l : list (option A)) : option (list A) :=
  match l with
  | [] => Some []
  | None :: _ => None
  | Some a :: rest =>
      match all_known rest with
      | Some rest' => Some (a :: rest')
      | None => None
      end
  end.

(** [range(1, n)] *)
Definition range1 (n : nat) : list nat := seq 1 (n - 1).

(** ** Reading registers *)

Section Reading.
Variable self : AsyncHuaweiSolar.t.

  (** The inner [_do_read] of [_read_registers]. *)
Definition _do_read (register length : Z) (slave : option Z) : M Response :=
    c <- is_client_connected ;;
    if negb c then
      let message := "Modbus client is not connected to the inverter." in
      LOGGER ERROR message ;;;
      raise (ConnectionException message)
    else
      try_except
        (response <- transport (EvReadHolding register length
                                  (slave_or slave (AsyncHuaweiSolar.slave self))
                                  (AsyncHuaweiSolar._timeout self)) ;;
         match response with
         | ExceptionResponse _ exception_code =>
             if exception_code =? ModbusExceptions.SlaveBusy
             then raise SlaveBusyException
             else raise (ReadException
                    ("Got error while reading from register " ++ str_int register
                       ++ " with length " ++ str_int length ++ ": "
                       ++ str_response response))
         | _ => ret response
         end)
        (fun err =>
           match err with
           | ModbusConnectionException _ =>
               let message :=
                 "Could not read register value, has another device interrupted the connection?" in
               Some (LOGGER ERROR message ;;; raise (ReadException message))
           | _ => None
           end).

  (** [AsyncHuaweiSolar._read_registers] *)
Definition _read_registers (register length : Z) (slave : option Z) : M Response :=
    let backoff_giveup (tries : Z) : M unit :=
      raise (ReadException ("Failed to read register " ++ str_int register
                              ++ " after " ++ str_int tries ++ " tries")) in
    with_lock
      (result <- on_exception timeout_or_busy DEFAULT_WAIT backoff_giveup
                   (_do_read register length slave) 5 ;;
       sleep (AsyncHuaweiSolar._cooldown_time self) ;;;
       ret result).

  (** The first loop of [get_multiple], over [idx in range(1, len(names))]. *)
Fixpoint check_registers (registers : list RegisterDefinition) (idxs : list nat) : M unit :=
    match idxs with
    | [] => ret tt
    | idx :: idxs' =>
        match nth_error registers (idx - 1), nth_error registers idx with
        | Some prev, Some cur =>
            if Reg.register prev + Reg.length prev >? Reg.register cur then
              raise (ValueError
                ("Requested registers must be in monotonically increasing order, but "
                   ++ str_int (Reg.register prev) ++ " + " ++ str_int (Reg.length prev)
                   ++ " > " ++ str_int (Reg.register cur) ++ "!"))
            else
              let register_distance :=
                Reg.register prev + Reg.length prev - Reg.register cur in
              if register_distance >? 64 then
                raise (ValueError
                  "Gap between requested registers is too large. Split it in two requests")
              else check_registers registers idxs'
        | _, _ => raise IndexError
        end
    end.

  (** The second loop of [get_multiple], over [idx in range(1, len(registers))]. *)
Fixpoint decode_registers (registers : list RegisterDefinition) (idxs : list nat)
      (decoder : BinaryPayloadDecoder) (result : list Result.t) : Outcome (list Result.t) :=
    match idxs with
    | [] => Return result
    | idx :: idxs' =>
        match nth_error registers idx, nth_error registers (idx - 1) with
        | Some cur, Some prev =>
            let skip_registers :=
              Reg.register cur - (Reg.register prev + Reg.length prev) in
            let decoder := skip_bytes (skip_registers * 2) decoder in
            match _decode_response self cur decoder with
            | (Return r, decoder') =>
                decode_registers registers idxs' decoder' (result ++ [r])
            | (Raise e, _) => Raise e
            | (OutOfFuel, _) => OutOfFuel
            end
        | _, _ => Raise IndexError
        end
    end.

Definition lift {A} (o : Outcome A) : M A := fun w => (o, w).

Variable REGISTERS : string -> option RegisterDefinition.

  (** [AsyncHuaweiSolar.get_multiple] *)
Definition get_multiple (names : list string) (slave : option Z) : M (list Result.t) :=
    if (List.length names =? 0)%nat then
      raise (ValueError "Expected at least one register name")
    else
      match all_known (map REGISTERS names) with
      | None => raise (ValueError "Did not recognize all register names")
      | Some registers =>
          check_registers registers (range1 (List.length names)) ;;;
          match registers with
          | [] => raise IndexError
          | first :: _ =>
              let total_length :=
                Reg.register (last registers first) + Reg.length (last registers first)
                - Reg.register first in
              response <- _read_registers (Reg.register first) total_length slave ;;
              match response with
              | ReadHoldingRegistersResponse words =>
                  let decoder := fromRegisters words in
                  match _decode_response self first decoder with
                  | (Return r, decoder') =>
                      lift (decode_registers registers
                              (range1 (List.length registers)) decoder' [r])
                  | (Raise e, _) => raise e
                  | (OutOfFuel, _) => lift OutOfFuel
                  end
              | _ => raise AttributeError
              end
          end
      end.

  (** [AsyncHuaweiSolar.get] *)
Definition get (name : string) (slave : option Z) : M Result.t :=
    results <- get_multiple [name] slave ;;
    match results with
    | r :: _ => ret r
    | [] => raise IndexError
    end.

  (** ** Writing registers *)

  (** [AsyncHuaweiSolar.write_registers] *)
Definition write_registers (register : Z) (value : list Z) (slave : option Z) : M Response :=
    c <- is_client_connected ;;
    if negb c then
      let message := "Modbus client is not connected to the inverter." in
      LOGGER ERROR message ;;;
      raise (ConnectionException message)
    else
      try_except
        (response <- transport (EvWriteRegisters register value
                                  (slave_or slave (AsyncHuaweiSolar.slave self))
                                  (AsyncHuaweiSolar._timeout self)) ;;
         match response with
         | ExceptionResponse _ exception_code =>
             if exception_code =? 128
             then raise (PermissionDenied "Permission denied")
             else raise (WriteException
                           (str_option (ModbusExceptions.decode exception_code)))
         | _ => ret response
         end)
        (fun err =>
           match err with
           | ModbusConnectionException _ =>
               Some (LOGGER ERROR "Failed to connect to device, is the host correct?" ;;;
                     raise (ConnectionException (str_exn err)))
           | _ => None
           end).

  (** [AsyncHuaweiSolar.set] *)
Definition set (name : string) (value : Value) (slave : option Z) : M bool :=
    match REGISTERS name with
    | None => raise (ValueError "Invalid Register Name")
    | Some reg =>
        if negb (Reg.writeable reg) then
          raise (WriteException "Register is not writable")
        else
          words <- lift (Reg.encode reg value) ;;
          if negb (Z.of_nat (List.length words) =? Reg.length reg) then
            raise (WriteException "Wrong number of registers to write")
          else
            response <- with_lock
                          (response <- write_registers (Reg.register reg) words slave ;;
                           sleep (AsyncHuaweiSolar._cooldown_time self) ;;;
                           ret response) ;;
            match response with
            | ExceptionResponse _ _ =>
                raise (WriteException
                         ("Got error while writing from register "
                            ++ str_int (Reg.register reg) ++ " : " ++ str_response response))
            | WriteMultipleRegistersResponse address count =>
                ret ((address =? Reg.register reg) && (count =? Reg.length reg))
            | _ => raise AttributeError
            end
    end.
End Reading.

(** ** Register names

    [register_names.py] is not among the sources. A constant of [rn]
    that the two modules mention by name only serves as the key of its
    register in the catalogue, which is a parameter; it is written here
    as the string of its identifier. The constants that [bridge.py]
    looks up by a computed name ([getattr(rn, "PV_01_VOLTAGE")]) are
    behind the parameter [rn_getattr] of the bridge. *)
Module rn.
Definition SMARTLOGGER_FIRST_SLAVE_POWER := "SMARTLOGGER_FIRST_SLAVE_POWER".
Definition SMARTLOGGER_TIME_ZONE := "SMARTLOGGER_TIME_ZONE".
Definition TIME_ZONE := "TIME_ZONE".
Definition STORAGE_UNIT_1_PRODUCT_MODEL := "STORAGE_UNIT_1_PRODUCT_MODEL".
Definition MODEL_NAME := "MODEL_NAME".
Definition SERIAL_NUMBER := "SERIAL_NUMBER".
End rn.

(** ** Session initialisation *)

Section Initialize.
Variable REGISTERS : string -> option RegisterDefinition.

Definition set_inv_1_power (self : AsyncHuaweiSolar.t) (v : Value) : AsyncHuaweiSolar.t :=
    AsyncHuaweiSolar.mk (AsyncHuaweiSolar.slave self) (AsyncHuaweiSolar._timeout self)
      (AsyncHuaweiSolar._cooldown_time self) (AsyncHuaweiSolar.time_zone self)
      (AsyncHuaweiSolar.battery_type self) (AsyncHuaweiSolar.detected_smart_logger self)
      (Some v).

Definition set_detected_smart_logger (self : AsyncHuaweiSolar.t) (b : bool) : AsyncHuaweiSolar.t :=
    AsyncHuaweiSolar.mk (AsyncHuaweiSolar.slave self) (AsyncHuaweiSolar._timeout self)
      (AsyncHuaweiSolar._cooldown_time self) (AsyncHuaweiSolar.time_zone self)
      (AsyncHuaweiSolar.battery_type self) b (AsyncHuaweiSolar.inv_1_power self).

Definition set_time_zone (self : AsyncHuaweiSolar.t) (v : Value) : AsyncHuaweiSolar.t :=
    AsyncHuaweiSolar.mk (AsyncHuaweiSolar.slave self) (AsyncHuaweiSolar._timeout self)
      (AsyncHuaweiSolar._cooldown_time self) v
      (AsyncHuaweiSolar.battery_type self) (AsyncHuaweiSolar.detected_smart_logger self)
      (AsyncHuaweiSolar.inv_1_power self).

Definition set_battery_type (self : AsyncHuaweiSolar.t) (v : Value) : AsyncHuaweiSolar.t :=
    AsyncHuaweiSolar.mk (AsyncHuaweiSolar.slave self) (AsyncHuaweiSolar._timeout self)
      (AsyncHuaweiSolar._cooldown_time self) (AsyncHuaweiSolar.time_zone self)
      v (AsyncHuaweiSolar.detected_smart_logger self) (AsyncHuaweiSolar.inv_1_power self).

  (** [v >= 0] on a decoded value: integers, booleans and [IntEnum]
      members compare with [0], anything else is a [TypeError]. *)
Definition ge_zero (v : Value) : Outcome bool :=
    match v with
    | VInt z => Return (z >=? 0)
    | VBool _ => Return true
    | VEnum _ _ val => Return (val >=? 0)
    | VNone | VStr _ => Raise TypeError
    end.

  (** A method that assigns attributes of [self] hands back the object
      as it is when the method ends, whether it returns or raises. *)
Definition Method (A : Type) : Type :=
    World -> Outcome A * AsyncHuaweiSolar.t * World.

  (** The SmartLogger probe: the [if self.slave == 0:] block. *)
Definition probe_smart_logger (self : AsyncHuaweiSolar.t) : Method unit :=
    fun w =>
      if AsyncHuaweiSolar.slave self =? 0 then
        match get self REGISTERS rn.SMARTLOGGER_FIRST_SLAVE_POWER None w with
        | (Return r, w1) =>
            let self1 := set_inv_1_power self (Result.value r) in
            match ge_zero (Result.value r) with
            | Return true =>
                (Return tt, set_detected_smart_logger self1 true,
                 snd (LOGGER INFO "Smartlogger detected" w1))
            | Return false => (Return tt, self1, w1)
            | Raise e => (Raise e, self1, w1)
            | OutOfFuel => (OutOfFuel, self1, w1)
            end
        | (Raise (ReadException _), w1) => (Return tt, self, w1)
        | (Raise e, w1) => (Raise e, self, w1)
        | (OutOfFuel, w1) => (OutOfFuel, self, w1)
        end
      else (Return tt, self, w).

  (** The battery probe: the [try] inside the [else] branch. *)
Definition probe_battery (self : AsyncHuaweiSolar.t) : Method unit :=
    fun w =>
      match get self REGISTERS rn.STORAGE_UNIT_1_PRODUCT_MODEL None w with
      | (Return r, w1) => (Return tt, set_battery_type self (Result.value r), w1)
      | (Raise (ReadException msg), w1) =>
          let rerr := ReadException msg in
          if str_contains "IllegalAddress" (str_exn rerr) then
            let w2 := snd (LOGGER INFO
              "Received IllegalAddress-error while determining battery support. Setting it to None."
              w1) in
            (Raise rerr, set_battery_type self VNone, w2)
          else
            let w2 := snd (LOGGER ERROR
              ("Got error " ++ str_exn rerr ++ " while trying to determine battery.") w1) in
            (Raise rerr, self, w2)
      | (Raise e, w1) => (Raise e, self, w1)
      | (OutOfFuel, w1) => (OutOfFuel, self, w1)
      end.

  (** [AsyncHuaweiSolar._initialize] *)
Definition _initialize (self : AsyncHuaweiSolar.t) : Method unit :=
    fun w =>
      match probe_smart_logger self w with
      | (Return _, self1, w1) =>
          if AsyncHuaweiSolar.detected_smart_logger self1 then
            match get self1 REGISTERS rn.SMARTLOGGER_TIME_ZONE None w1 with
            | (Return r, w2) => (Return tt, set_time_zone self1 (Result.value r), w2)
            | (Raise e, w2) => (Raise e, self1, w2)
            | (OutOfFuel, w2) => (OutOfFuel, self1, w2)
            end
          else
            match get self1 REGISTERS rn.TIME_ZONE None w1 with
            | (Return r, w2) =>
                probe_battery (set_time_zone self1 (Result.value r)) w2
            | (Raise e, w2) => (Raise e, self1, w2)
            | (OutOfFuel, w2) => (OutOfFuel, self1, w2)
            end
      | r => r
      end.
End Initialize.

(** ** CRC-16 of pymodbus ([pymodbus.utilities])

    The table is generated bit by bit with the reflected polynomial
    0xA001; [computeCRC] starts from 0xFFFF and hands back the CRC with
    its two bytes swapped, the order in which Modbus RTU sends it. *)
Fixpoint crc16_table_loop (n : nat) (byte crc : Z) : Z :=
  match n with
  | O => crc
  | S n' =>
      let crc' :=
        if negb (Z.land (Z.lxor byte crc) 1 =? 0)
        then Z.lxor (Z.shiftr crc 1) 0xa001
        else Z.shiftr crc 1 in
      crc16_table_loop n' (Z.shiftr byte 1) crc'
  end.

Definition __generate_crc16_table : list Z :=
  map (fun byte => crc16_table_loop 8 (Z.of_nat byte) 0) (seq 0 256).

Definition __crc16_table : list Z := Eval vm_compute in __generate_crc16_table.

Definition swap16 (x : Z) : Z :=
  Z.lor (Z.land (Z.shiftl x 8) 0xFF00) (Z.land (Z.shiftr x 8) 0x00FF).

Definition crc16_step (crc : Z) (a : byte) : Z :=
  let idx := nth (Z.to_nat (Z.land (Z.lxor crc (b2z a)) 0xff)) __crc16_table 0 in
  Z.lxor (Z.land (Z.shiftr crc 8) 0xff) idx.

Definition computeCRC (data : bytes) : Z :=
  swap16 (fold_left crc16_step data 0xffff).

Definition checkCRC (data : bytes) (check : Z) : bool :=
  computeCRC data =? check.

(** ** Responses of the file upload *)

Module StartUploadModbusResponse.
Record t : Type := mk {
    file_type : Z;
    file_length : Z;
    data_frame_length : Z;
    customised_data : bytes
  }.

  (** [__init__(data)]: [struct.unpack_from(">BBLB", data, 0)], the rest
      is the customised data, whose length the assertion checks. *)
Definition __init__ (data : bytes) : Outcome t :=
    match data with
    | b0 :: b1 :: b2 :: b3 :: b4 :: b5 :: b6 :: rest =>
        let data_length := b2z b0 in
        let file_length :=
          b2z b2 * 16777216 + b2z b3 * 65536 + b2z b4 * 256 + b2z b5 in
        if Z.of_nat (List.length rest) =? data_length - 6
        then Return (mk (b2z b1) file_length (b2z b6) rest)
        else Raise AssertionError
    | _ => Raise StructError
    end.
End StartUploadModbusResponse.

Module UploadModbusResponse.
Record t : Type := mk {
    file_type : Z;
    frame_no : Z;
    frame_data : bytes
  }.

  (** [__init__(data)]: [struct.unpack_from(">BBH", data, 0)] *)
Definition __init__ (data : bytes) : Outcome t :=
    match data with
    | b0 :: b1 :: b2 :: b3 :: rest =>
        let data_length := b2z b0 in
        if Z.of_nat (List.length rest) =? data_length - 3
        then Return (mk (b2z b1) (b2z b2 * 256 + b2z b3) rest)
        else Raise AssertionError
    | _ => Raise StructError
    end.
End UploadModbusResponse.

Module CompleteUploadModbusResponse.
Record t : Type := mk {
    file_type : Z;
    file_crc : Z
  }.

  (** [__init__(data)]: [struct.unpack_from(">BBH", data, 0)] *)
Definition __init__ (data : bytes) : Outcome t :=
    match data with
    | b0 :: b1 :: b2 :: b3 :: _ =>
        let data_length := b2z b0 in
        if data_length =? 3
        then Return (mk (b2z b1) (b2z b2 * 256 + b2z b3))
        else Raise AssertionError
    | _ => Raise StructError
    end.
End CompleteUploadModbusResponse.

(** ** Encoding the private requests

    [protocol.execute(request)] builds the packet from
    [request.encode()] before anything is sent, so a field that does not
    fit its format ends [execute] with a [struct.error] and no request
    leaves the client. *)

(** [bytes([...])]: every element must be in [range(0, 256)]. *)
Fixpoint bytes_of_ints (l : list Z) : Outcome bytes :=
  match l with
  | [] => Return []
  | x :: rest =>
      if (0 <=? x) && (x <? 256) then
        match bytes_of_ints rest with
        | Return bs => Return (z2b x :: bs)
        | r => r
        end
      else Raise (ValueError "bytes must be in range(0, 256)")
  end.

(** [struct.pack] with the formats [B] and [H], one field at a time:
    the value must fit the format. *)
Definition struct_pack_B (x : Z) : Outcome bytes :=
  if (0 <=? x) && (x <=? 255) then Return [z2b x] else Raise StructError.

Definition struct_pack_H (x : Z) : Outcome bytes :=
  if (0 <=? x) && (x <=? 65535) then Return [z2b (Z.shiftr x 8); z2b x]
  else Raise StructError.

(** [struct.pack(">...", f1, f2, ...)]: the fields one after the other. *)
Fixpoint struct_pack (fields : list (Outcome bytes)) : Outcome bytes :=
  match fields with
  | [] => Return []
  | field :: rest =>
      match field with
      | Return bs =>
          match struct_pack rest with
          | Return bs' => Return (bs ++ bs')%list
          | r => r
          end
      | r => r
      end
  end.

(** The [encode] methods of the four request classes. *)
Definition encode (request : Request) : Outcome bytes :=
  match request with
  | PrivateHuaweiModbusRequest sub_command content _ =>
      bytes_of_ints (sub_command :: map b2z content)
  | StartUploadModbusRequest file_type customised_data _ =>
      let data_length := 1 + Z.of_nat (List.length customised_data) in
      match struct_pack [struct_pack_B 0x05; struct_pack_B data_length;
                         struct_pack_B file_type] with
      | Return header => Return (header ++ customised_data)%list
      | r => r
      end
  | UploadModbusRequest file_type frame_no _ =>
      let data_length := 3 in
      struct_pack [struct_pack_B 0x06; struct_pack_B data_length;
                   struct_pack_B file_type; struct_pack_H frame_no]
  | CompleteUploadModbusRequest file_type _ =>
      let data_length := 1 in
      struct_pack [struct_pack_B 0x0C; struct_pack_B data_length;
                   struct_pack_B file_type]
  end.

(** [self._client.protocol.execute(request)] *)
Definition execute (request : Request) : M Response :=
  lift (encode request) ;;; transport (EvExecute request).

(** ** File upload *)

Section GetFile.
Variable self : AsyncHuaweiSolar.t.
Variable file_type : Z.
Variable customized_data : option bytes.
Variable slave : option Z.

  (** The inner [_perform_request] of [get_file], with its decorator. *)
Definition _perform_request {R} (request : Request) (response_type : bytes -> Outcome R) : M R :=
    let backoff_giveup (tries : Z) : M unit :=
      raise (ReadException ("Failed to read file " ++ str_int file_type
                              ++ " after " ++ str_int tries ++ " tries")) in
    on_exception timeout_or_busy FILE_UPLOAD_RETRY_TIMEOUT backoff_giveup
      (response <- execute request ;;
       match response with
       | ExceptionResponse _ exception_code =>
           if exception_code =? 128 then raise (PermissionDenied "Permission denied")
           else if exception_code =? 6 then raise SlaveBusyException
           else raise (ReadException
                         ("Exception occured while trying to read file " ++ hex file_type
                            ++ ": " ++ hex exception_code))
       | PrivateHuaweiModbusResponse _ content => lift (response_type content)
       | _ => raise AttributeError
       end)
      FILE_UPLOAD_MAX_RETRIES.

Definition unit_id : Z := slave_or slave (AsyncHuaweiSolar.slave self).

  (** The [while (next_frame_no * data_frame_length) < file_length] loop.
      The test compares the number of frames asked for with the length
      the inverter announced, so the number of turns is not known
      beforehand and the loop runs on fuel. *)
Fixpoint read_frames (fuel : nat) (data_frame_length file_length : Z)
      (next_frame_no : Z) (file_data : bytes) : M bytes :=
    if next_frame_no * data_frame_length <? file_length then
      match fuel with
      | O => lift OutOfFuel
      | S fuel' =>
          data_upload_response <-
            _perform_request (UploadModbusRequest file_type next_frame_no unit_id)
              UploadModbusResponse.__init__ ;;
          read_frames fuel' data_frame_length file_length (next_frame_no + 1)
            (file_data ++ UploadModbusResponse.frame_data data_upload_response)%list
      end
    else ret file_data.

  (** The end of [_do_read_file]: complete the upload and check the CRC. *)
Definition complete_upload (file_data : bytes) : M bytes :=
    complete_upload_response <-
      _perform_request (CompleteUploadModbusRequest file_type unit_id)
        CompleteUploadModbusResponse.__init__ ;;
    let file_crc := CompleteUploadModbusResponse.file_crc complete_upload_response in
    let swapped_crc :=
      Z.lor (Z.land (Z.shiftl file_crc 8) 0xFF00) (Z.land (Z.shiftr file_crc 8) 0x00FF) in
    if negb (checkCRC file_data swapped_crc) then
      raise (ReadException
               ("Computed CRC " ++ hex (computeCRC file_data) ++ " for file "
                  ++ hex file_type ++ " does not match expected value " ++ hex swapped_crc))
    else ret file_data.

  (** The inner [_do_read_file] of [get_file]. *)
Definition _do_read_file (fuel : nat) : M bytes :=
    start_upload_response <-
      _perform_request
        (StartUploadModbusRequest file_type
           (match customized_data with Some d => d | None => [] end) unit_id)
        StartUploadModbusResponse.__init__ ;;
    let data_frame_length :=
      StartUploadModbusResponse.data_frame_length start_upload_response in
    let file_length := StartUploadModbusResponse.file_length start_upload_response in
    file_data <- read_frames fuel data_frame_length file_length 0 [] ;;
    complete_upload file_data.

  (** [AsyncHuaweiSolar.get_file] *)
Definition get_file (fuel : nat) : M bytes :=
    with_lock
      (result <- _do_read_file fuel ;;
       sleep (AsyncHuaweiSolar._cooldown_time self) ;;;
       ret result).
End GetFile.

(** ** Login *)

(** [content[a:b]] for [0 <= a <= b]. *)
Definition slice (a b : nat) (content : bytes) : bytes :=
  firstn (b - a) (skipn a content).

(** [a == b] on bytes objects. *)
Definition bytes_eqb (a b : bytes) : bool :=
  if list_eq_dec byte_eq_dec a b then true else false.

Section Login.
  (** [hashlib.sha256(data).digest()], [hmac.digest(key, msg, sha256)] and
      the bytes [secrets.token_bytes(n)] draws in the run at hand. *)
Variable sha256 : bytes -> bytes.
Variable hmac_digest : bytes -> bytes -> bytes.
Variable token_bytes : nat -> bytes.

Definition _compute_digest (password seed : bytes) : bytes :=
    let hashed_password := sha256 password in
    hmac_digest hashed_password seed.

  (** [response.content] *)
Definition content_of (response : Response) : M bytes :=
    match response with
    | PrivateHuaweiModbusResponse _ content => ret content
    | _ => raise AttributeError
    end.

  (** [content[i]] *)
Definition item (content : bytes) (i : nat) : M Z :=
    match nth_error content i with
    | Some b => ret (b2z b)
    | None => raise IndexError
    end.

Definition len (b : bytes) : Z := Z.of_nat (List.length b).

  (** The list of integers [login] hands to [bytes(...)]. *)
Definition login_ints (client_challenge encoded_username hashed_password : bytes) : list Z :=
  ([len client_challenge + 1 + len encoded_username + 1 + len hashed_password]
     ++ map b2z client_challenge
     ++ [len encoded_username]
     ++ map b2z encoded_username
     ++ [len hashed_password]
     ++ map b2z hashed_password)%list.

(** [AsyncHuaweiSolar.login]; a Python [str] is kept as its UTF-8
      bytes, so [encode("utf-8")] is [list_byte_of_string]. *)
Definition login (self : AsyncHuaweiSolar.t) (username password : string)
      (slave : option Z) : M bool :=
    let unit_id := slave_or slave (AsyncHuaweiSolar.slave self) in
    let challenge_request := PrivateHuaweiModbusRequest 36 [Byte.x01; Byte.x00] unit_id in
    challenge_response <- execute challenge_request ;;
    challenge_content <- content_of challenge_response ;;
    c0 <- item challenge_content 0 ;;
    if negb (c0 =? 0x11) then raise AssertionError
    else
      let inverter_challenge := slice 1 17 challenge_content in
      let client_challenge := token_bytes 16 in
      let encoded_username := list_byte_of_string username in
      let hashed_password :=
        _compute_digest (list_byte_of_string password) inverter_challenge in
      login_bytes <- lift (bytes_of_ints
        (login_ints client_challenge encoded_username hashed_password)) ;;
      sleep 50 ;;;
      let login_request := PrivateHuaweiModbusRequest 37 login_bytes unit_id in
      login_response <- execute login_request ;;
      login_content <- content_of login_response ;;
      status <- item login_content 1 ;;
      if status =? 0 then
        inverter_mac_response_lengths <- item login_content 2 ;;
        let inverter_mac_response :=
          slice 3 (3 + Z.to_nat inverter_mac_response_lengths) login_content in
        (if negb (bytes_eqb (_compute_digest (list_byte_of_string password) client_challenge)
                    inverter_mac_response)
         then LOGGER ERROR
           "Inverter response contains an invalid challenge answer. This could indicate a MitM-attack!"
         else ret tt) ;;;
        ret true
      else ret false.
End Login.

(** ** The bridge *)

(** [rv.StorageProductModel.NONE]; [register_values.py] is not among the
    sources, the member is the one of value 0 of the [IntEnum]. *)
Definition StorageProductModel_NONE : Value := VEnum "StorageProductModel" "NONE" 0.

Inductive Task : Type := TaskRunning | TaskDone.

Module HuaweiSolarBridge.
Record t : Type := mk {
    client : AsyncHuaweiSolar.t;
    _primary : bool;
    slave_id : Z;
    pv_string_count : Z;
    has_optimizers : Value;
    battery_1_type : Value;
    battery_2_type : Value;
    power_meter_type : Value;
    _pv_registers : option (list string);
    __enable_heartbeat : bool;
    __heartbeat_task : option Task
  }.

  (** [HuaweiSolarBridge.__init__]; [slave_id or 0] *)
Definition __init__ (client : AsyncHuaweiSolar.t) (primary : bool)
      (slave_id : option Z) : t :=
    mk client primary (slave_or slave_id 0) 0 (VBool false)
       StorageProductModel_NONE StorageProductModel_NONE VNone None false None.
End HuaweiSolarBridge.

(** The register sets of [bridge.py]. *)
Definition INVERTER_REGISTERS : list string :=
  [ "INPUT_POWER"; "LINE_VOLTAGE_A_B"; "LINE_VOLTAGE_B_C"; "LINE_VOLTAGE_C_A";
    "PHASE_A_VOLTAGE"; "PHASE_B_VOLTAGE"; "PHASE_C_VOLTAGE";
    "PHASE_A_CURRENT"; "PHASE_B_CURRENT"; "PHASE_C_CURRENT";
    "DAY_ACTIVE_POWER_PEAK"; "ACTIVE_POWER"; "REACTIVE_POWER"; "POWER_FACTOR";
    "GRID_FREQUENCY"; "EFFICIENCY"; "INTERNAL_TEMPERATURE"; "INSULATION_RESISTANCE";
    "DEVICE_STATUS"; "FAULT_CODE"; "STARTUP_TIME"; "SHUTDOWN_TIME";
    "ACCUMULATED_YIELD_ENERGY"; "DAILY_YIELD_ENERGY" ].

Definition OPTIMIZER_REGISTERS : list string := [ "NB_ONLINE_OPTIMIZERS" ].

Definition POWER_METER_REGISTERS : list string :=
  [ "GRID_A_VOLTAGE"; "GRID_B_VOLTAGE"; "GRID_C_VOLTAGE";
    "ACTIVE_GRID_A_CURRENT"; "ACTIVE_GRID_B_CURRENT"; "ACTIVE_GRID_C_CURRENT";
    "POWER_METER_ACTIVE_POWER"; "POWER_METER_REACTIVE_POWER";
    "ACTIVE_GRID_POWER_FACTOR"; "ACTIVE_GRID_FREQUENCY";
    "GRID_EXPORTED_ENERGY"; "GRID_ACCUMULATED_ENERGY"; "GRID_ACCUMULATED_REACTIVE_POWER";
    "METER_TYPE";
    "ACTIVE_GRID_A_B_VOLTAGE"; "ACTIVE_GRID_B_C_VOLTAGE"; "ACTIVE_GRID_C_A_VOLTAGE";
    "ACTIVE_GRID_A_POWER"; "ACTIVE_GRID_B_POWER"; "ACTIVE_GRID_C_POWER" ].

Definition ENERGY_STORAGE_REGISTERS : list string :=
  [ "STORAGE_STATE_OF_CAPACITY"; "STORAGE_RUNNING_STATUS"; "STORAGE_BUS_VOLTAGE";
    "STORAGE_BUS_CURRENT"; "STORAGE_CHARGE_DISCHARGE_POWER"; "STORAGE_TOTAL_CHARGE";
    "STORAGE_TOTAL_DISCHARGE"; "STORAGE_CURRENT_DAY_CHARGE_CAPACITY";
    "STORAGE_CURRENT_DAY_DISCHARGE_CAPACITY" ].

(** A [dict[str, Result]] keeps its keys in insertion order. *)
Definition Dict : Type := list (string * Result.t).

(** [d[k] = v] *)
Fixpoint dict_set (k : string) (v : Result.t) (d : Dict) : Dict :=
  match d with
  | [] => [(k, v)]
  | (k', v') :: rest =>
      if String.eqb k k' then (k, v) :: rest else (k', v') :: dict_set k v rest
  end.

(** [d.update(other)], and [dict(pairs)] as the update of an empty dict. *)
Definition dict_update (d other : list (string * Result.t)) : Dict :=
  fold_left (fun acc kv => dict_set (fst kv) (snd kv) acc) other d.

Definition dict_keys (d : Dict) : list string := map fst d.

(** [f"PV_{idx:02}_VOLTAGE"] and [f"PV_{idx:02}_CURRENT"] *)
Definition two_digits (idx : Z) : string :=
  if idx <? 10 then "0" ++ str_int idx else str_int idx.

(** The names of the two attributes of [rn] that belong to the string
    [idx]. *)
Definition pv_attributes (idx : nat) : list string :=
  [ "PV_" ++ two_digits (Z.of_nat idx) ++ "_VOLTAGE";
    "PV_" ++ two_digits (Z.of_nat idx) ++ "_CURRENT" ].

Section Bridge.
Variable REGISTERS : string -> option RegisterDefinition.
Variable sha256 : bytes -> bytes.
Variable hmac_digest : bytes -> bytes -> bytes.
Variable token_bytes : nat -> bytes.

  (** [getattr(rn, name)]: the value of the constant [name] of
      [register_names.py], which is not among the sources, and [None]
      when the module has no attribute of this name (an
      [AttributeError]). *)
Variable rn_getattr : string -> option string.

Definition set__pv_registers (self : HuaweiSolarBridge.t) (names : list string)
      : HuaweiSolarBridge.t :=
    HuaweiSolarBridge.mk
      (HuaweiSolarBridge.client self) (HuaweiSolarBridge._primary self)
      (HuaweiSolarBridge.slave_id self) (HuaweiSolarBridge.pv_string_count self)
      (HuaweiSolarBridge.has_optimizers self)
      (HuaweiSolarBridge.battery_1_type self) (HuaweiSolarBridge.battery_2_type self)
      (HuaweiSolarBridge.power_meter_type self)
      (Some names)
      (HuaweiSolarBridge.__enable_heartbeat self)
      (HuaweiSolarBridge.__heartbeat_task self).

  (** The loop of [_compute_pv_registers]: the list of the two values is
      built before [extend] is called, so a missing attribute leaves the
      list as the strings before have made it. *)
Fixpoint extend_pv_registers (idxs : list nat) (_pv_registers : list string)
      : Outcome unit * list string :=
    match idxs with
    | [] => (Return tt, _pv_registers)
    | idx :: idxs' =>
        match all_known (map rn_getattr (pv_attributes idx)) with
        | Some values => extend_pv_registers idxs' (_pv_registers ++ values)%list
        | None => (Raise AttributeError, _pv_registers)
        end
    end.

  (** [HuaweiSolarBridge._compute_pv_registers]; the bridge comes back
      as the method leaves it. *)
Definition _compute_pv_registers (self : HuaweiSolarBridge.t)
      : Outcome unit * HuaweiSolarBridge.t :=
    let n := HuaweiSolarBridge.pv_string_count self in
    if (1 <=? n) && (n <=? 24) then
      match extend_pv_registers (seq 1 (Z.to_nat n)) [] with
      | (o, _pv_registers) => (o, set__pv_registers self _pv_registers)
      end
    else (Raise AssertionError, self).

  (** The inner [_get_multiple_to_dict] of [update]; [zip] stops at the
      shorter of its arguments, which is what [combine] does. *)
Definition _get_multiple_to_dict (self : HuaweiSolarBridge.t)
      (names : option (list string)) : M Dict :=
    match names with
    | None => raise TypeError
    | Some names =>
        results <- get_multiple (HuaweiSolarBridge.client self) REGISTERS names
                     (Some (HuaweiSolarBridge.slave_id self)) ;;
        ret (dict_update [] (combine names results))
    end.

  (** [HuaweiSolarBridge.update] *)
Definition update (self : HuaweiSolarBridge.t) : M Dict :=
    result <- _get_multiple_to_dict self (Some INVERTER_REGISTERS) ;;
    pv <- _get_multiple_to_dict self (HuaweiSolarBridge._pv_registers self) ;;
    let result := dict_update result pv in
    result <-
      (if truthy (HuaweiSolarBridge.has_optimizers self) then
         d <- _get_multiple_to_dict self (Some OPTIMIZER_REGISTERS) ;;
         ret (dict_update result d)
       else ret result) ;;
    result <-
      (if is_not_None (HuaweiSolarBridge.power_meter_type self) then
         d <- _get_multiple_to_dict self (Some POWER_METER_REGISTERS) ;;
         ret (dict_update result d)
       else ret result) ;;
    result <-
      (if is_not_None (HuaweiSolarBridge.battery_1_type self)
          || is_not_None (HuaweiSolarBridge.battery_2_type self) then
         d <- _get_multiple_to_dict self (Some ENERGY_STORAGE_REGISTERS) ;;
         ret (dict_update result d)
       else ret result) ;;
    ret result.

  (** [HuaweiSolarBridge.start_heartbeat]: the task is created, it runs
      when the event loop gets to it. *)
Definition start_heartbeat (self : HuaweiSolarBridge.t) : Outcome HuaweiSolarBridge.t :=
    match HuaweiSolarBridge.__heartbeat_task self with
    | Some TaskRunning =>
        Raise (HuaweiSolarException "Cannot start heartbeat as it's still running!")
    | _ =>
        Return (HuaweiSolarBridge.mk
          (HuaweiSolarBridge.client self) (HuaweiSolarBridge._primary self)
          (HuaweiSolarBridge.slave_id self) (HuaweiSolarBridge.pv_string_count self)
          (HuaweiSolarBridge.has_optimizers self)
          (HuaweiSolarBridge.battery_1_type self) (HuaweiSolarBridge.battery_2_type self)
          (HuaweiSolarBridge.power_meter_type self)
          (HuaweiSolarBridge._pv_registers self)
          true (Some TaskRunning))
    end.

  (** [HuaweiSolarBridge.login]: the bridge as it is afterwards comes
      back with the outcome. *)
Definition bridge_login (self : HuaweiSolarBridge.t) (username password : string)
      : World -> Outcome unit * HuaweiSolarBridge.t * World :=
    fun w =>
      match login sha256 hmac_digest token_bytes
              (HuaweiSolarBridge.client self) username password None w with
      | (Return true, w1) =>
          match start_heartbeat self with
          | Return self1 => (Return tt, self1, w1)
          | Raise e => (Raise e, self, w1)
          | OutOfFuel => (OutOfFuel, self, w1)
          end
      | (Return false, w1) => (Raise InvalidCredentials, self, w1)
      | (Raise e, w1) => (Raise e, self, w1)
      | (OutOfFuel, w1) => (OutOfFuel, self, w1)
      end.
End Bridge.

(** ** A sample catalogue

    [registers.py] is not among the sources, so the statements below are
    over any catalogue. To run the client, this sample has a handful of
    entries laid out as the register map of the inverter is, each decoded
    as a big-endian unsigned integer over its words and none writeable
    but [TIME_ZONE]. *)

Fixpoint be_uint (bs : bytes) (acc : Z) : Z :=
  match bs with
  | [] => acc
  | b :: rest => be_uint rest (acc * 256 + b2z b)
  end.

(** Read [words] 16-bit words at the pointer, as the [decode_*bit_uint]
    methods of the decoder do; too short a payload is a [struct.error]. *)
Definition decode_uint (words : Z) (decoder : BinaryPayloadDecoder)
    (inverter : AsyncHuaweiSolar.t) : Outcome Value * BinaryPayloadDecoder :=
  let n := Z.to_nat (2 * words) in
  let chunk := firstn n (skipn (Z.to_nat (pointer decoder)) (payload decoder)) in
  let decoder' := skip_bytes (2 * words) decoder in
  if (List.length chunk =? n)%nat && (0 <=? pointer decoder)
  then (Return (VInt (be_uint chunk 0)), decoder')
  else (Raise StructError, decoder').

Definition encode_uint16 (v : Value) : Outcome (list Z) :=
  match v with
  | VInt z => if (0 <=? z) && (z <? 65536) then Return [z] else Raise StructError
  | _ => Raise TypeError
  end.

Definition sample_register (register length : Z) (unit : string) : RegisterDefinition :=
  Reg.mk register length (UnitStatic (Some unit)) false (decode_uint length)
    (fun _ => Raise TypeError).

Definition sample_table : list (string * RegisterDefinition) :=
  [ ("MODEL_NAME", sample_register 30000 15 "");
    ("SERIAL_NUMBER", sample_register 30015 10 "");
    ("NB_PV_STRINGS", sample_register 30071 1 "");
    ("PV_01_VOLTAGE", sample_register 32016 1 "V");
    ("PV_01_CURRENT", sample_register 32017 1 "A");
    ("INPUT_POWER", sample_register 32064 2 "W");
    ("LINE_VOLTAGE_A_B", sample_register 32066 1 "V");
    ("LINE_VOLTAGE_B_C", sample_register 32067 1 "V");
    ("LINE_VOLTAGE_C_A", sample_register 32068 1 "V");
    ("PHASE_A_VOLTAGE", sample_register 32069 1 "V");
    ("PHASE_B_VOLTAGE", sample_register 32070 1 "V");
    ("PHASE_C_VOLTAGE", sample_register 32071 1 "V");
    ("PHASE_A_CURRENT", sample_register 32072 2 "A");
    ("PHASE_B_CURRENT", sample_register 32074 2 "A");
    ("PHASE_C_CURRENT", sample_register 32076 2 "A");
    ("DAY_ACTIVE_POWER_PEAK", sample_register 32078 2 "W");
    ("ACTIVE_POWER", sample_register 32080 2 "W");
    ("REACTIVE_POWER", sample_register 32082 2 "VA");
    ("POWER_FACTOR", sample_register 32084 1 "");
    ("GRID_FREQUENCY", sample_register 32085 1 "Hz");
    ("EFFICIENCY", sample_register 32086 1 "%");
    ("INTERNAL_TEMPERATURE", sample_register 32087 1 "C");
    ("INSULATION_RESISTANCE", sample_register 32088 1 "MOhm");
    ("DEVICE_STATUS", sample_register 32089 1 "");
    ("FAULT_CODE", sample_register 32090 1 "");
    ("STARTUP_TIME", sample_register 32091 2 "");
    ("SHUTDOWN_TIME", sample_register 32093 2 "");
    ("ACCUMULATED_YIELD_ENERGY", sample_register 32106 2 "kWh");
    ("DAILY_YIELD_ENERGY", sample_register 32114 2 "kWh");
    ("STORAGE_STATE_OF_CAPACITY", sample_register 37760 1 "%");
    ("STORAGE_RUNNING_STATUS", sample_register 37762 1 "");
    ("STORAGE_BUS_VOLTAGE", sample_register 37763 1 "V");
    ("STORAGE_BUS_CURRENT", sample_register 37764 1 "A");
    ("STORAGE_CHARGE_DISCHARGE_POWER", sample_register 37765 2 "W");
    ("STORAGE_TOTAL_CHARGE", sample_register 37780 2 "kWh");
    ("STORAGE_TOTAL_DISCHARGE", sample_register 37782 2 "kWh");
    ("STORAGE_CURRENT_DAY_CHARGE_CAPACITY", sample_register 37784 2 "kWh");
    ("STORAGE_CURRENT_DAY_DISCHARGE_CAPACITY", sample_register 37786 2 "kWh");
    ("TIME_ZONE",
       Reg.mk 43006 1 (UnitStatic (Some "min")) true (decode_uint 1) encode_uint16);
    ("STORAGE_UNIT_1_PRODUCT_MODEL", sample_register 47000 1 "");
    ("STORAGE_UNIT_2_PRODUCT_MODEL", sample_register 47089 1 "") ].

Fixpoint assoc {A} (k : string) (l : list (string * A)) : option A :=
  match l with
  | [] => None
  | (k', v) :: rest => if String.eqb k k' then Some v else assoc k rest
  end.

Definition SAMPLE_REGISTERS (name : string) : option RegisterDefinition :=
  assoc name sample_table.

(** A [register_names] to go with the sample catalogue: the value of a
    constant is its own name, as the keys of the catalogue are. *)
Definition sample_rn (name : string) : option string := Some name.

(** A session with the defaults of [AsyncHuaweiSolar.create] and a
    connected client that is going to give the replies of [replies]. *)
Definition sample_session : AsyncHuaweiSolar.t :=
  AsyncHuaweiSolar.__init__ DEFAULT_SLAVE DEFAULT_TIMEOUT DEFAULT_COOLDOWN_TIME.

Definition world_of (replies : list Reply) : World :=
  mkWorld replies [] [] true.

(** * Properties *)

Open Scope list_scope.
Unset Implicit Arguments.

(** ** One read attempt *)

(** What [_do_read] makes of the reply of a connected client; [None] is
    the client that does not answer any more. *)
Definition read_attempt_outcome (register length : Z) (reply : option Reply) : Outcome Response :=
  match reply with
  | None | Some TimesOut => Raise TimeoutError
  | Some (ConnectionLost _) =>
      Raise (ReadException
        "Could not read register value, has another device interrupted the connection?")
  | Some (Responds (ExceptionResponse oc code)) =>
      if code =? ModbusExceptions.SlaveBusy then Raise SlaveBusyException
      else Raise (ReadException
             ("Got error while reading from register " ++ str_int register
                ++ " with length " ++ str_int length ++ ": "
                ++ str_response (ExceptionResponse oc code))%string)
  | Some (Responds r) => Return r
  end.

(** The replies the retry policy absorbs: a timeout and the Modbus
    exception SlaveBusy (code 6). *)
Definition transient (r : Reply) : bool :=
  match r with
  | TimesOut => true
  | Responds (ExceptionResponse _ code) => code =? ModbusExceptions.SlaveBusy
  | _ => false
  end.

(** [n] further tries of the request [ev], each after the [wait]. *)
Fixpoint retries (wait : Z) (ev : Event) (n : nat) : list Event :=
  match n with
  | O => []
  | S n' => EvSleep wait :: ev :: retries wait ev n'
  end.

Definition read_call (self : AsyncHuaweiSolar.t) (register length : Z) (slave : option Z) : Event :=
  EvReadHolding register length (slave_or slave (AsyncHuaweiSolar.slave self))
    (AsyncHuaweiSolar._timeout self).

Definition write_call (self : AsyncHuaweiSolar.t) (register : Z) (value : list Z)
    (slave : option Z) : Event :=
  EvWriteRegisters register value (slave_or slave (AsyncHuaweiSolar.slave self))
    (AsyncHuaweiSolar._timeout self).

Lemma _do_read_connected (self : AsyncHuaweiSolar.t) (register length : Z)
    (slave : option Z) (w : World) :
  connected w = true ->
  let r := _do_read self register length slave w in
  fst r = read_attempt_outcome register length (hd_error (script w))
  /\ script (snd r) = tl (script w)
  /\ trace (snd r) = trace w ++ [read_call self register length slave]
  /\ connected (snd r) = true.
Proof.
  intros Hc. unfold _do_read, bind, is_client_connected, try_except, transport.
  rewrite Hc. cbn [negb emit snd script trace log connected].
  destruct (script w) as [|reply rest]; cbn.
  - repeat split; assumption.
  - destruct reply as [resp| |]; cbn.
    + destruct resp; cbn; try (repeat split; assumption).
      destruct (exception_code =? ModbusExceptions.SlaveBusy); cbn;
        repeat split; assumption.
    + repeat split; assumption.
    + repeat split; assumption.
Qed.

Lemma _do_read_disconnected (self : AsyncHuaweiSolar.t) (register length : Z)
    (slave : option Z) (w : World) :
  connected w = false ->
  let r := _do_read self register length slave w in
  fst r = Raise (ConnectionException "Modbus client is not connected to the inverter.")
  /\ script (snd r) = script w
  /\ trace (snd r) = trace w
  /\ connected (snd r) = false.
Proof.
  intros Hc. unfold _do_read, bind, is_client_connected. rewrite Hc. cbn.
  repeat split; assumption.
Qed.

Lemma transient_retried (register length : Z) (r : Reply) :
  transient r = true ->
  exists e, read_attempt_outcome register length (Some r) = Raise e
            /\ timeout_or_busy e = true.
Proof.
  destruct r as [resp| |]; cbn; try discriminate.
  - destruct resp; try discriminate. cbn. intros ->. eexists; split; reflexivity.
  - intros _. eexists; split; reflexivity.
Qed.

Lemma final_not_retried (register length : Z) (r : Reply) :
  transient r = false ->
  match read_attempt_outcome register length (Some r) with
  | Return resp => r = Responds resp
  | Raise e => timeout_or_busy e = false /\ exists msg, e = ReadException msg
  | OutOfFuel => False
  end.
Proof.
  destruct r as [resp| |]; cbn; try discriminate.
  - destruct resp; cbn; try reflexivity.
    intros ->. split; [reflexivity | eexists; reflexivity].
  - intros _. split; [reflexivity | eexists; reflexivity].
Qed.

Lemma sleep_then {A} (d : Z) (k : M A) (w : World) :
  (sleep d ;;; k) w = k (mkWorld (script w) (trace w ++ [EvSleep d]) (log w) (connected w)).
Proof. reflexivity. Qed.

(** ** The retry loop around a read *)

Section ReadRetry.
Variable self : AsyncHuaweiSolar.t.
Variables register length : Z.
Variable slave : option Z.

Let ev : Event := read_call self register length slave.

Let giveup (tries : Z) : M unit :=
    raise (ReadException ("Failed to read register " ++ str_int register
                            ++ " after " ++ str_int tries ++ " tries")%string).

Let loop : nat -> Z -> M Response :=
    attempt timeout_or_busy DEFAULT_WAIT giveup (_do_read self register length slave).

Lemma attempt_eq (n : nat) (tries : Z) (w : World) :
    loop n tries w =
    match _do_read self register length slave w with
    | (Raise e, w') =>
        if timeout_or_busy e then
          match n with
          | O => (giveup tries ;;; raise e) w'
          | S n' => (sleep DEFAULT_WAIT ;;; loop n' (tries + 1)) w'
          end
        else (Raise e, w')
    | r => r
    end.
Proof. destruct n; reflexivity. Qed.

  (** Transient replies are absorbed one by one, until a reply that is
      not transient ends the loop. *)
Lemma attempt_absorbs (pre : list Reply) :
    forall (n : nat) (tries : Z) (w : World) (r : Reply) (rest : list Reply),
      connected w = true ->
      script w = pre ++ r :: rest ->
      forallb transient pre = true ->
      transient r = false ->
      (List.length pre <= n)%nat ->
      let res := loop n tries w in
      fst res = read_attempt_outcome register length (Some r)
      /\ script (snd res) = rest
      /\ trace (snd res) = trace w ++ ev :: retries DEFAULT_WAIT ev (List.length pre)
      /\ connected (snd res) = true.
Proof.
    induction pre as [|a pre IH]; intros n tries w r rest Hc Hs Hpre Hr Hn res;
      subst res; rewrite attempt_eq;
      destruct (_do_read_connected self register length slave w Hc) as (Ho & Hs' & Ht & Hc');
      destruct (_do_read self register length slave w) as [o w1];
      cbn [fst snd] in *; rewrite Hs in Ho, Hs'; cbn [hd_error tl app] in Ho, Hs'.
    - pose proof (final_not_retried register length r Hr) as Hfin.
      rewrite <- Ho in Hfin. cbn [List.length retries].
      destruct o as [resp|e|]; cbn [fst snd].
      + repeat split; assumption.
      + destruct Hfin as [Hne _]. rewrite Hne. cbn [fst snd]. repeat split; assumption.
      + contradiction.
    - cbn [forallb] in Hpre. apply andb_prop in Hpre. destruct Hpre as [Ha Hpre].
      destruct (transient_retried register length a Ha) as (e & He & Hre).
      rewrite He in Ho. subst o. rewrite Hre.
      destruct n as [|n']; [cbn in Hn; lia|].
      rewrite sleep_then.
      set (w2 := mkWorld (script w1) (trace w1 ++ [EvSleep DEFAULT_WAIT]) (log w1) (connected w1)).
      specialize (IH n' (tries + 1) w2 r rest).
      cbn zeta in IH. subst w2. cbn [script trace connected] in IH.
      destruct IH as (I1 & I2 & I3 & I4); try assumption.
      { cbn in Hn. lia. }
      repeat split; try assumption.
      rewrite I3, Ht. cbn [List.length retries].
      rewrite <- !app_assoc. reflexivity.
Qed.

  (** When every try meets a transient reply, the last one gives up with
      the number of tries made. *)
Lemma attempt_exhausts (n : nat) :
    forall (pre : list Reply) (tries : Z) (w : World) (rest : list Reply),
      connected w = true ->
      script w = pre ++ rest ->
      forallb transient pre = true ->
      List.length pre = S n ->
      let res := loop n tries w in
      fst res = Raise (ReadException
                  ("Failed to read register " ++ str_int register ++ " after "
                     ++ str_int (tries + Z.of_nat n) ++ " tries")%string)
      /\ script (snd res) = rest
      /\ trace (snd res) = trace w ++ ev :: retries DEFAULT_WAIT ev n
      /\ connected (snd res) = true.
Proof.
    induction n as [|n IH]; intros pre tries w rest Hc Hs Hpre Hlen res;
      subst res; rewrite attempt_eq;
      destruct (_do_read_connected self register length slave w Hc) as (Ho & Hs' & Ht & Hc');
      destruct (_do_read self register length slave w) as [o w1];
      cbn [fst snd] in *;
      destruct pre as [|a pre]; try discriminate;
      rewrite Hs in Ho, Hs'; cbn [hd_error tl app] in Ho, Hs';
      cbn [forallb] in Hpre; apply andb_prop in Hpre; destruct Hpre as [Ha Hpre];
      destruct (transient_retried register length a Ha) as (e & He & Hre);
      rewrite He in Ho; subst o; rewrite Hre.
    - destruct pre; [|discriminate]. cbn [app] in Hs'.
      unfold bind, giveup, raise. cbn [fst snd retries].
      rewrite Z.add_0_r. repeat split; assumption.
    - rewrite sleep_then.
      set (w2 := mkWorld (script w1) (trace w1 ++ [EvSleep DEFAULT_WAIT]) (log w1) (connected w1)).
      specialize (IH pre (tries + 1) w2 rest).
      cbn zeta in IH. subst w2. cbn [script trace connected] in IH.
      destruct IH as (I1 & I2 & I3 & I4); try assumption.
      { cbn in Hlen. lia. }
      repeat split; try assumption.
      + rewrite I1. replace (tries + 1 + Z.of_nat n) with (tries + Z.of_nat (S n)) by lia.
        reflexivity.
      + rewrite I3, Ht. cbn [retries]. rewrite <- !app_assoc. reflexivity.
Qed.

  (** Whatever the client replies, the loop makes one try and at most
      [n] more, each after the 2 s wait, and nothing else. *)
Lemma attempt_shape (n : nat) :
    forall (tries : Z) (w : World),
      connected w = true ->
      exists k, (k <= n)%nat
        /\ trace (snd (loop n tries w)) = trace w ++ ev :: retries DEFAULT_WAIT ev k
        /\ connected (snd (loop n tries w)) = true.
Proof.
    induction n as [|n IH]; intros tries w Hc; rewrite attempt_eq;
      destruct (_do_read_connected self register length slave w Hc) as (Ho & Hs' & Ht & Hc');
      destruct (_do_read self register length slave w) as [o w1];
      cbn [fst snd] in *.
    - exists 0%nat. destruct o as [resp|e|]; cbn [fst snd retries];
        try (repeat split; (lia || assumption)).
      destruct (timeout_or_busy e); cbn; repeat split; (lia || assumption).
    - destruct o as [resp|e|];
        try (exists 0%nat; cbn [fst snd retries]; repeat split; (lia || assumption)).
      destruct (timeout_or_busy e);
        [|exists 0%nat; cbn [fst snd retries]; repeat split; (lia || assumption)].
      rewrite sleep_then.
      set (w2 := mkWorld (script w1) (trace w1 ++ [EvSleep DEFAULT_WAIT]) (log w1) (connected w1)).
      destruct (IH (tries + 1) w2) as (k & Hk & I3 & I4); [subst w2; assumption|].
      exists (S k). repeat split; try assumption; [lia|].
      rewrite I3. subst w2. cbn [trace retries]. rewrite Ht, <- !app_assoc. reflexivity.
Qed.
End ReadRetry.

(** ** [_read_registers]: lock, retry loop, cooldown *)

Definition acquired (w : World) : World :=
  mkWorld (script w) (trace w ++ [EvAcquire]) (log w) (connected w).

Definition released (w : World) : World :=
  mkWorld (script w) (trace w ++ [EvRelease]) (log w) (connected w).

Definition slept (d : Z) (w : World) : World :=
  mkWorld (script w) (trace w ++ [EvSleep d]) (log w) (connected w).

Lemma with_lock_eq {A} (body : M A) (w : World) :
  with_lock body w = (fst (body (acquired w)), released (snd (body (acquired w)))).
Proof.
  unfold with_lock, emit, acquired, released. cbn.
  destruct (body _) as [o w1]. reflexivity.
Qed.

Lemma _read_registers_eq (self : AsyncHuaweiSolar.t) (register length : Z)
    (slave : option Z) (w : World) :
  _read_registers self register length slave w =
  match attempt timeout_or_busy DEFAULT_WAIT
          (fun tries : Z =>
             raise (ReadException ("Failed to read register " ++ str_int register
                                     ++ " after " ++ str_int tries ++ " tries")%string))
          (_do_read self register length slave) 4 1 (acquired w) with
  | (Return r, w1) =>
      (Return r, released (slept (AsyncHuaweiSolar._cooldown_time self) w1))
  | (Raise e, w1) => (Raise e, released w1)
  | (OutOfFuel, w1) => (OutOfFuel, released w1)
  end.
Proof.
  unfold _read_registers. rewrite with_lock_eq.
  unfold on_exception, bind. cbn [Nat.pred].
  destruct (attempt _ _ _ _ _ _ _) as [[r|e|] w1]; reflexivity.
Qed.

(** The cooldown, when the outcome is a response. *)
Definition cooldown_if {A} (self : AsyncHuaweiSolar.t) (o : Outcome A) : list Event :=
  match o with
  | Return _ => [EvSleep (AsyncHuaweiSolar._cooldown_time self)]
  | _ => []
  end.

Lemma _read_registers_absorbs (self : AsyncHuaweiSolar.t) (register length : Z)
    (slave : option Z) (w : World) (pre : list Reply) (r : Reply) (rest : list Reply) :
  connected w = true ->
  script w = pre ++ r :: rest ->
  forallb transient pre = true ->
  transient r = false ->
  (List.length pre < 5)%nat ->
  let res := _read_registers self register length slave w in
  fst res = read_attempt_outcome register length (Some r)
  /\ script (snd res) = rest
  /\ trace (snd res) =
       trace w ++ EvAcquire :: read_call self register length slave
         :: retries DEFAULT_WAIT (read_call self register length slave) (List.length pre)
         ++ cooldown_if self (fst res) ++ [EvRelease].
Proof.
  intros Hc Hs Hpre Hr Hlen res. subst res. rewrite _read_registers_eq.
  destruct (attempt_absorbs self register length slave pre 4 1 (acquired w) r rest)
    as (H1 & H2 & H3 & H4); try assumption; [lia|].
  destruct (attempt _ _ _ _ _ _ _) as [o w1]. cbn [fst snd] in *.
  destruct o as [resp|e|]; cbn [fst snd released slept script trace cooldown_if];
    (split; [assumption|split; [assumption|]]);
    rewrite H3; cbn [acquired trace]; rewrite <- ?app_assoc; cbn [app];
    rewrite <- ?app_assoc; reflexivity.
Qed.

Lemma _read_registers_exhausts (self : AsyncHuaweiSolar.t) (register length : Z)
    (slave : option Z) (w : World) (pre rest : list Reply) :
  connected w = true ->
  script w = pre ++ rest ->
  forallb transient pre = true ->
  List.length pre = 5%nat ->
  let res := _read_registers self register length slave w in
  fst res = Raise (ReadException
              ("Failed to read register " ++ str_int register ++ " after 5 tries")%string)
  /\ script (snd res) = rest
  /\ trace (snd res) =
       trace w ++ EvAcquire :: read_call self register length slave
         :: retries DEFAULT_WAIT (read_call self register length slave) 4
         ++ [EvRelease].
Proof.
  intros Hc Hs Hpre Hlen res. subst res. rewrite _read_registers_eq.
  destruct (attempt_exhausts self register length slave 4 pre 1 (acquired w) rest)
    as (H1 & H2 & H3 & H4); try assumption.
  destruct (attempt _ _ _ _ _ _ _) as [o w1]. cbn [fst snd] in *.
  subst o. cbn [fst snd released script trace].
  split; [reflexivity|split; [assumption|]].
  rewrite H3. cbn [acquired trace]. rewrite <- ?app_assoc. cbn [app].
  rewrite <- ?app_assoc. reflexivity.
Qed.

(** The trace of a read, whatever a connected client replies: the lock,
    the tries of the one request, the cooldown when a response came
    back, the release. *)
Lemma _read_registers_connected_shape (self : AsyncHuaweiSolar.t) (register length : Z)
    (slave : option Z) (w : World) :
  connected w = true ->
  let res := _read_registers self register length slave w in
  let ev := read_call self register length slave in
  exists k, (k <= 4)%nat
    /\ trace (snd res) =
         trace w ++ EvAcquire :: ev :: retries DEFAULT_WAIT ev k
           ++ cooldown_if self (fst res) ++ [EvRelease].
Proof.
  intros Hc res ev. subst res. rewrite _read_registers_eq.
  destruct (attempt_shape self register length slave 4 1 (acquired w) Hc)
    as (k & Hk & H3 & H4).
  destruct (attempt _ _ _ _ _ _ _) as [o w1]. cbn [fst snd] in *.
  exists k. split; [assumption|].
  destruct o as [resp|e|]; cbn [fst snd released slept script trace cooldown_if];
    rewrite H3; cbn [acquired trace]; rewrite <- ?app_assoc; cbn [app];
    rewrite <- ?app_assoc; reflexivity.
Qed.

(** A client that is not connected is not asked anything. *)
Lemma _read_registers_disconnected (self : AsyncHuaweiSolar.t) (register length : Z)
    (slave : option Z) (w : World) :
  connected w = false ->
  let res := _read_registers self register length slave w in
  fst res = Raise (ConnectionException "Modbus client is not connected to the inverter.")
  /\ trace (snd res) = trace w ++ [EvAcquire; EvRelease].
Proof.
  intros Hc res. subst res. rewrite _read_registers_eq.
  assert (Hd : connected (acquired w) = false) by exact Hc.
  destruct (_do_read_disconnected self register length slave (acquired w) Hd)
    as (H1 & H2 & H3 & H4).
  change (attempt timeout_or_busy DEFAULT_WAIT ?g ?t 4 1 (acquired w))
    with (match t (acquired w) with
          | (Raise e, w') =>
              if timeout_or_busy e
              then (sleep DEFAULT_WAIT ;;; attempt timeout_or_busy DEFAULT_WAIT g t 3 (1 + 1)) w'
              else (Raise e, w')
          | r => r
          end).
  destruct (_do_read self register length slave (acquired w)) as [o w1].
  cbn [fst snd] in *. subst o. cbn [timeout_or_busy fst snd released trace].
  split; [reflexivity|].
  rewrite H3. cbn [acquired trace]. rewrite <- ?app_assoc. reflexivity.
Qed.

(** ** One write attempt *)

(** What [write_registers] makes of the reply of a connected client. *)
Definition write_attempt_outcome (reply : option Reply) : Outcome Response :=
  match reply with
  | None | Some TimesOut => Raise TimeoutError
  | Some (ConnectionLost string) =>
      Raise (ConnectionException ("Modbus Error: [Connection] " ++ string)%string)
  | Some (Responds (ExceptionResponse _ code)) =>
      if code =? 128 then Raise (PermissionDenied "Permission denied")
      else Raise (WriteException (str_option (ModbusExceptions.decode code)))
  | Some (Responds r) => Return r
  end.

Lemma write_registers_connected (self : AsyncHuaweiSolar.t) (register : Z)
    (value : list Z) (slave : option Z) (w : World) :
  connected w = true ->
  let r := write_registers self register value slave w in
  fst r = write_attempt_outcome (hd_error (script w))
  /\ script (snd r) = tl (script w)
  /\ trace (snd r) = trace w ++ [write_call self register value slave]
  /\ connected (snd r) = true.
Proof.
  intros Hc. unfold write_registers, bind, is_client_connected, try_except, transport.
  rewrite Hc. cbn [negb emit snd script trace log connected].
  destruct (script w) as [|reply rest]; cbn.
  - repeat split; assumption.
  - destruct reply as [resp| |]; cbn.
    + destruct resp; cbn; try (repeat split; assumption).
      destruct (exception_code =? 128); cbn; repeat split; assumption.
    + repeat split; assumption.
    + repeat split; assumption.
Qed.

(** ** C3: the retry policy *)

(** C3, as the code has it. A read is tried again only after a timeout
    or a SlaveBusy exception response, each time after a constant wait
    of 2 s (2000 ms), and at most 5 times in all: the first reply that
    is not transient ends the read, a response being returned with no
    further try and any other error raised as it is; five transient
    replies in a row end it with a [ReadException] that names the 5
    tries. [write_registers] has no retry: it makes exactly one try, and
    a timeout or a SlaveBusy reply ends the write at once. *)
Theorem retry_policy_reads_only (self : AsyncHuaweiSolar.t) (register length : Z)
    (slave : option Z) (w : World) :
  connected w = true ->
  let ev := read_call self register length slave in
  (forall (pre : list Reply) (r : Reply) (rest : list Reply),
      script w = pre ++ r :: rest ->
      forallb transient pre = true ->
      transient r = false ->
      (List.length pre < 5)%nat ->
      let res := _read_registers self register length slave w in
      fst res = read_attempt_outcome register length (Some r)
      /\ script (snd res) = rest
      /\ trace (snd res) =
           trace w ++ EvAcquire :: ev :: retries 2000 ev (List.length pre)
             ++ cooldown_if self (fst res) ++ [EvRelease])
  /\ (forall (pre rest : list Reply),
      script w = pre ++ rest ->
      forallb transient pre = true ->
      List.length pre = 5%nat ->
      let res := _read_registers self register length slave w in
      fst res = Raise (ReadException
                  ("Failed to read register " ++ str_int register ++ " after 5 tries")%string)
      /\ script (snd res) = rest
      /\ trace (snd res) = trace w ++ EvAcquire :: ev :: retries 2000 ev 4 ++ [EvRelease])
  /\ (forall (value : list Z),
      let res := write_registers self register value slave w in
      fst res = write_attempt_outcome (hd_error (script w))
      /\ script (snd res) = tl (script w)
      /\ trace (snd res) = trace w ++ [write_call self register value slave]).
Proof.
  intros Hc ev. split; [|split].
  - intros pre r rest Hs Hpre Hr Hlen.
    exact (_read_registers_absorbs self register length slave w pre r rest Hc Hs Hpre Hr Hlen).
  - intros pre rest Hs Hpre Hlen.
    exact (_read_registers_exhausts self register length slave w pre rest Hc Hs Hpre Hlen).
  - intros value res.
    destruct (write_registers_connected self register value slave w Hc) as (H1 & H2 & H3 & _).
    repeat split; assumption.
Qed.

Definition slave_busy : Reply := Responds (ExceptionResponse 3 ModbusExceptions.SlaveBusy).

(** Scenario S6: SlaveBusy twice, then the registers. *)
Lemma retry_policy_reads_only_witness :
  let w := world_of [slave_busy; slave_busy;
                     Responds (ReadHoldingRegistersResponse [0; 5000])] in
  let res := _read_registers sample_session 32080 2 None w in
  connected w = true
  /\ fst res = Return (ReadHoldingRegistersResponse [0; 5000])
  /\ script (snd res) = []
  /\ trace (snd res) =
       [EvAcquire; EvReadHolding 32080 2 0 5000; EvSleep 2000;
        EvReadHolding 32080 2 0 5000; EvSleep 2000;
        EvReadHolding 32080 2 0 5000; EvSleep 50; EvRelease].
Proof.
  intros w res. split; [reflexivity|].
  destruct (retry_policy_reads_only sample_session 32080 2 None w eq_refl) as [H _].
  destruct (H [slave_busy; slave_busy]
              (Responds (ReadHoldingRegistersResponse [0; 5000])) []
              eq_refl eq_refl eq_refl) as (H1 & H2 & H3).
  - cbn. lia.
  - split; [exact H1|]. split; [exact H2|]. exact H3.
Defined.

(** The claim as the specification states it also covers writes; on a
    write, a timeout is neither tried again nor turned into a
    [WriteException]: the reply that would have answered a second try is
    never asked for. *)
Lemma write_is_not_retried :
  let res := set sample_session SAMPLE_REGISTERS "TIME_ZONE" (VInt 60) None
               (world_of [TimesOut; Responds (WriteMultipleRegistersResponse 43006 1)]) in
  fst res = Raise TimeoutError
  /\ trace (snd res) = [EvAcquire; EvWriteRegisters 43006 [60] 0 5000; EvRelease]
  /\ script (snd res) = [Responds (WriteMultipleRegistersResponse 43006 1)].
Proof. vm_compute. repeat split. Qed.

(** ** C4: the cooldown *)

Definition answered (reply : option Reply) : bool :=
  match write_attempt_outcome reply with
  | Return _ => true
  | _ => false
  end.

(** What [set] does with the response, once the lock is released. *)
Definition set_result (reg : RegisterDefinition) (response : Response) : M bool :=
  match response with
  | ExceptionResponse _ _ =>
      raise (WriteException
               ("Got error while writing from register "
                  ++ str_int (Reg.register reg) ++ " : " ++ str_response response)%string)
  | WriteMultipleRegistersResponse address count =>
      ret ((address =? Reg.register reg) && (count =? Reg.length reg))
  | _ => raise AttributeError
  end.

Lemma set_eq (REGISTERS : string -> option RegisterDefinition)
    (self : AsyncHuaweiSolar.t) (name : string) (value : Value) (slave : option Z)
    (reg : RegisterDefinition) (words : list Z) (w : World) :
  REGISTERS name = Some reg ->
  Reg.writeable reg = true ->
  Reg.encode reg value = Return words ->
  Z.of_nat (List.length words) = Reg.length reg ->
  set self REGISTERS name value slave w =
  match write_registers self (Reg.register reg) words slave (acquired w) with
  | (Return response, w1) =>
      set_result reg response
        (released (slept (AsyncHuaweiSolar._cooldown_time self) w1))
  | (Raise e, w1) => (Raise e, released w1)
  | (OutOfFuel, w1) => (OutOfFuel, released w1)
  end.
Proof.
  intros Hreg Hw Henc Hlen. unfold set. rewrite Hreg, Hw. cbn [negb].
  unfold bind, lift. rewrite Henc, Hlen, Z.eqb_refl. cbn [negb].
  rewrite with_lock_eq.
  destruct (write_registers self (Reg.register reg) words slave (acquired w))
    as [[response|e|] w1]; reflexivity.
Qed.

Lemma set_run (REGISTERS : string -> option RegisterDefinition)
    (self : AsyncHuaweiSolar.t) (name : string) (value : Value) (slave : option Z)
    (reg : RegisterDefinition) (words : list Z) (w : World) :
  REGISTERS name = Some reg ->
  Reg.writeable reg = true ->
  Reg.encode reg value = Return words ->
  Z.of_nat (List.length words) = Reg.length reg ->
  connected w = true ->
  let res := set self REGISTERS name value slave w in
  trace (snd res) =
    trace w ++ [EvAcquire; write_call self (Reg.register reg) words slave]
      ++ (if answered (hd_error (script w))
          then [EvSleep (AsyncHuaweiSolar._cooldown_time self)] else [])
      ++ [EvRelease]
  /\ (answered (hd_error (script w)) = false -> exists e, fst res = Raise e).
Proof.
  intros Hreg Hw Henc Hlen Hc res. subst res.
  rewrite (set_eq REGISTERS self name value slave reg words w Hreg Hw Henc Hlen).
  assert (Hc' : connected (acquired w) = true) by exact Hc.
  destruct (write_registers_connected self (Reg.register reg) words slave (acquired w) Hc')
    as (H1 & H2 & H3 & H4).
  change (script (acquired w)) with (script w) in H1.
  destruct (write_registers self (Reg.register reg) words slave (acquired w)) as [o w1].
  cbn [fst snd] in *. unfold answered. rewrite <- H1.
  destruct o as [resp|e|].
  - split; [|discriminate].
    destruct resp; cbn [set_result raise ret fst snd released slept trace];
      rewrite H3; cbn [acquired trace]; rewrite <- ?app_assoc; reflexivity.
  - split.
    + cbn [fst snd released trace]. rewrite H3. cbn [acquired trace].
      rewrite <- ?app_assoc. reflexivity.
    + intros _. exists e. reflexivity.
  - exfalso. destruct (hd_error (script w)) as [[[]| |]|]; cbn in H1;
      try discriminate; destruct (_ =? 128); discriminate.
Qed.

(** C4, as the code has it. The cooldown follows a response and nothing
    else. The trace of [_read_registers] is: the lock taken, the tries
    of the request (none when the client is not connected), then the
    cooldown sleep if and only if a response is returned, then the lock
    released; when the read ends in an error the lock is released right
    after the last try. [set] does the same around its single write. *)
Theorem cooldown_follows_success_only (REGISTERS : string -> option RegisterDefinition)
    (self : AsyncHuaweiSolar.t) (slave : option Z) (w : World) :
  connected w = true ->
  (forall (register length : Z),
      let res := _read_registers self register length slave w in
      let ev := read_call self register length slave in
      exists k, (k <= 4)%nat
        /\ trace (snd res) =
             trace w ++ EvAcquire :: ev :: retries DEFAULT_WAIT ev k
               ++ match fst res with
                  | Return _ => [EvSleep (AsyncHuaweiSolar._cooldown_time self)]
                  | _ => []
                  end
               ++ [EvRelease])
  /\ (forall (name : string) (value : Value) (reg : RegisterDefinition) (words : list Z),
      REGISTERS name = Some reg ->
      Reg.writeable reg = true ->
      Reg.encode reg value = Return words ->
      Z.of_nat (List.length words) = Reg.length reg ->
      let res := set self REGISTERS name value slave w in
      trace (snd res) =
        trace w ++ [EvAcquire; write_call self (Reg.register reg) words slave]
          ++ (if answered (hd_error (script w))
              then [EvSleep (AsyncHuaweiSolar._cooldown_time self)] else [])
          ++ [EvRelease]
      /\ (answered (hd_error (script w)) = false -> exists e, fst res = Raise e)).
Proof.
  intros Hc. split.
  - intros register length res ev.
    exact (_read_registers_connected_shape self register length slave w Hc).
  - intros name value reg words Hreg Hwr Henc Hlen.
    exact (set_run REGISTERS self name value slave reg words w Hreg Hwr Henc Hlen Hc).
Qed.

Lemma cooldown_follows_success_only_witness :
  let w := world_of [Responds (ReadHoldingRegistersResponse [0; 5000])] in
  let res := _read_registers sample_session 32080 2 None w in
  connected w = true
  /\ exists k, (k <= 4)%nat
       /\ trace (snd res) =
            EvAcquire :: EvReadHolding 32080 2 0 5000
              :: retries DEFAULT_WAIT (EvReadHolding 32080 2 0 5000) k
              ++ [EvSleep 50] ++ [EvRelease].
Proof.
  intros w res. split; [reflexivity|].
  destruct (cooldown_follows_success_only SAMPLE_REGISTERS sample_session None w eq_refl)
    as [H _].
  exact (H 32080 2).
Defined.

(** The claim as the specification states it has the cooldown after a
    final error as well. An IllegalAddress exception response ends the
    read with a [ReadException], and the lock is released right after
    the request: no sleep of 50 ms is in the trace. *)
Lemma no_cooldown_after_error :
  let res := _read_registers sample_session 32080 2 None
               (world_of [Responds (ExceptionResponse 3 ModbusExceptions.IllegalAddress)]) in
  fst res = Raise (ReadException
    "Got error while reading from register 32080 with length 2: Exception Response(131, 3, IllegalAddress)")
  /\ trace (snd res) = [EvAcquire; EvReadHolding 32080 2 0 5000; EvRelease]
  /\ ~ In (EvSleep 50) (trace (snd res)).
Proof.
  vm_compute. repeat split.
  intros [H|[H|[H|[]]]]; discriminate.
Qed.

(** ** C1: the gap between registers *)

(** After the order check has passed, [register_distance] is the end of
    the previous register minus the start of the next one, which is not
    positive: the comparison with 64 never holds, and the first loop of
    [get_multiple] raises nothing but the order error. *)
Lemma check_registers_no_gap_error (registers : list RegisterDefinition) (idxs : list nat)
    (w : World) :
  fst (check_registers registers idxs w)
  <> Raise (ValueError
       "Gap between requested registers is too large. Split it in two requests").
Proof.
  induction idxs as [|idx idxs IH]; cbn [check_registers].
  - discriminate.
  - destruct (nth_error registers (idx - 1)) as [prev|]; [|discriminate].
    destruct (nth_error registers idx) as [cur|]; [|discriminate].
    destruct (Reg.register prev + Reg.length prev >? Reg.register cur) eqn:Hord.
    + cbn. intros H. inversion H.
    + assert (Hgap : (Reg.register prev + Reg.length prev - Reg.register cur >? 64) = false)
        by lia.
      rewrite Hgap. exact IH.
Qed.

(** C1, on the code: two known registers in increasing order, 2065
    words apart. [get_multiple] does not refuse them: it reads the whole
    range of 2082 words in one request and returns the two fields. *)
Theorem wide_gap_is_read :
  let res := get_multiple sample_session SAMPLE_REGISTERS ["MODEL_NAME"; "ACTIVE_POWER"] None
               (world_of [Responds (ReadHoldingRegistersResponse (repeat 7 2082))]) in
  (exists results, fst res = Return results /\ List.length results = 2%nat)
  /\ trace (snd res) = [EvAcquire; EvReadHolding 30000 2082 0 5000; EvSleep 50; EvRelease].
Proof.
  vm_compute. split; [|reflexivity].
  eexists. split; reflexivity.
Qed.

(** ** C2: one read for the whole list *)

(** Consecutive registers do not overlap and keep their order. *)
Definition ordered (registers : list RegisterDefinition) : Prop :=
  forall (i : nat) (prev cur : RegisterDefinition),
    nth_error registers i = Some prev ->
    nth_error registers (S i) = Some cur ->
    Reg.register prev + Reg.length prev <= Reg.register cur.

Definition gap_words (prev cur : RegisterDefinition) : Z :=
  Reg.register cur - (Reg.register prev + Reg.length prev).

Definition gap_bounded (registers : list RegisterDefinition) : Prop :=
  forall (i : nat) (prev cur : RegisterDefinition),
    nth_error registers i = Some prev ->
    nth_error registers (S i) = Some cur ->
    gap_words prev cur <= 64.

(** The byte offset of a register in the payload of the read that
    starts at [first]. *)
Definition offset (first reg : RegisterDefinition) : Z :=
  2 * (Reg.register reg - Reg.register first).

(** The decoder of a register reads its own words: at the offset of the
    register it returns a value and leaves the pointer [2 * length]
    bytes further. *)
Definition decodes_in_place (self : AsyncHuaweiSolar.t) (data : bytes)
    (first reg : RegisterDefinition) : Prop :=
  exists v, Reg.decode reg (mkDecoder data (offset first reg)) self
            = (Return v, mkDecoder data (offset first reg + 2 * Reg.length reg)).

(** The unit [_decode_response] exposes. *)
Definition exposed_unit (reg : RegisterDefinition) : option string :=
  match Reg.unit reg with
  | UnitStatic u => u
  | _ => None
  end.

(** The field of [reg], decoded at its own offset of the payload. *)
Definition field_at (self : AsyncHuaweiSolar.t) (data : bytes)
    (first reg : RegisterDefinition) : Result.t :=
  Result.mk
    (match fst (Reg.decode reg (mkDecoder data (offset first reg)) self) with
     | Return v => v
     | _ => VNone
     end)
    (exposed_unit reg).

Lemma skipn_cons_nth {A} (l : list A) :
  forall (k : nat) (x : A), nth_error l k = Some x -> skipn k l = x :: skipn (S k) l.
Proof.
  induction l as [|a l IH]; intros [|k] x H; cbn in *; try discriminate.
  - inversion H. reflexivity.
  - exact (IH k x H).
Qed.

Lemma all_known_Some {A} (l : list A) : all_known (map Some l) = Some l.
Proof.
  induction l as [|a l IH]; cbn; [reflexivity|]. rewrite IH. reflexivity.
Qed.

Lemma check_registers_ordered (registers : list RegisterDefinition) (w : World) :
  ordered registers ->
  forall idxs : list nat,
    (forall idx, In idx idxs -> (1 <= idx < List.length registers)%nat) ->
    check_registers registers idxs w = (Return tt, w).
Proof.
  intros Hord. induction idxs as [|idx idxs IH]; intros Hin; cbn [check_registers].
  - reflexivity.
  - assert (Hidx : (1 <= idx < List.length registers)%nat) by (apply Hin; left; reflexivity).
    destruct (nth_error registers (idx - 1)) as [prev|] eqn:Hprev;
      [|apply nth_error_None in Hprev; lia].
    destruct (nth_error registers idx) as [cur|] eqn:Hcur;
      [|apply nth_error_None in Hcur; lia].
    assert (Hle : Reg.register prev + Reg.length prev <= Reg.register cur).
    { apply (Hord (idx - 1)%nat); [assumption|].
      replace (S (idx - 1)) with idx by lia. assumption. }
    replace (Reg.register prev + Reg.length prev >? Reg.register cur) with false by lia.
    replace (Reg.register prev + Reg.length prev - Reg.register cur >? 64) with false by lia.
    apply IH. intros i Hi. apply Hin. right. assumption.
Qed.

Lemma _decode_response_in_place (self : AsyncHuaweiSolar.t) (data : bytes)
    (first reg : RegisterDefinition) :
  decodes_in_place self data first reg ->
  _decode_response self reg (mkDecoder data (offset first reg))
  = (Return (field_at self data first reg),
     mkDecoder data (offset first reg + 2 * Reg.length reg)).
Proof.
  intros [v Hv].
  unfold _decode_response, field_at, exposed_unit. rewrite Hv. cbn [fst].
  destruct (Reg.unit reg); reflexivity.
Qed.

(** The second loop decodes each remaining register at its offset: the
    skip before a register is its gap to the previous one, two bytes a
    word. *)
Lemma decode_registers_in_place (self : AsyncHuaweiSolar.t) (data : bytes)
    (first : RegisterDefinition) (registers : list RegisterDefinition) :
  (forall reg, In reg registers -> decodes_in_place self data first reg) ->
  forall (m k : nat) (prev : RegisterDefinition) (acc : list Result.t),
    (1 <= k)%nat ->
    (k + m = List.length registers)%nat ->
    nth_error registers (k - 1) = Some prev ->
    decode_registers self registers (seq k m)
      (mkDecoder data (offset first prev + 2 * Reg.length prev)) acc
    = Return (acc ++ map (field_at self data first) (skipn k registers)).
Proof.
  intros Hdec. induction m as [|m IH]; intros k prev acc Hk Hlen Hprev.
  - cbn [seq decode_registers]. rewrite skipn_all2 by lia. cbn. rewrite app_nil_r.
    reflexivity.
  - cbn [seq decode_registers].
    destruct (nth_error registers k) as [cur|] eqn:Hcur;
      [|apply nth_error_None in Hcur; lia].
    rewrite Hprev. unfold skip_bytes. cbn [payload pointer].
    replace (offset first prev + 2 * Reg.length prev
             + (Reg.register cur - (Reg.register prev + Reg.length prev)) * 2)
      with (offset first cur) by (unfold offset; lia).
    rewrite (_decode_response_in_place self data first cur)
      by (apply Hdec; eapply nth_error_In; eassumption).
    rewrite (IH (S k) cur (acc ++ [field_at self data first cur])); try lia.
    + f_equal. rewrite <- app_assoc. f_equal.
      rewrite (skipn_cons_nth registers k cur Hcur). reflexivity.
    + replace (S k - 1)%nat with k by lia. assumption.
Qed.

(** The decoding of [get_multiple], which does not touch the client. *)
Definition decode_all (self : AsyncHuaweiSolar.t) (registers : list RegisterDefinition)
    (first : RegisterDefinition) (response : Response) : Outcome (list Result.t) :=
  match response with
  | ReadHoldingRegistersResponse words =>
      match _decode_response self first (fromRegisters words) with
      | (Return r, decoder') =>
          decode_registers self registers (range1 (List.length registers)) decoder' [r]
      | (Raise e, _) => Raise e
      | (OutOfFuel, _) => OutOfFuel
      end
  | _ => Raise AttributeError
  end.

Definition total_length (registers : list RegisterDefinition) (first : RegisterDefinition) : Z :=
  Reg.register (last registers first) + Reg.length (last registers first)
  - Reg.register first.

(** On a list of known names in order, [get_multiple] is one call of
    [_read_registers] followed by the decoding. *)
Lemma get_multiple_eq (REGISTERS : string -> option RegisterDefinition)
    (self : AsyncHuaweiSolar.t) (names : list string) (registers : list RegisterDefinition)
    (first : RegisterDefinition) (slave : option Z) (w : World) :
  map REGISTERS names = map Some registers ->
  hd_error registers = Some first ->
  ordered registers ->
  get_multiple self REGISTERS names slave w =
  match _read_registers self (Reg.register first) (total_length registers first) slave w with
  | (Return response, w1) => (decode_all self registers first response, w1)
  | (Raise e, w1) => (Raise e, w1)
  | (OutOfFuel, w1) => (OutOfFuel, w1)
  end.
Proof.
  intros Hnames Hfirst Hord.
  assert (Hlen : List.length names = List.length registers).
  { rewrite <- (length_map REGISTERS names), Hnames. apply length_map. }
  destruct registers as [|first' tl]; [discriminate|].
  cbn [hd_error] in Hfirst. inversion Hfirst; subst first'. clear Hfirst.
  unfold get_multiple. rewrite Hnames, all_known_Some, Hlen.
  cbn [List.length Nat.eqb]. unfold bind at 1.
  rewrite (check_registers_ordered (first :: tl) w Hord).
  2:{ intros idx Hin. unfold range1 in Hin. apply in_seq in Hin. cbn [List.length] in *. lia. }
  unfold bind, total_length.
  destruct (_read_registers _ _ _ _ _) as [[response|e|] w1]; try reflexivity.
  unfold decode_all. destruct response; try reflexivity.
  destruct (_decode_response _ _ _) as [[r|e|] d]; reflexivity.
Qed.

(** C2. For a non-empty list of known names whose registers are in
    increasing order without overlap (and with gaps of at most 64
    words), answered by the client with the words it was asked for:
    exactly one [read_holding_registers] request is made, at the address
    of the first register and over
    [last.register + last.length - first.register] words; every register
    is decoded at the byte offset [2 * (register - first.register)] of
    the payload, which is what skipping [2 * gap_words] bytes between
    two registers comes to; and the results are the [(value, unit)]
    pairs of the registers in the order of the names. Whatever the
    client replies, no other request is made than tries of this one
    read. *)
Theorem get_multiple_reads_once (REGISTERS : string -> option RegisterDefinition)
    (self : AsyncHuaweiSolar.t) (names : list string) (registers : list RegisterDefinition)
    (first : RegisterDefinition) (slave : option Z) :
  map REGISTERS names = map Some registers ->
  hd_error registers = Some first ->
  ordered registers ->
  gap_bounded registers ->
  let ev := EvReadHolding (Reg.register first)
              (Reg.register (last registers first) + Reg.length (last registers first)
               - Reg.register first)
              (slave_or slave (AsyncHuaweiSolar.slave self))
              (AsyncHuaweiSolar._timeout self) in
  (forall (words : list Z) (rest : list Reply) (w : World),
      connected w = true ->
      script w = Responds (ReadHoldingRegistersResponse words) :: rest ->
      (forall reg, In reg registers ->
         decodes_in_place self (flat_map pack_H words) first reg) ->
      let res := get_multiple self REGISTERS names slave w in
      fst res = Return (map (field_at self (flat_map pack_H words) first) registers)
      /\ List.length (map (field_at self (flat_map pack_H words) first) registers)
         = List.length names
      /\ script (snd res) = rest
      /\ trace (snd res) =
           trace w ++ [EvAcquire; ev;
                       EvSleep (AsyncHuaweiSolar._cooldown_time self); EvRelease])
  /\ (forall (i : nat) (prev cur : RegisterDefinition),
        nth_error registers i = Some prev ->
        nth_error registers (S i) = Some cur ->
        offset first cur
        = offset first prev + 2 * Reg.length prev + gap_words prev cur * 2)
  /\ (forall (w : World),
        connected w = true ->
        exists (k : nat) (cooldown : list Event),
          (k <= 4)%nat
          /\ (cooldown = [] \/ cooldown = [EvSleep (AsyncHuaweiSolar._cooldown_time self)])
          /\ trace (snd (get_multiple self REGISTERS names slave w)) =
               trace w ++ EvAcquire :: ev :: retries DEFAULT_WAIT ev k
                 ++ cooldown ++ [EvRelease]).
Proof.
  intros Hnames Hfirst Hord Hgap ev. split; [|split].
  - intros words rest w Hc Hs Hdec res. subst res.
    rewrite (get_multiple_eq REGISTERS self names registers first slave w Hnames Hfirst Hord).
    destruct (_read_registers_absorbs self (Reg.register first)
                (total_length registers first) slave w []
                (Responds (ReadHoldingRegistersResponse words)) rest Hc Hs
                eq_refl eq_refl) as (H1 & H2 & H3); [cbn; lia|].
    destruct (_read_registers _ _ _ _ _) as [o w1]. cbn [fst snd] in *.
    cbn [read_attempt_outcome] in H1. subst o. cbn [fst snd].
    split; [|split; [|split; [assumption|]]].
    + unfold decode_all, fromRegisters.
      destruct registers as [|first' tl]; [discriminate|].
      cbn [hd_error] in Hfirst. inversion Hfirst; subst first'.
      assert (H0 : offset first first = 0) by (unfold offset; lia).
      rewrite <- H0.
      rewrite (_decode_response_in_place self (flat_map pack_H words) first first)
        by (apply Hdec; left; reflexivity).
      unfold range1.
      rewrite (decode_registers_in_place self (flat_map pack_H words) first (first :: tl)
                 Hdec (List.length (first :: tl) - 1) 1 first
                 [field_at self (flat_map pack_H words) first first]);
        cbn [List.length]; try lia; reflexivity.
    + rewrite length_map. rewrite <- (length_map REGISTERS names), Hnames.
      symmetry. apply length_map.
    + rewrite H3. cbn [List.length retries cooldown_if app]. reflexivity.
  - intros i prev cur _ _. unfold offset, gap_words. lia.
  - intros w Hc.
    rewrite (get_multiple_eq REGISTERS self names registers first slave w Hnames Hfirst Hord).
    destruct (_read_registers_connected_shape self (Reg.register first)
                (total_length registers first) slave w Hc) as (k & Hk & Ht).
    destruct (_read_registers _ _ _ _ _) as [o w1]. cbn [fst snd] in Ht.
    exists k, (cooldown_if self o). split; [assumption|]. split.
    + destruct o; [right|left|left]; reflexivity.
    + destruct o; exact Ht.
Qed.

(** Scenario S2: a voltage and a current two words further. *)
Lemma get_multiple_reads_once_witness :
  let names := ["PHASE_A_VOLTAGE"; "PHASE_A_CURRENT"]%string in
  let w := world_of [Responds (ReadHoldingRegistersResponse [0x08FC; 0; 0; 0; 0x2710])] in
  let res := get_multiple sample_session SAMPLE_REGISTERS names None w in
  fst res = Return [Result.mk (VInt 2300) (Some "V"%string);
                    Result.mk (VInt 10000) (Some "A"%string)]
  /\ script (snd res) = []
  /\ trace (snd res) = [EvAcquire; EvReadHolding 32069 5 0 5000; EvSleep 50; EvRelease].
Proof.
  intros names w res.
  pose (registers := [sample_register 32069 1 "V"; sample_register 32072 2 "A"]).
  assert (Hord : ordered registers).
  { intros [|[|i]] prev cur Hp Hcu; cbn in Hp, Hcu;
      try discriminate; try (destruct i; discriminate).
    inversion Hp; inversion Hcu; subst; cbn; lia. }
  assert (Hgap : gap_bounded registers).
  { intros [|[|i]] prev cur Hp Hcu; cbn in Hp, Hcu;
      try discriminate; try (destruct i; discriminate).
    inversion Hp; inversion Hcu; subst; cbv; discriminate. }
  destruct (get_multiple_reads_once SAMPLE_REGISTERS sample_session names registers
              (sample_register 32069 1 "V") None eq_refl eq_refl Hord Hgap) as [H _].
  destruct (H [0x08FC; 0; 0; 0; 0x2710] [] w eq_refl eq_refl) as (H1 & _ & H2 & H3).
  - intros reg [<-|[<-|[]]]; eexists; vm_compute; reflexivity.
  - split; [exact H1|]. split; [exact H2|exact H3].
Defined.

(** ** C5: the battery probe *)

(** Whatever [ReadException] the battery probe meets, it is raised
    again: the [raise rerr] that ends the [except] block is reached from
    both branches of the test on ["IllegalAddress"]. *)
Lemma probe_battery_reraises (REGISTERS : string -> option RegisterDefinition)
    (self : AsyncHuaweiSolar.t) (w w1 : World) (msg : string) :
  get self REGISTERS rn.STORAGE_UNIT_1_PRODUCT_MODEL None w = (Raise (ReadException msg), w1) ->
  fst (fst (probe_battery REGISTERS self w)) = Raise (ReadException msg).
Proof.
  intros Hget. unfold probe_battery. rewrite Hget. cbn [str_exn].
  destruct (str_contains "IllegalAddress" msg); reflexivity.
Qed.

(** C5, on the code: a session for slave 1 whose inverter answers the
    time zone and then an IllegalAddress exception to the battery probe.
    [battery_type] is set to [None] and the information is logged, but
    the [ReadException] is raised all the same, so [_initialize] (and
    with it [create]) fails. *)
Theorem illegal_address_on_battery_probe_is_raised :
  let self := AsyncHuaweiSolar.__init__ 1 DEFAULT_TIMEOUT DEFAULT_COOLDOWN_TIME in
  let w := world_of [Responds (ReadHoldingRegistersResponse [60]);
                     Responds (ExceptionResponse 3 ModbusExceptions.IllegalAddress)] in
  let res := _initialize SAMPLE_REGISTERS self w in
  fst (fst res) = Raise (ReadException
    "Got error while reading from register 47000 with length 1: Exception Response(131, 3, IllegalAddress)")
  /\ AsyncHuaweiSolar.battery_type (snd (fst res)) = VNone
  /\ AsyncHuaweiSolar.time_zone (snd (fst res)) = VInt 60
  /\ log (snd res) =
       [(INFO,
         "Received IllegalAddress-error while determining battery support. Setting it to None."%string)]
  /\ trace (snd res) =
       [EvAcquire; EvReadHolding 43006 1 1 5000; EvSleep 50; EvRelease;
        EvAcquire; EvReadHolding 47000 1 1 5000; EvRelease].
Proof. vm_compute. repeat split. Qed.

(** ** C9: the energy storage registers in [update] *)

(** The test of [update] asks whether a battery type [is not None]; the
    types start as [StorageProductModel.NONE] and are only ever replaced
    by decoded members of the enumeration, none of which is [None], so
    the test holds for every pair of members. *)
Lemma storage_test_holds_for_members (cls1 member1 cls2 member2 : string) (val1 val2 : Z) :
  is_not_None (VEnum cls1 member1 val1) || is_not_None (VEnum cls2 member2 val2) = true.
Proof. reflexivity. Qed.

(** A bridge as [__init__] makes it, with one PV string. *)
Definition sample_bridge : HuaweiSolarBridge.t :=
  HuaweiSolarBridge.mk sample_session true 0 1 (VBool false)
    StorageProductModel_NONE StorageProductModel_NONE VNone
    (Some ["PV_01_VOLTAGE"; "PV_01_CURRENT"]%string) false None.

(** C9, on the code: neither battery slot is populated (both types are
    [StorageProductModel.NONE], as [__init__] leaves them), and [update]
    reads the energy storage registers all the same: the third request
    is the read of 28 words at 37760, and the result has their keys. *)
Theorem update_reads_storage_without_battery :
  let w := world_of [Responds (ReadHoldingRegistersResponse (repeat 1 52));
                     Responds (ReadHoldingRegistersResponse (repeat 2 2));
                     Responds (ReadHoldingRegistersResponse (repeat 3 28))] in
  let res := update SAMPLE_REGISTERS sample_bridge w in
  HuaweiSolarBridge.battery_1_type sample_bridge = StorageProductModel_NONE
  /\ HuaweiSolarBridge.battery_2_type sample_bridge = StorageProductModel_NONE
  /\ _compute_pv_registers sample_rn
       (HuaweiSolarBridge.mk sample_session true 0 1 (VBool false)
          StorageProductModel_NONE StorageProductModel_NONE VNone None false None)
     = (Return tt, sample_bridge)
  /\ trace (snd res) =
       [EvAcquire; EvReadHolding 32064 52 0 5000; EvSleep 50; EvRelease;
        EvAcquire; EvReadHolding 32016 2 0 5000; EvSleep 50; EvRelease;
        EvAcquire; EvReadHolding 37760 28 0 5000; EvSleep 50; EvRelease]
  /\ exists d, fst res = Return d
       /\ dict_keys d = INVERTER_REGISTERS ++ ["PV_01_VOLTAGE"; "PV_01_CURRENT"]%string
                          ++ ENERGY_STORAGE_REGISTERS.
Proof.
  vm_compute. repeat split. eexists. split; reflexivity.
Qed.

(** ** Requests that encode *)

Lemma b2z_range (b : byte) : 0 <= b2z b < 256.
Proof. destruct b; vm_compute; split; congruence. Qed.

Lemma z2b_b2z (b : byte) : z2b (b2z b) = b.
Proof. destruct b; reflexivity. Qed.

Lemma bytes_of_ints_map (bs : bytes) : bytes_of_ints (map b2z bs) = Return bs.
Proof.
  induction bs as [|b bs IH]; cbn [map bytes_of_ints]; [reflexivity|].
  pose proof (b2z_range b) as Hb.
  replace ((0 <=? b2z b) && (b2z b <? 256)) with true by lia.
  rewrite IH, z2b_b2z. reflexivity.
Qed.

(** The request has an encoding: [execute] sends it. *)
Definition encodes (request : Request) : Prop :=
  exists packet, encode request = Return packet.

Lemma execute_encoded (request : Request) (w : World) :
  encodes request -> execute request w = transport (EvExecute request) w.
Proof.
  intros [packet H]. unfold execute, bind, lift. rewrite H. reflexivity.
Qed.

Lemma execute_refused (request : Request) (e : Exn) (w : World) :
  encode request = Raise e -> execute request w = (Raise e, w).
Proof.
  intros H. unfold execute, bind, lift. rewrite H. reflexivity.
Qed.

Lemma encodes_private (sub_command : Z) (content : bytes) (unit : Z) :
  0 <= sub_command <= 255 ->
  encodes (PrivateHuaweiModbusRequest sub_command content unit).
Proof.
  intros H. unfold encodes, encode. cbn [bytes_of_ints].
  replace ((0 <=? sub_command) && (sub_command <? 256)) with true by lia.
  rewrite bytes_of_ints_map. eexists; reflexivity.
Qed.

Lemma encodes_start (file_type : Z) (customised_data : bytes) (unit : Z) :
  0 <= file_type <= 255 ->
  Z.of_nat (List.length customised_data) <= 254 ->
  encodes (StartUploadModbusRequest file_type customised_data unit).
Proof.
  intros Ht Hd. unfold encodes, encode, struct_pack, struct_pack_B.
  replace ((0 <=? file_type) && (file_type <=? 255)) with true by lia.
  replace ((0 <=? 1 + Z.of_nat (List.length customised_data))
           && (1 + Z.of_nat (List.length customised_data) <=? 255)) with true by lia.
  cbn. eexists; reflexivity.
Qed.

Lemma encodes_upload (file_type frame_no unit : Z) :
  0 <= file_type <= 255 ->
  0 <= frame_no <= 65535 ->
  encodes (UploadModbusRequest file_type frame_no unit).
Proof.
  intros Ht Hf. unfold encodes, encode, struct_pack, struct_pack_B, struct_pack_H.
  replace ((0 <=? file_type) && (file_type <=? 255)) with true by lia.
  replace ((0 <=? frame_no) && (frame_no <=? 65535)) with true by lia.
  cbn. eexists; reflexivity.
Qed.

Lemma encodes_complete (file_type unit : Z) :
  0 <= file_type <= 255 ->
  encodes (CompleteUploadModbusRequest file_type unit).
Proof.
  intros Ht. unfold encodes, encode, struct_pack, struct_pack_B.
  replace ((0 <=? file_type) && (file_type <=? 255)) with true by lia.
  cbn. eexists; reflexivity.
Qed.

(** A frame number that does not fit 16 bits has no encoding. *)
Lemma encode_frame_overflow (file_type frame_no unit : Z) :
  0 <= file_type <= 255 ->
  65535 < frame_no ->
  encode (UploadModbusRequest file_type frame_no unit) = Raise StructError.
Proof.
  intros Ht Hf. unfold encode, struct_pack, struct_pack_B, struct_pack_H.
  replace ((0 <=? file_type) && (file_type <=? 255)) with true by lia.
  replace ((0 <=? frame_no) && (frame_no <=? 65535)) with false by lia.
  reflexivity.
Qed.

(** A file type that does not fit a byte has no encoding either. *)
Lemma encode_file_type_overflow (file_type : Z) (request : Request) :
  ~ 0 <= file_type <= 255 ->
  (exists customised_data unit,
      request = StartUploadModbusRequest file_type customised_data unit)
  \/ (exists frame_no unit, request = UploadModbusRequest file_type frame_no unit)
  \/ (exists unit, request = CompleteUploadModbusRequest file_type unit) ->
  encode request = Raise StructError.
Proof.
  intros Ht [(d & u & ->)|[(f & u & ->)|(u & ->)]];
    unfold encode, struct_pack, struct_pack_B, struct_pack_H;
    replace ((0 <=? file_type) && (file_type <=? 255)) with false by lia.
  - destruct ((0 <=? 1 + Z.of_nat (List.length d)) && (1 + Z.of_nat (List.length d) <=? 255));
      reflexivity.
  - reflexivity.
  - reflexivity.
Qed.

(** ** The file upload *)

(** A reply that carries a private response whose content the parser
    [response_type] accepts. *)
Definition answers {R} (response_type : bytes -> Outcome R) (reply : Reply) (r : R) : Prop :=
  exists sub content,
    reply = Responds (PrivateHuaweiModbusResponse sub content)
    /\ response_type content = Return r.

Definition executed (request : Request) (rest : list Reply) (w : World) : World :=
  mkWorld rest (trace w ++ [EvExecute request]) (log w) (connected w).

(** A request that is answered at once is not tried again. *)
Lemma _perform_request_answered {R} (file_type : Z) (request : Request)
    (response_type : bytes -> Outcome R) (reply : Reply) (r : R) (rest : list Reply)
    (w : World) :
  encodes request ->
  script w = reply :: rest ->
  answers response_type reply r ->
  _perform_request file_type request response_type w = (Return r, executed request rest w).
Proof.
  intros Henc Hs (sub & content & -> & Hr).
  unfold _perform_request, on_exception, FILE_UPLOAD_MAX_RETRIES.
  cbn [Nat.pred attempt]. unfold bind at 1. rewrite (execute_encoded request w Henc).
  unfold transport, emit, lift.
  cbn [snd script trace log connected]. rewrite Hs, Hr. reflexivity.
Qed.

(** A request that has no encoding is not sent, and not tried again. *)
Lemma _perform_request_refused {R} (file_type : Z) (request : Request)
    (response_type : bytes -> Outcome R) (w : World) :
  encode request = Raise StructError ->
  _perform_request file_type request response_type w = (Raise StructError, w).
Proof.
  intros Henc.
  unfold _perform_request, on_exception, FILE_UPLOAD_MAX_RETRIES.
  cbn [Nat.pred attempt]. unfold bind at 1. rewrite (execute_refused request _ w Henc).
  reflexivity.
Qed.

(** [ceil(a / b)] for a positive [b]. *)
Definition ceil_div (a b : Z) : Z := (a + b - 1) / b.

(** The data requests for the frames [k], [k + 1], ..., [k + n - 1]. *)
Definition frame_requests (file_type unit : Z) (k : Z) (n : nat) : list Event :=
  map (fun i => EvExecute (UploadModbusRequest file_type (k + Z.of_nat i) unit)) (seq 0 n).

Lemma frame_requests_S (file_type unit k : Z) (n : nat) :
  frame_requests file_type unit k (S n)
  = EvExecute (UploadModbusRequest file_type k unit)
      :: frame_requests file_type unit (k + 1) n.
Proof.
  unfold frame_requests. cbn [seq map]. rewrite Z.add_0_r. f_equal.
  rewrite <- seq_shift, map_map. apply map_ext. intros i.
  do 2 f_equal. lia.
Qed.

(** The loop of [_do_read_file] from frame [k] on, when the replies
    answer the frames that are left and the frame numbers fit 16 bits. *)
Lemma read_frames_run (self : AsyncHuaweiSolar.t) (file_type : Z) (slave : option Z)
    (data_frame_length file_length : Z) (replies : list Reply)
    (frames : list UploadModbusResponse.t) :
  0 <= file_type <= 255 ->
  0 < data_frame_length ->
  Forall2 (answers UploadModbusResponse.__init__) replies frames ->
  forall (k : Z) (file_data : bytes) (rest : list Reply) (w : World) (fuel : nat),
    0 <= k ->
    k + Z.of_nat (List.length replies) <= 65536 ->
    (k + Z.of_nat (List.length replies) - 1) * data_frame_length < file_length
      \/ replies = [] ->
    file_length <= (k + Z.of_nat (List.length replies)) * data_frame_length ->
    script w = replies ++ rest ->
    (List.length replies <= fuel)%nat ->
    read_frames self file_type slave fuel data_frame_length file_length k file_data w
    = (Return (file_data ++ List.concat (map UploadModbusResponse.frame_data frames)),
       mkWorld rest
         (trace w ++ frame_requests file_type (unit_id self slave) k (List.length replies))
         (log w) (connected w)).
Proof.
  intros Htype Hpos HF. induction HF as [|reply frame replies frames Hans HF IH];
    intros k file_data rest w fuel Hk Hmax Hlast Hstop Hs Hfuel.
  - cbn [List.length Z.of_nat] in *. rewrite Z.add_0_r in Hstop.
    assert (Hcond : (k * data_frame_length <? file_length) = false) by lia.
    destruct fuel; cbn [read_frames]; rewrite Hcond;
      cbn [map List.concat frame_requests seq]; rewrite !app_nil_r;
      destruct w; cbn in *; subst; reflexivity.
  - cbn [List.length] in *. destruct Hlast as [Hlast|Hnil]; [|discriminate].
    assert (Hcond : (k * data_frame_length <? file_length) = true) by nia.
    destruct fuel as [|fuel]; [lia|]. cbn [read_frames]. rewrite Hcond.
    unfold bind at 1.
    rewrite (_perform_request_answered file_type
               (UploadModbusRequest file_type k (unit_id self slave))
               UploadModbusResponse.__init__ reply frame (replies ++ rest) w
               (encodes_upload file_type k (unit_id self slave) Htype ltac:(lia)) Hs Hans).
    rewrite (IH (k + 1) (file_data ++ UploadModbusResponse.frame_data frame) rest
               (executed (UploadModbusRequest file_type k (unit_id self slave))
                  (replies ++ rest) w) fuel); try lia.
    + cbn [map List.concat executed trace log connected]. rewrite frame_requests_S.
      rewrite <- !app_assoc. reflexivity.
    + reflexivity.
Qed.

Lemma StartUpload_file_length_nonneg (content : bytes) (start : StartUploadModbusResponse.t) :
  StartUploadModbusResponse.__init__ content = Return start ->
  0 <= StartUploadModbusResponse.file_length start.
Proof.
  unfold StartUploadModbusResponse.__init__.
  destruct content as [|b0 [|b1 [|b2 [|b3 [|b4 [|b5 [|b6 rest]]]]]]]; try discriminate.
  destruct (_ =? _); [|discriminate]. intros H. inversion H. cbn.
  pose proof (b2z_range b2). pose proof (b2z_range b3).
  pose proof (b2z_range b4). pose proof (b2z_range b5). lia.
Qed.

(** Every frame carries a full [data_frame_length] bytes, but for the
    last one, which carries what is left of the file. *)
Fixpoint well_sized (data_frame_length file_length k : Z)
    (frames : list UploadModbusResponse.t) : Prop :=
  match frames with
  | [] => True
  | frame :: frames' =>
      Z.of_nat (List.length (UploadModbusResponse.frame_data frame))
      = Z.min data_frame_length (file_length - k * data_frame_length)
      /\ well_sized data_frame_length file_length (k + 1) frames'
  end.

Lemma well_sized_length (data_frame_length file_length : Z)
    (frames : list UploadModbusResponse.t) :
  0 < data_frame_length ->
  forall k : Z,
    0 <= k ->
    k * data_frame_length <= file_length ->
    (k + Z.of_nat (List.length frames) - 1) * data_frame_length < file_length
      \/ frames = [] /\ file_length = k * data_frame_length ->
    file_length <= (k + Z.of_nat (List.length frames)) * data_frame_length ->
    well_sized data_frame_length file_length k frames ->
    Z.of_nat (List.length (List.concat (map UploadModbusResponse.frame_data frames)))
    = file_length - k * data_frame_length.
Proof.
  intros Hpos. induction frames as [|frame frames IH]; intros k Hk Hlow Hlast Hstop Hsz.
  - cbn in *. lia.
  - cbn [map List.concat well_sized] in *. destruct Hsz as [Hf Hsz].
    rewrite length_app, Nat2Z.inj_add, Hf.
    destruct Hlast as [Hlast|[Hnil _]]; [|discriminate].
    assert (Hn : Z.of_nat (List.length (frame :: frames))
                 = Z.of_nat (List.length frames) + 1)
      by (cbn [List.length]; lia).
    rewrite Hn in Hlast, Hstop.
    destruct frames as [|frame' frames'].
    + cbn [List.length map List.concat Z.of_nat] in *. lia.
    + set (n := Z.of_nat (List.length (frame' :: frames'))) in *.
      assert (Hn1 : 1 <= n) by (subst n; cbn [List.length]; lia).
      assert (Hnext : (k + 1) * data_frame_length <= file_length) by nia.
      rewrite (IH (k + 1)); try assumption.
      * nia.
      * lia.
      * left. nia.
      * nia.
Qed.

(** C8, as the code has it. The loop of [_do_read_file] counts frames,
    not bytes: its test is [next_frame_no * data_frame_length <
    file_length] and never looks at the data received. When the inverter
    announces frames of a positive length and answers every request,
    and the requests can be encoded (a file type of one byte, frame
    numbers of 16 bits), [_do_read_file] asks for the frames 0, 1, ...
    in this order and for [ceil(file_length / data_frame_length)] of
    them, no more and no fewer, whatever the frames carry; the
    [frame_data] of the responses are appended in this order, and the
    next request is the completion, on the data so assembled. The
    assembled data has [file_length] bytes when the frames have the
    announced size; in general its length is the sum of the lengths of
    the frames. *)
Theorem frames_requested_in_order (self : AsyncHuaweiSolar.t) (file_type : Z)
    (customized_data : option bytes) (slave : option Z)
    (start_reply : Reply) (start : StartUploadModbusResponse.t)
    (replies : list Reply) (frames : list UploadModbusResponse.t)
    (rest : list Reply) (w : World) (fuel : nat) :
  let data_frame_length := StartUploadModbusResponse.data_frame_length start in
  let file_length := StartUploadModbusResponse.file_length start in
  let customised_data := match customized_data with Some d => d | None => [] end in
  0 <= file_type <= 255 ->
  Z.of_nat (List.length customised_data) <= 254 ->
  0 < data_frame_length ->
  answers StartUploadModbusResponse.__init__ start_reply start ->
  Forall2 (answers UploadModbusResponse.__init__) replies frames ->
  Z.of_nat (List.length replies) = ceil_div file_length data_frame_length ->
  ceil_div file_length data_frame_length <= 65536 ->
  script w = start_reply :: replies ++ rest ->
  (List.length replies <= fuel)%nat ->
  let file_data := List.concat (map UploadModbusResponse.frame_data frames) in
  let unit := slave_or slave (AsyncHuaweiSolar.slave self) in
  _do_read_file self file_type customized_data slave fuel w
  = complete_upload self file_type slave file_data
      (mkWorld rest
         (trace w
            ++ EvExecute (StartUploadModbusRequest file_type customised_data unit)
            :: map (fun i => EvExecute (UploadModbusRequest file_type (Z.of_nat i) unit))
                 (seq 0 (List.length replies)))
         (log w) (connected w))
  /\ (well_sized data_frame_length file_length 0 frames ->
      Z.of_nat (List.length file_data) = file_length)
  /\ List.length file_data
     = list_sum (map (fun frame => List.length (UploadModbusResponse.frame_data frame))
                   frames).
Proof.
  intros dfl fl cdata Htype Hcd Hpos Hstart HF Hn Hmax Hs Hfuel file_data unit.
  assert (Hfl : 0 <= fl).
  { destruct Hstart as (sub & content & _ & Hparse).
    exact (StartUpload_file_length_nonneg content start Hparse). }
  assert (Hlenf : List.length frames = List.length replies).
  { symmetry. eapply Forall2_length. eassumption. }
  unfold ceil_div in Hn, Hmax.
  assert (Hdiv : dfl * ((fl + dfl - 1) / dfl) <= fl + dfl - 1 < dfl * ((fl + dfl - 1) / dfl + 1)).
  { pose proof (Z.mul_div_le (fl + dfl - 1) dfl Hpos).
    pose proof (Z.mul_succ_div_gt (fl + dfl - 1) dfl Hpos). lia. }
  split; [|split].
  - unfold _do_read_file. unfold bind at 1. fold cdata.
    rewrite (_perform_request_answered file_type _ StartUploadModbusResponse.__init__
               start_reply start (replies ++ rest) w
               (encodes_start file_type cdata (unit_id self slave) Htype Hcd) Hs Hstart).
    fold dfl fl. unfold bind at 1.
    rewrite (read_frames_run self file_type slave dfl fl replies frames Htype Hpos HF 0 []
               rest _ fuel); try lia; try reflexivity.
    cbn [executed trace log connected app]. unfold frame_requests, unit_id.
    rewrite <- app_assoc. reflexivity.
  - intros Hsz. subst file_data.
    rewrite <- Hlenf in Hn.
    rewrite (well_sized_length dfl fl frames Hpos 0); try assumption; lia.
  - subst file_data. clear. induction frames as [|frame frames IH]; [reflexivity|].
    cbn [map List.concat list_sum fold_right]. rewrite length_app, IH. reflexivity.
Qed.

Definition upload_start_reply : Reply :=
  Responds (PrivateHuaweiModbusResponse 5
    [Byte.x06; Byte.x45; Byte.x00; Byte.x00; Byte.x01; Byte.x2c; Byte.x80]).

Definition upload_frame_reply (frame_no : byte) (n : nat) : Reply :=
  Responds (PrivateHuaweiModbusResponse 6
    (z2b (Z.of_nat n + 3) :: Byte.x45 :: Byte.x00 :: frame_no :: repeat Byte.x41 n)).

Definition upload_frame (frame_no : Z) (n : nat) : UploadModbusResponse.t :=
  UploadModbusResponse.mk 0x45 frame_no (repeat Byte.x41 n).

(** Scenario S5: a file of 300 bytes in frames of 128: the frames 0, 1
    and 2 are asked for, of 128, 128 and 44 bytes; the completion
    carries the CRC of the 300 bytes, which are returned. *)
Lemma frames_requested_in_order_witness :
  let w := world_of [upload_start_reply; upload_frame_reply Byte.x00 128;
                     upload_frame_reply Byte.x01 128; upload_frame_reply Byte.x02 44;
                     Responds (PrivateHuaweiModbusResponse 12
                                 [Byte.x03; Byte.x45; Byte.x14; Byte.xc3])] in
  _do_read_file sample_session 0x45 None None 3 w
  = (Return (repeat Byte.x41 300),
     mkWorld []
       [EvExecute (StartUploadModbusRequest 0x45 [] 0);
        EvExecute (UploadModbusRequest 0x45 0 0);
        EvExecute (UploadModbusRequest 0x45 1 0);
        EvExecute (UploadModbusRequest 0x45 2 0);
        EvExecute (CompleteUploadModbusRequest 0x45 0)] [] true)
  /\ List.length (repeat Byte.x41 300) = 300%nat.
Proof.
  intros w.
  pose (start := StartUploadModbusResponse.mk 0x45 300 128 []).
  pose (frames := [upload_frame 0 128; upload_frame 1 128; upload_frame 2 44]).
  assert (Hstart : answers StartUploadModbusResponse.__init__ upload_start_reply start).
  { eexists; eexists; split; reflexivity. }
  assert (Hframes : Forall2 (answers UploadModbusResponse.__init__)
                      [upload_frame_reply Byte.x00 128; upload_frame_reply Byte.x01 128;
                       upload_frame_reply Byte.x02 44] frames).
  { repeat constructor; eexists; eexists; (split; [reflexivity|vm_compute; reflexivity]). }
  destruct (frames_requested_in_order sample_session 0x45 None None
              upload_start_reply start _ frames
              [Responds (PrivateHuaweiModbusResponse 12
                           [Byte.x03; Byte.x45; Byte.x14; Byte.xc3])] w 3
              ltac:(lia) ltac:(cbn; lia) eq_refl Hstart Hframes eq_refl
              ltac:(vm_compute; discriminate) eq_refl (le_n 3)) as (H1 & _ & _).
  split; [|vm_compute; reflexivity].
  rewrite H1. vm_compute. reflexivity.
Defined.

(** The claim as the specification states it ends the loop when the
    payload has reached [file_length]. The inverter announces 300 bytes
    in frames of 128 and then sends frames of 10 bytes: the loop ends
    after the three frames it has counted, the payload has 30 bytes, not
    300, and with the CRC of these 30 bytes [get_file] returns them. *)
Lemma frames_are_counted_not_bytes :
  let res := get_file sample_session 0x45 None None 3
               (world_of [upload_start_reply; upload_frame_reply Byte.x00 10;
                          upload_frame_reply Byte.x01 10; upload_frame_reply Byte.x02 10;
                          Responds (PrivateHuaweiModbusResponse 12
                                      [Byte.x03; Byte.x45; Byte.x02; Byte.x23])]) in
  fst res = Return (repeat Byte.x41 30)
  /\ trace (snd res)
     = [EvAcquire;
        EvExecute (StartUploadModbusRequest 0x45 [] 0);
        EvExecute (UploadModbusRequest 0x45 0 0);
        EvExecute (UploadModbusRequest 0x45 1 0);
        EvExecute (UploadModbusRequest 0x45 2 0);
        EvExecute (CompleteUploadModbusRequest 0x45 0);
        EvSleep 50; EvRelease]
  /\ script (snd res) = []
  /\ StartUploadModbusResponse.__init__
       [Byte.x06; Byte.x45; Byte.x00; Byte.x00; Byte.x01; Byte.x2c; Byte.x80]
     = Return (StartUploadModbusResponse.mk 0x45 300 128 []).
Proof. vm_compute. repeat split. Qed.

(** ** C6: the CRC of the file *)

(** On 16 bits, the shifts and masks of [get_file] exchange the high and
    the low byte. *)
Fixpoint holds_upto (f : Z -> bool) (n : nat) (start : Z) : bool :=
  match n with
  | O => true
  | S n' => f start && holds_upto f n' (start + 1)
  end.

Lemma holds_upto_spec (f : Z -> bool) (n : nat) :
  forall start : Z,
    holds_upto f n start = true ->
    forall c : Z, start <= c < start + Z.of_nat n -> f c = true.
Proof.
  induction n as [|n IH]; intros start H c Hc.
  - cbn in Hc. lia.
  - cbn [holds_upto] in H. apply andb_prop in H. destruct H as [H0 H].
    destruct (Z.eq_dec c start) as [->|Hne]; [assumption|].
    apply (IH (start + 1) H). lia.
Qed.

Lemma swap16_bytes (c : Z) :
  0 <= c < 65536 -> swap16 c = c mod 256 * 256 + c / 256.
Proof.
  intros Hc. apply Z.eqb_eq.
  apply (holds_upto_spec (fun c => swap16 c =? c mod 256 * 256 + c / 256)
           (Z.to_nat 65536) 0).
  - vm_compute. reflexivity.
  - rewrite Z2Nat.id; lia.
Qed.

Lemma CompleteUpload_file_crc_range (content : bytes) (complete : CompleteUploadModbusResponse.t) :
  CompleteUploadModbusResponse.__init__ content = Return complete ->
  0 <= CompleteUploadModbusResponse.file_crc complete < 65536.
Proof.
  unfold CompleteUploadModbusResponse.__init__.
  destruct content as [|b0 [|b1 [|b2 [|b3 rest]]]]; try discriminate.
  destruct (_ =? _); [|discriminate]. intros H. inversion H. cbn.
  pose proof (b2z_range b2). pose proof (b2z_range b3). lia.
Qed.

(** C6. Once the data is assembled and the completion (of a file type
    that fits its byte, so that the request can be sent) is answered
    with a file CRC, the high and the low byte of this CRC are exchanged
    and the result is compared with [computeCRC] of the data, the Modbus
    CRC-16 (table of the polynomial 0xA001, initial value 0xFFFF): when
    they are equal the data is returned, when they differ the upload
    fails with the [ReadException] that reports the mismatch. *)
Theorem crc_mismatch_fails (self : AsyncHuaweiSolar.t) (file_type : Z) (slave : option Z)
    (file_data : bytes) (reply : Reply) (complete : CompleteUploadModbusResponse.t)
    (rest : list Reply) (w : World) :
  0 <= file_type <= 255 ->
  script w = reply :: rest ->
  answers CompleteUploadModbusResponse.__init__ reply complete ->
  let file_crc := CompleteUploadModbusResponse.file_crc complete in
  let swapped_crc := file_crc mod 256 * 256 + file_crc / 256 in
  let res := complete_upload self file_type slave file_data w in
  (computeCRC file_data = swapped_crc -> fst res = Return file_data)
  /\ (computeCRC file_data <> swapped_crc ->
      fst res = Raise (ReadException
        ("Computed CRC " ++ hex (computeCRC file_data) ++ " for file " ++ hex file_type
           ++ " does not match expected value " ++ hex swapped_crc)%string))
  /\ snd res
     = executed (CompleteUploadModbusRequest file_type
                   (slave_or slave (AsyncHuaweiSolar.slave self))) rest w.
Proof.
  intros Htype Hs Hans file_crc swapped_crc res.
  assert (Hrange : 0 <= file_crc < 65536).
  { destruct Hans as (sub & content & _ & Hparse).
    exact (CompleteUpload_file_crc_range content complete Hparse). }
  assert (Hres : res =
    (if negb (checkCRC file_data swapped_crc)
     then Raise (ReadException
            ("Computed CRC " ++ hex (computeCRC file_data) ++ " for file " ++ hex file_type
               ++ " does not match expected value " ++ hex swapped_crc)%string)
     else Return file_data,
     executed (CompleteUploadModbusRequest file_type
                 (slave_or slave (AsyncHuaweiSolar.slave self))) rest w)).
  { subst res. unfold complete_upload. unfold bind.
    rewrite (_perform_request_answered file_type _ CompleteUploadModbusResponse.__init__
               reply complete rest w
               (encodes_complete file_type (unit_id self slave) Htype) Hs Hans).
    fold file_crc. fold (swap16 file_crc).
    rewrite (swap16_bytes file_crc Hrange). fold swapped_crc.
    destruct (checkCRC file_data swapped_crc); reflexivity. }
  rewrite Hres. cbn [fst snd]. unfold checkCRC. split; [|split].
  - intros Heq. rewrite Heq, Z.eqb_refl. reflexivity.
  - intros Hne. apply Z.eqb_neq in Hne. rewrite Hne. reflexivity.
  - reflexivity.
Qed.

(** The CRC-16 of the nine digits is 0x4B37, sent as 0x4B 0x37; one bit
    of the data flipped, and the upload fails. *)
Lemma crc_mismatch_fails_witness :
  let reply := Responds (PrivateHuaweiModbusResponse 12
                 [Byte.x03; Byte.x45; Byte.x4b; Byte.x37]) in
  fst (complete_upload sample_session 0x45 None (list_byte_of_string "123456789")
         (world_of [reply]))
  = Return (list_byte_of_string "123456789")
  /\ fst (complete_upload sample_session 0x45 None (list_byte_of_string "123456788")
            (world_of [reply]))
     = Raise (ReadException
         "Computed CRC 0xf68b for file 0x45 does not match expected value 0x374b").
Proof.
  intros reply.
  assert (Hans : answers CompleteUploadModbusResponse.__init__ reply
                   (CompleteUploadModbusResponse.mk 0x45 0x4b37)).
  { eexists; eexists; split; reflexivity. }
  split.
  - destruct (crc_mismatch_fails sample_session 0x45 None (list_byte_of_string "123456789")
                reply _ [] (world_of [reply]) ltac:(lia) eq_refl Hans) as (H & _ & _).
    apply H. vm_compute. reflexivity.
  - destruct (crc_mismatch_fails sample_session 0x45 None (list_byte_of_string "123456788")
                reply _ [] (world_of [reply]) ltac:(lia) eq_refl Hans) as (_ & H & _).
    rewrite H; [vm_compute; reflexivity|]. vm_compute. discriminate.
Defined.

(** ** C7: login *)

Lemma bytes_of_ints_in_range (l : list Z) :
  Forall (fun x => 0 <= x < 256) l -> exists bs, bytes_of_ints l = Return bs.
Proof.
  induction 1 as [|x l Hx _ [bs IH]]; cbn [bytes_of_ints].
  - eexists; reflexivity.
  - replace ((0 <=? x) && (x <? 256)) with true by lia. rewrite IH.
    eexists; reflexivity.
Qed.

Lemma login_ints_in_range (client_challenge encoded_username hashed_password : bytes) :
  len client_challenge + 1 + len encoded_username + 1 + len hashed_password < 256 ->
  Forall (fun x => 0 <= x < 256)
    (login_ints client_challenge encoded_username hashed_password).
Proof.
  intros Hlen. unfold login_ints, len in *.
  assert (Hmap : forall bs : bytes, Forall (fun x => 0 <= x < 256) (map b2z bs)).
  { intros bs. apply Forall_forall. intros x Hin. apply in_map_iff in Hin.
    destruct Hin as (b & <- & _). apply b2z_range. }
  repeat (apply Forall_app; split); try apply Hmap;
    constructor; try constructor; lia.
Qed.

Definition mitm_message : string :=
  "Inverter response contains an invalid challenge answer. This could indicate a MitM-attack!".

(** What [login] does once the challenge is answered and the login
    frame fits in bytes: the status byte alone decides the result. *)
Lemma login_run (sha256 : bytes -> bytes) (hmac_digest : bytes -> bytes -> bytes)
    (token_bytes : nat -> bytes) (self : AsyncHuaweiSolar.t) (username password : string)
    (slave : option Z) (sub1 sub2 : Z) (nonce : bytes) (c0 status : byte) (tail : bytes)
    (login_bytes : bytes) (rest : list Reply) (w : World) :
  script w = Responds (PrivateHuaweiModbusResponse sub1 (Byte.x11 :: nonce))
               :: Responds (PrivateHuaweiModbusResponse sub2 (c0 :: status :: tail))
               :: rest ->
  bytes_of_ints
    (login_ints (token_bytes 16%nat) (list_byte_of_string username)
       (_compute_digest sha256 hmac_digest (list_byte_of_string password)
          (slice 1 17 (Byte.x11 :: nonce))))
  = Return login_bytes ->
  let unit := slave_or slave (AsyncHuaweiSolar.slave self) in
  let w' := mkWorld rest
              (trace w ++ [EvExecute (PrivateHuaweiModbusRequest 36 [Byte.x01; Byte.x00] unit);
                           EvSleep 50;
                           EvExecute (PrivateHuaweiModbusRequest 37 login_bytes unit)])
              (log w) (connected w) in
  login sha256 hmac_digest token_bytes self username password slave w
  = if b2z status =? 0 then
      match tail with
      | [] => (Raise IndexError, w')
      | mac_len :: _ =>
          if bytes_eqb
               (_compute_digest sha256 hmac_digest (list_byte_of_string password)
                  (token_bytes 16%nat))
               (slice 3 (3 + Z.to_nat (b2z mac_len)) (c0 :: status :: tail))
          then (Return true, w')
          else (Return true,
                mkWorld (script w') (trace w') (log w' ++ [(ERROR, mitm_message)])
                  (connected w'))
      end
    else (Return false, w').
Proof.
  intros Hs Hfit unit w'. unfold login.
  unfold bind at 1. rewrite (execute_encoded _ w (encodes_private 36 _ _ ltac:(lia))).
  unfold transport at 1, emit. cbn [snd script trace log connected].
  rewrite Hs. unfold bind at 1. cbn [content_of ret].
  unfold bind at 1. cbn [item nth_error ret].
  change (b2z Byte.x11 =? 17) with true. cbn [negb].
  unfold bind at 1. unfold lift at 1. rewrite Hfit.
  unfold bind at 1. unfold sleep at 1, emit. cbn [snd script trace log connected].
  unfold bind at 1. rewrite (execute_encoded _ _ (encodes_private 37 _ _ ltac:(lia))).
  unfold transport at 1, emit. cbn [snd script trace log connected].
  unfold bind at 1. cbn [content_of ret].
  unfold bind at 1. cbn [item nth_error ret].
  subst w' unit. rewrite <- !app_assoc. cbn [app].
  destruct (b2z status =? 0); [|reflexivity].
  destruct tail as [|mac_len tail']; [reflexivity|].
  unfold bind at 1. cbn [item nth_error ret]. unfold bind at 1.
  destruct (bytes_eqb _ _); reflexivity.
Qed.

(** C7. Once the inverter has answered the challenge (first byte 0x11)
    and the login frame, the status byte decides alone. Status 0:
    [login] returns [True] whether or not the echoed MAC equals
    [_compute_digest(password, client_challenge)], the HMAC-SHA256 of
    the client challenge under the key SHA-256(password); a mismatch
    adds one error record to the log and nothing else; the bridge starts
    the heartbeat. Status not 0: [login] returns [False], the bridge raises
    [InvalidCredentials] and is left as it was. *)
Theorem login_status_decides (sha256 : bytes -> bytes) (hmac_digest : bytes -> bytes -> bytes)
    (token_bytes : nat -> bytes) (bridge : HuaweiSolarBridge.t) (username password : string)
    (sub1 sub2 : Z) (nonce : bytes) (c0 status : byte) (tail : bytes)
    (rest : list Reply) (w : World) :
  script w = Responds (PrivateHuaweiModbusResponse sub1 (Byte.x11 :: nonce))
               :: Responds (PrivateHuaweiModbusResponse sub2 (c0 :: status :: tail))
               :: rest ->
  (forall key msg, List.length (hmac_digest key msg) = 32%nat) ->
  List.length (token_bytes 16%nat) = 16%nat ->
  (List.length (list_byte_of_string username) <= 205)%nat ->
  let self := HuaweiSolarBridge.client bridge in
  let res := login sha256 hmac_digest token_bytes self username password None w in
  let bres := bridge_login sha256 hmac_digest token_bytes bridge username password w in
  let expected := hmac_digest (sha256 (list_byte_of_string password))
                    (token_bytes 16%nat) in
  (b2z status = 0 ->
   forall (mac_len : byte) (tail' : bytes),
     tail = mac_len :: tail' ->
     let mac := slice 3 (3 + Z.to_nat (b2z mac_len)) (c0 :: status :: tail) in
     fst res = Return true
     /\ log (snd res) = log w ++ (if bytes_eqb expected mac then []
                                  else [(ERROR, mitm_message)])
     /\ (HuaweiSolarBridge.__heartbeat_task bridge <> Some TaskRunning ->
         fst (fst bres) = Return tt
         /\ HuaweiSolarBridge.__enable_heartbeat (snd (fst bres)) = true
         /\ HuaweiSolarBridge.__heartbeat_task (snd (fst bres)) = Some TaskRunning))
  /\ (b2z status <> 0 ->
      fst res = Return false
      /\ log (snd res) = log w
      /\ fst bres = (Raise InvalidCredentials, bridge)).
Proof.
  intros Hs Hhmac Htok Huser self res bres expected.
  destruct (bytes_of_ints_in_range
              (login_ints (token_bytes 16%nat) (list_byte_of_string username)
                 (_compute_digest sha256 hmac_digest (list_byte_of_string password)
                    (slice 1 17 (Byte.x11 :: nonce))))) as [login_bytes Hfit].
  { apply login_ints_in_range. unfold len, _compute_digest. rewrite Htok, Hhmac. lia. }
  pose proof (login_run sha256 hmac_digest token_bytes self username password None
                sub1 sub2 nonce c0 status tail login_bytes rest w Hs Hfit) as Hrun.
  cbn zeta in Hrun. fold res in Hrun.
  assert (Hb : bres = match res with
                      | (Return true, w1) =>
                          match start_heartbeat bridge with
                          | Return self1 => (Return tt, self1, w1)
                          | Raise e => (Raise e, bridge, w1)
                          | OutOfFuel => (OutOfFuel, bridge, w1)
                          end
                      | (Return false, w1) => (Raise InvalidCredentials, bridge, w1)
                      | (Raise e, w1) => (Raise e, bridge, w1)
                      | (OutOfFuel, w1) => (OutOfFuel, bridge, w1)
                      end) by reflexivity.
  split.
  - intros Hst mac_len tail' ->. intros mac.
    rewrite Hst in Hrun. cbn [Z.eqb] in Hrun.
    change (_compute_digest sha256 hmac_digest (list_byte_of_string password)
              (token_bytes 16%nat)) with expected in Hrun.
    fold mac in Hrun.
    rewrite Hb, Hrun.
    destruct (bytes_eqb expected mac); cbn [fst snd log]; rewrite ?app_nil_r;
      (split; [reflexivity|split; [reflexivity|]]);
      intros Htask; unfold start_heartbeat;
      destruct (HuaweiSolarBridge.__heartbeat_task bridge) as [[|]|];
      try (exfalso; apply Htask; reflexivity); cbn; repeat split.
  - intros Hst. apply Z.eqb_neq in Hst. rewrite Hst in Hrun.
    rewrite Hb, Hrun. cbn [fst snd log]. repeat split.
Qed.

(** A digest of 32 bytes that stands in for SHA-256 to run the example. *)
Definition constant_digest (data : bytes) : bytes := repeat Byte.x00 32.

(** Scenario S4 with an altered MAC: status 0 and a MAC of four bytes
    that is not the digest. [login] returns [True] and logs the error. *)
Lemma login_status_decides_witness :
  let w := world_of
      [Responds (PrivateHuaweiModbusResponse 36 (Byte.x11 :: repeat Byte.x07 16));
       Responds (PrivateHuaweiModbusResponse 37
                   [Byte.x00; Byte.x00; Byte.x04; Byte.x01; Byte.x02; Byte.x03; Byte.x04])] in
  let res := login constant_digest (fun _ => constant_digest) (fun n => repeat Byte.x2a n)
               sample_session "installer" "1234" None w in
  fst res = Return true
  /\ log (snd res) = [(ERROR, mitm_message)].
Proof.
  intros w res.
  destruct (login_status_decides constant_digest (fun _ => constant_digest)
              (fun n => repeat Byte.x2a n) sample_bridge "installer" "1234"
              36 37 (repeat Byte.x07 16) Byte.x00 Byte.x00
              [Byte.x04; Byte.x01; Byte.x02; Byte.x03; Byte.x04] [] w
              eq_refl (fun _ _ => eq_refl) eq_refl) as [H _].
  - cbn. lia.
  - destruct (H eq_refl Byte.x04 [Byte.x01; Byte.x02; Byte.x03; Byte.x04] eq_refl)
      as (H1 & H2 & _).
    split; [exact H1|exact H2].
Defined.

(** ** C10: the slave argument 0 *)

(** The slave a request is addressed to. *)
Definition request_unit (request : Request) : Z :=
  match request with
  | PrivateHuaweiModbusRequest _ _ unit
  | StartUploadModbusRequest _ _ unit
  | UploadModbusRequest _ _ unit
  | CompleteUploadModbusRequest _ unit => unit
  end.

Definition unit_of (ev : Event) : option Z :=
  match ev with
  | EvReadHolding _ _ unit _ => Some unit
  | EvWriteRegisters _ _ unit _ => Some unit
  | EvWriteRegister _ _ unit => Some unit
  | EvExecute request => Some (request_unit request)
  | _ => None
  end.

(** The event is no request, or a request to the slave [u]. *)
Definition addressed (u : Z) (ev : Event) : Prop :=
  forall unit, unit_of ev = Some unit -> unit = u.

(** Whatever the world, the computation only adds to the trace, and
    every request it adds goes to the slave [u]. *)
Definition sends_to (u : Z) {A} (c : M A) : Prop :=
  forall w, exists tl, trace (snd (c w)) = trace w ++ tl /\ Forall (addressed u) tl.

Lemma sends_to_nothing (u : Z) {A} (c : M A) :
  (forall w, trace (snd (c w)) = trace w) -> sends_to u c.
Proof.
  intros H w. exists []. rewrite H, app_nil_r. split; [reflexivity|constructor].
Qed.

Lemma sends_to_ret (u : Z) {A} (a : A) : sends_to u (ret a).
Proof. apply sends_to_nothing. reflexivity. Qed.

Lemma sends_to_raise (u : Z) {A} (e : Exn) : sends_to u (@raise A e).
Proof. apply sends_to_nothing. reflexivity. Qed.

Lemma sends_to_lift (u : Z) {A} (o : Outcome A) : sends_to u (lift o).
Proof. apply sends_to_nothing. reflexivity. Qed.

Lemma sends_to_LOGGER (u : Z) (level : LogLevel) (msg : string) :
  sends_to u (LOGGER level msg).
Proof. apply sends_to_nothing. reflexivity. Qed.

Lemma sends_to_is_client_connected (u : Z) : sends_to u is_client_connected.
Proof. apply sends_to_nothing. reflexivity. Qed.

Lemma sends_to_emit (u : Z) (ev : Event) : addressed u ev -> sends_to u (emit ev).
Proof.
  intros H w. exists [ev]. split; [reflexivity|]. constructor; [exact H|constructor].
Qed.

Lemma sends_to_sleep (u : Z) (d : Z) : sends_to u (sleep d).
Proof. apply sends_to_emit. intros unit H. discriminate. Qed.

Lemma transport_trace (ev : Event) (w : World) :
  trace (snd (transport ev w)) = trace w ++ [ev].
Proof.
  unfold transport, emit. cbn [snd script trace log connected].
  destruct (script w) as [|[r| |s] rest]; reflexivity.
Qed.

Lemma sends_to_transport (u : Z) (ev : Event) : addressed u ev -> sends_to u (transport ev).
Proof.
  intros H w. exists [ev]. split; [apply transport_trace|].
  constructor; [exact H|constructor].
Qed.

Lemma sends_to_bind (u : Z) {A B} (c : M A) (k : A -> M B) :
  sends_to u c -> (forall a, sends_to u (k a)) -> sends_to u (bind c k).
Proof.
  intros Hc Hk w. unfold bind. destruct (Hc w) as (tl1 & H1 & F1).
  destruct (c w) as [[a|e|] w1]; cbn [snd] in *.
  - destruct (Hk a w1) as (tl2 & H2 & F2). exists (tl1 ++ tl2).
    rewrite H2, H1, app_assoc. split; [reflexivity|]. apply Forall_app. split; assumption.
  - exists tl1. split; assumption.
  - exists tl1. split; assumption.
Qed.

Lemma sends_to_try_except (u : Z) {A} (body : M A) (handler : Exn -> option (M A)) :
  sends_to u body ->
  (forall e h, handler e = Some h -> sends_to u h) ->
  sends_to u (try_except body handler).
Proof.
  intros Hb Hh w. unfold try_except. destruct (Hb w) as (tl1 & H1 & F1).
  destruct (body w) as [[a|e|] w1]; cbn [snd] in *.
  - exists tl1. split; assumption.
  - destruct (handler e) as [h|] eqn:He.
    + destruct (Hh e h He w1) as (tl2 & H2 & F2). exists (tl1 ++ tl2).
      rewrite H2, H1, app_assoc. split; [reflexivity|]. apply Forall_app. split; assumption.
    + exists tl1. split; assumption.
  - exists tl1. split; assumption.
Qed.

Lemma sends_to_with_lock (u : Z) {A} (body : M A) :
  sends_to u body -> sends_to u (with_lock body).
Proof.
  intros Hb w. rewrite with_lock_eq.
  destruct (Hb (acquired w)) as (tl & H & F).
  destruct (body (acquired w)) as [o w1]. cbn [snd released trace] in *.
  exists (EvAcquire :: tl ++ [EvRelease]). split.
  - rewrite H. cbn [acquired trace]. rewrite <- !app_assoc. reflexivity.
  - constructor; [intros unit Hu; discriminate|].
    apply Forall_app. split; [assumption|].
    constructor; [intros unit Hu; discriminate|constructor].
Qed.

Lemma sends_to_attempt (u : Z) {A} (retried : Exn -> bool) (interval : Z)
    (on_giveup : Z -> M unit) (target : M A) :
  sends_to u target ->
  (forall tries, sends_to u (on_giveup tries)) ->
  forall (n : nat) (tries : Z),
    sends_to u (attempt retried interval on_giveup target n tries).
Proof.
  intros Ht Hg. induction n as [|n IH]; intros tries w;
    cbn [attempt]; destruct (Ht w) as (tl1 & H1 & F1);
    destruct (target w) as [[a|e|] w1]; cbn [snd] in *;
    try (exists tl1; split; assumption);
    destruct (retried e); try (exists tl1; split; assumption).
  - destruct (sends_to_bind u (on_giveup tries) (fun _ => @raise A e) (Hg tries)
                (fun _ => @sends_to_raise u A e) w1) as (tl2 & H2 & F2).
    exists (tl1 ++ tl2). rewrite H2, H1, app_assoc. split; [reflexivity|].
    apply Forall_app. split; assumption.
  - destruct (sends_to_bind u (sleep interval)
                (fun _ => attempt retried interval on_giveup target n (tries + 1))
                (sends_to_sleep u interval) (fun _ => IH (tries + 1)) w1)
      as (tl2 & H2 & F2).
    exists (tl1 ++ tl2). rewrite H2, H1, app_assoc. split; [reflexivity|].
    apply Forall_app. split; assumption.
Qed.

Lemma sends_to_execute (u : Z) (request : Request) :
  request_unit request = u -> sends_to u (execute request).
Proof.
  intros H. unfold execute. apply sends_to_bind; [apply sends_to_lift|].
  intros _. apply sends_to_transport. intros unit Hu. inversion Hu. congruence.
Qed.

Ltac sends_nothing :=
  first [ apply sends_to_ret | apply sends_to_raise | apply sends_to_lift
        | apply sends_to_LOGGER | apply sends_to_sleep
        | apply sends_to_is_client_connected ].

Ltac sends :=
  repeat first
    [ sends_nothing
    | apply sends_to_bind; [|intros ?]
    | apply sends_to_with_lock
    | match goal with
      | |- sends_to _ (if ?b then _ else _) => destruct b
      | |- sends_to _ (match ?x with _ => _ end) => destruct x
      end ].

(** The computation sends the request [ev] first, whatever the world,
    and everything it sends afterwards goes to the slave [u]. *)
Definition begins_with (ev : Event) (u : Z) {A} (c : M A) : Prop :=
  forall w, exists tl, trace (snd (c w)) = trace w ++ ev :: tl /\ Forall (addressed u) tl.

Lemma begins_with_execute (request : Request) (u : Z) :
  encodes request -> begins_with (EvExecute request) u (execute request).
Proof.
  intros Henc w. exists []. rewrite (execute_encoded request w Henc), transport_trace.
  split; [reflexivity|constructor].
Qed.

Lemma begins_with_bind (ev : Event) (u : Z) {A B} (c : M A) (k : A -> M B) :
  begins_with ev u c -> (forall a, sends_to u (k a)) -> begins_with ev u (bind c k).
Proof.
  intros Hc Hk w. unfold bind. destruct (Hc w) as (tl1 & H1 & F1).
  destruct (c w) as [[a|e|] w1]; cbn [snd] in *.
  - destruct (Hk a w1) as (tl2 & H2 & F2). exists (tl1 ++ tl2).
    rewrite H2, H1, <- app_assoc. split; [reflexivity|]. apply Forall_app. split; assumption.
  - exists tl1. split; assumption.
  - exists tl1. split; assumption.
Qed.

Lemma begins_with_attempt (ev : Event) (u : Z) {A} (retried : Exn -> bool) (interval : Z)
    (on_giveup : Z -> M unit) (target : M A) (n : nat) (tries : Z) :
  begins_with ev u target ->
  addressed u ev ->
  (forall tries, sends_to u (on_giveup tries)) ->
  begins_with ev u (attempt retried interval on_giveup target n tries).
Proof.
  intros Ht Hev Hg w.
  assert (Hsends : sends_to u target).
  { intros w0. destruct (Ht w0) as (tl & H & F). exists (ev :: tl).
    split; [exact H|]. constructor; assumption. }
  destruct (Ht w) as (tl1 & H1 & F1).
  destruct n as [|n]; cbn [attempt];
    destruct (target w) as [[a|e|] w1]; cbn [snd] in *;
    try (exists tl1; split; assumption);
    destruct (retried e); try (exists tl1; split; assumption).
  - destruct (sends_to_bind u (on_giveup tries) (fun _ => @raise A e) (Hg tries)
                (fun _ => @sends_to_raise u A e) w1) as (tl2 & H2 & F2).
    exists (tl1 ++ tl2). rewrite H2, H1, <- app_assoc. split; [reflexivity|].
    apply Forall_app. split; assumption.
  - destruct (sends_to_bind u (sleep interval)
                (fun _ => attempt retried interval on_giveup target n (tries + 1))
                (sends_to_sleep u interval)
                (fun _ => sends_to_attempt u retried interval on_giveup target Hsends Hg
                            n (tries + 1)) w1)
      as (tl2 & H2 & F2).
    exists (tl1 ++ tl2). rewrite H2, H1, <- app_assoc. split; [reflexivity|].
    apply Forall_app. split; assumption.
Qed.

Lemma login_begins (sha256 : bytes -> bytes) (hmac_digest : bytes -> bytes -> bytes)
    (token_bytes : nat -> bytes) (self : AsyncHuaweiSolar.t) (username password : string)
    (slave : option Z) :
  let u := slave_or slave (AsyncHuaweiSolar.slave self) in
  begins_with (EvExecute (PrivateHuaweiModbusRequest 36 [Byte.x01; Byte.x00] u)) u
    (login sha256 hmac_digest token_bytes self username password slave).
Proof.
  intros u. unfold login. apply begins_with_bind.
  - apply begins_with_execute. apply encodes_private. lia.
  - intros challenge.
    apply sends_to_bind; [unfold content_of; sends|]. intros content.
    apply sends_to_bind; [unfold item; sends|]. intros c0.
    destruct (negb _); [sends|].
    apply sends_to_bind; [sends_nothing|]. intros login_bytes.
    apply sends_to_bind; [sends_nothing|]. intros _.
    apply sends_to_bind; [apply sends_to_execute; reflexivity|]. intros response.
    apply sends_to_bind; [unfold content_of; sends|]. intros login_content.
    apply sends_to_bind; [unfold item; sends|]. intros status.
    destruct (status =? 0); [|sends].
    apply sends_to_bind; [unfold item; sends|]. intros mac_len.
    apply sends_to_bind; [|intros ?; sends].
    destruct (negb _); sends.
Qed.

Section Addressee.
Variable REGISTERS : string -> option RegisterDefinition.
Variable self : AsyncHuaweiSolar.t.
Variable slave : option Z.

Let u : Z := slave_or slave (AsyncHuaweiSolar.slave self).

Lemma sends_to__do_read (register length : Z) :
  sends_to u (_do_read self register length slave).
Proof.
  unfold _do_read. apply sends_to_bind; [sends_nothing|]. intros c.
  destruct (negb c); [sends|].
  apply sends_to_try_except.
  - apply sends_to_bind.
    + apply sends_to_transport. intros unit H. inversion H. reflexivity.
    + intros response. sends.
  - intros e h H. destruct e; try discriminate. inversion H. sends.
Qed.

Lemma sends_to__read_registers (register length : Z) :
  sends_to u (_read_registers self register length slave).
Proof.
  unfold _read_registers, on_exception. apply sends_to_with_lock.
  apply sends_to_bind; [|intros ?; sends].
  apply sends_to_attempt; [apply sends_to__do_read|intros tries; sends].
Qed.

Lemma sends_to_check_registers (registers : list RegisterDefinition) (idxs : list nat) :
  sends_to u (check_registers registers idxs).
Proof.
  induction idxs as [|idx idxs IH]; cbn [check_registers]; [sends|].
  destruct (nth_error registers (idx - 1)); [|sends].
  destruct (nth_error registers idx); [|sends].
  destruct (_ >? _); [sends|]. destruct (_ >? _); [sends|exact IH].
Qed.

Lemma sends_to_get_multiple (names : list string) :
  sends_to u (get_multiple self REGISTERS names slave).
Proof.
  unfold get_multiple. destruct (_ =? _)%nat; [sends|].
  destruct (all_known _) as [registers|]; [|sends].
  apply sends_to_bind; [apply sends_to_check_registers|]. intros _.
  destruct registers as [|first registers]; [sends|].
  apply sends_to_bind; [apply sends_to__read_registers|]. intros response.
  destruct response; sends.
Qed.

Lemma sends_to_write_registers (register : Z) (value : list Z) :
  sends_to u (write_registers self register value slave).
Proof.
  unfold write_registers. apply sends_to_bind; [sends_nothing|]. intros c.
  destruct (negb c); [sends|].
  apply sends_to_try_except.
  - apply sends_to_bind.
    + apply sends_to_transport. intros unit H. inversion H. reflexivity.
    + intros response. sends.
  - intros e h H. destruct e; try discriminate. inversion H. sends.
Qed.

Lemma sends_to_set (name : string) (value : Value) :
  sends_to u (set self REGISTERS name value slave).
Proof.
  unfold set. destruct (REGISTERS name) as [reg|]; [|sends].
  destruct (negb (Reg.writeable reg)); [sends|].
  apply sends_to_bind; [sends_nothing|]. intros words.
  destruct (negb _); [sends|].
  apply sends_to_bind.
  - apply sends_to_with_lock. apply sends_to_bind; [apply sends_to_write_registers|].
    intros response. sends.
  - intros response. destruct response; sends.
Qed.

Lemma sends_to__perform_request {R} (file_type : Z) (request : Request)
    (response_type : bytes -> Outcome R) :
  request_unit request = u ->
  sends_to u (_perform_request file_type request response_type).
Proof.
  intros Hu. unfold _perform_request, on_exception.
  apply sends_to_attempt; [|intros tries; sends].
  apply sends_to_bind; [apply sends_to_execute; exact Hu|].
  intros response. destruct response; sends.
Qed.

Lemma sends_to_read_frames (file_type : Z) (fuel : nat) :
  forall (data_frame_length file_length next_frame_no : Z) (file_data : bytes),
    sends_to u (read_frames self file_type slave fuel data_frame_length file_length
                  next_frame_no file_data).
Proof.
  induction fuel as [|fuel IH]; intros dfl fl k file_data; cbn [read_frames];
    destruct (_ <? _).
  - sends.
  - sends.
  - apply sends_to_bind; [apply sends_to__perform_request; reflexivity|].
    intros response. apply IH.
  - sends.
Qed.

Lemma sends_to_get_file (file_type : Z) (customized_data : option bytes) (fuel : nat) :
  sends_to u (get_file self file_type customized_data slave fuel).
Proof.
  unfold get_file. apply sends_to_with_lock. apply sends_to_bind; [|intros ?; sends].
  unfold _do_read_file.
  apply sends_to_bind; [apply sends_to__perform_request; reflexivity|]. intros start.
  apply sends_to_bind; [apply sends_to_read_frames|]. intros file_data.
  unfold complete_upload.
  apply sends_to_bind; [apply sends_to__perform_request; reflexivity|]. intros complete.
  sends.
Qed.

Lemma sends_to_login (sha256 : bytes -> bytes) (hmac_digest : bytes -> bytes -> bytes)
    (token_bytes : nat -> bytes) (username password : string) :
  sends_to u (login sha256 hmac_digest token_bytes self username password slave).
Proof.
  intros w.
  destruct (login_begins sha256 hmac_digest token_bytes self username password slave w)
    as (tl & H & F).
  eexists. split; [exact H|].
  constructor; [|exact F]. intros unit Hu. inversion Hu. reflexivity.
Qed.
End Addressee.

Lemma get_file_begins (self : AsyncHuaweiSolar.t) (file_type : Z)
    (customized_data : option bytes) (slave : option Z) (fuel : nat) (w : World) :
  0 <= file_type <= 255 ->
  Z.of_nat (List.length (match customized_data with Some d => d | None => [] end : bytes))
  <= 254 ->
  let u := slave_or slave (AsyncHuaweiSolar.slave self) in
  exists tl,
    trace (snd (get_file self file_type customized_data slave fuel w))
    = trace w ++ EvAcquire
        :: EvExecute (StartUploadModbusRequest file_type
                        (match customized_data with Some d => d | None => [] end) u)
        :: tl.
Proof.
  intros Htype Hcd u. unfold get_file. rewrite with_lock_eq.
  assert (Hbody : begins_with
            (EvExecute (StartUploadModbusRequest file_type
                          (match customized_data with Some d => d | None => [] end) u)) u
            (result <- _do_read_file self file_type customized_data slave fuel ;;
             sleep (AsyncHuaweiSolar._cooldown_time self) ;;; ret result)).
  { apply begins_with_bind; [|intros ?; sends].
    unfold _do_read_file. apply begins_with_bind.
    - unfold _perform_request, on_exception. apply begins_with_attempt.
      + apply begins_with_bind.
        * apply begins_with_execute. apply encodes_start; assumption.
        * intros response. destruct response; sends.
      + intros unit H. inversion H. reflexivity.
      + intros tries. sends.
    - intros start.
      apply sends_to_bind; [apply sends_to_read_frames|]. intros file_data.
      unfold complete_upload.
      apply sends_to_bind; [apply sends_to__perform_request; reflexivity|]. intros complete.
      sends. }
  destruct (Hbody (acquired w)) as (tl & H & _).
  destruct ((result <- _do_read_file self file_type customized_data slave fuel ;;
             sleep (AsyncHuaweiSolar._cooldown_time self) ;;; ret result) (acquired w))
    as [o w1].
  cbn [snd released trace] in *. exists (tl ++ [EvRelease]).
  rewrite H. cbn [acquired trace]. rewrite <- !app_assoc. reflexivity.
Qed.

(** C10. Passing the slave 0 is passing no slave: [slave or self.slave]
    takes the slave of the session in both cases. For [slave] absent or
    0, every request that a read, a write, a file upload or a login
    sends, whatever the client answers, carries the slave id of the
    session as its unit ([sends_to]), and the requests are sent: on a
    connected client one try of a read is one [read_holding_registers]
    for the slave of the session, a write is one [write_registers] for
    it, and the first request of an upload and of a login go to it as
    well. An operation given 0 ends as the operation given no slave, on
    every world. Any other slave is used as it is given. *)
Theorem slave_zero_is_no_slave (REGISTERS : string -> option RegisterDefinition)
    (sha256 : bytes -> bytes) (hmac_digest : bytes -> bytes -> bytes)
    (token_bytes : nat -> bytes) (self : AsyncHuaweiSolar.t) (slave : option Z) :
  slave = None \/ slave = Some 0 ->
  let own := AsyncHuaweiSolar.slave self in
  let timeout := AsyncHuaweiSolar._timeout self in
  ((forall register length, sends_to own (_read_registers self register length slave))
   /\ (forall names, sends_to own (get_multiple self REGISTERS names slave))
   /\ (forall register value, sends_to own (write_registers self register value slave))
   /\ (forall name value, sends_to own (set self REGISTERS name value slave))
   /\ (forall file_type customized_data fuel,
         sends_to own (get_file self file_type customized_data slave fuel))
   /\ (forall username password,
         sends_to own (login sha256 hmac_digest token_bytes self username password slave)))
  /\ ((forall register length w,
         connected w = true ->
         trace (snd (_do_read self register length slave w))
         = trace w ++ [EvReadHolding register length own timeout])
      /\ (forall register length w,
            connected w = true ->
            exists tl,
              trace (snd (_read_registers self register length slave w))
              = trace w ++ EvAcquire :: EvReadHolding register length own timeout :: tl)
      /\ (forall register value w,
            connected w = true ->
            trace (snd (write_registers self register value slave w))
            = trace w ++ [EvWriteRegisters register value own timeout])
      /\ (forall file_type customized_data fuel w,
            0 <= file_type <= 255 ->
            Z.of_nat (List.length
                        (match customized_data with Some d => d | None => [] end : bytes))
            <= 254 ->
            exists tl,
              trace (snd (get_file self file_type customized_data slave fuel w))
              = trace w ++ EvAcquire
                  :: EvExecute (StartUploadModbusRequest file_type
                                  (match customized_data with Some d => d | None => [] end)
                                  own)
                  :: tl)
      /\ (forall username password w,
            exists tl,
              trace (snd (login sha256 hmac_digest token_bytes self username password
                            slave w))
              = trace w
                  ++ EvExecute (PrivateHuaweiModbusRequest 36 [Byte.x01; Byte.x00] own)
                  :: tl))
  /\ ((forall register length w,
         _read_registers self register length slave w
         = _read_registers self register length None w)
      /\ (forall names w,
            get_multiple self REGISTERS names slave w
            = get_multiple self REGISTERS names None w)
      /\ (forall register value w,
            write_registers self register value slave w
            = write_registers self register value None w)
      /\ (forall name value w,
            set self REGISTERS name value slave w = set self REGISTERS name value None w)
      /\ (forall file_type customized_data fuel w,
            get_file self file_type customized_data slave fuel w
            = get_file self file_type customized_data None fuel w)
      /\ (forall username password w,
            login sha256 hmac_digest token_bytes self username password slave w
            = login sha256 hmac_digest token_bytes self username password None w))
  /\ (forall s : Z,
        s <> 0 ->
        (forall register length, sends_to s (_read_registers self register length (Some s)))
        /\ (forall register value, sends_to s (write_registers self register value (Some s)))
        /\ (forall register length w,
              connected w = true ->
              trace (snd (_do_read self register length (Some s) w))
              = trace w ++ [EvReadHolding register length s timeout])
        /\ (forall register value w,
              connected w = true ->
              trace (snd (write_registers self register value (Some s) w))
              = trace w ++ [EvWriteRegisters register value s timeout])).
Proof.
  intros Hslave own timeout.
  assert (Hown : slave_or slave (AsyncHuaweiSolar.slave self) = own)
    by (destruct Hslave as [->| ->]; reflexivity).
  split; [|split; [|split]].
  - rewrite <- Hown. repeat split; intros.
    + apply sends_to__read_registers.
    + apply sends_to_get_multiple.
    + apply sends_to_write_registers.
    + apply sends_to_set.
    + apply sends_to_get_file.
    + apply sends_to_login.
  - repeat split.
    + intros register length w Hc.
      destruct (_do_read_connected self register length slave w Hc) as (_ & _ & H & _).
      rewrite H. unfold read_call. rewrite Hown. reflexivity.
    + intros register length w Hc.
      destruct (_read_registers_connected_shape self register length slave w Hc)
        as (k & _ & H).
      rewrite H. unfold read_call. rewrite Hown. eexists. reflexivity.
    + intros register value w Hc.
      destruct (write_registers_connected self register value slave w Hc) as (_ & _ & H & _).
      rewrite H. unfold write_call. rewrite Hown. reflexivity.
    + intros file_type customized_data fuel w Htype Hcd.
      destruct (get_file_begins self file_type customized_data slave fuel w Htype Hcd)
        as (tl & H).
      rewrite Hown in H. exists tl. exact H.
    + intros username password w.
      destruct (login_begins sha256 hmac_digest token_bytes self username password slave w)
        as (tl & H & _).
      rewrite Hown in H. exists tl. exact H.
  - destruct Hslave as [->| ->]; repeat split; reflexivity.
  - intros s Hs.
    assert (Hs' : slave_or (Some s) (AsyncHuaweiSolar.slave self) = s).
    { unfold slave_or. apply Z.eqb_neq in Hs. rewrite Hs. reflexivity. }
    repeat split.
    + intros register length.
      pose proof (sends_to__read_registers self (Some s) register length) as H.
      cbv zeta in H. rewrite Hs' in H. exact H.
    + intros register value.
      pose proof (sends_to_write_registers self (Some s) register value) as H.
      cbv zeta in H. rewrite Hs' in H. exact H.
    + intros register length w Hc.
      destruct (_do_read_connected self register length (Some s) w Hc) as (_ & _ & H & _).
      rewrite H. unfold read_call. rewrite Hs'. reflexivity.
    + intros register value w Hc.
      destruct (write_registers_connected self register value (Some s) w Hc)
        as (_ & _ & H & _).
      rewrite H. unfold write_call. rewrite Hs'. reflexivity.
Qed.

(** A session of slave 5 asked to read and to write with the slave 0:
    the requests go to the slave 5. *)
Lemma slave_zero_is_no_slave_witness :
  let self := AsyncHuaweiSolar.__init__ 5 DEFAULT_TIMEOUT DEFAULT_COOLDOWN_TIME in
  trace (snd (_do_read self 32080 2 (Some 0)
                (world_of [Responds (ReadHoldingRegistersResponse [0; 5000])])))
  = [EvReadHolding 32080 2 5 5000]
  /\ trace (snd (write_registers self 43006 [60] (Some 0)
                   (world_of [Responds (WriteMultipleRegistersResponse 43006 1)])))
     = [EvWriteRegisters 43006 [60] 5 5000].
Proof.
  intros self.
  destruct (slave_zero_is_no_slave SAMPLE_REGISTERS constant_digest
              (fun _ => constant_digest) (fun n => repeat Byte.x2a n) self (Some 0)
              (or_intror eq_refl)) as (_ & (Hread & _ & Hwrite & _) & _).
  split.
  - exact (Hread 32080 2 (world_of [Responds (ReadHoldingRegistersResponse [0; 5000])])
             eq_refl).
  - exact (Hwrite 43006 [60]
             (world_of [Responds (WriteMultipleRegistersResponse 43006 1)]) eq_refl).
Defined.

(** * Further properties of the client *)

(** ** [get_multiple]: what is refused before the client is asked *)

Lemma all_known_None {A} (l : list (option A)) :
  In None l -> all_known l = None.
Proof.
  induction l as [|[a|] l IH]; cbn; intros Hin.
  - contradiction.
  - destruct Hin as [Hin|Hin]; [discriminate|]. rewrite (IH Hin). reflexivity.
  - reflexivity.
Qed.

Lemma check_registers_overlap (registers : list RegisterDefinition) (w : World) :
  forall idxs : list nat,
    (forall idx, In idx idxs -> (1 <= idx < List.length registers)%nat) ->
    (exists idx prev cur,
        In idx idxs
        /\ nth_error registers (idx - 1) = Some prev
        /\ nth_error registers idx = Some cur
        /\ Reg.register prev + Reg.length prev > Reg.register cur) ->
    exists msg, check_registers registers idxs w = (Raise (ValueError msg), w).
Proof.
  induction idxs as [|idx idxs IH]; intros Hrange (bad & prev & cur & Hin & Hp & Hc & Hov).
  - contradiction.
  - cbn [check_registers].
    assert (Hidx : (1 <= idx < List.length registers)%nat) by (apply Hrange; left; reflexivity).
    destruct (nth_error registers (idx - 1)) as [p|] eqn:Hp';
      [|apply nth_error_None in Hp'; lia].
    destruct (nth_error registers idx) as [c|] eqn:Hc';
      [|apply nth_error_None in Hc'; lia].
    destruct (Reg.register p + Reg.length p >? Reg.register c) eqn:Hcmp.
    + eexists. reflexivity.
    + replace (Reg.register p + Reg.length p - Reg.register c >? 64) with false by lia.
      apply IH.
      * intros i Hi. apply Hrange. right. assumption.
      * exists bad, prev, cur. repeat split; try assumption.
        destruct Hin as [<-|Hin]; [|assumption].
        rewrite Hp in Hp'. rewrite Hc in Hc'. inversion Hp'; inversion Hc'; subst. lia.
Qed.

(** X1. An empty list of names, a name the catalogue does not know and
    two consecutive registers that overlap or are out of order are each
    refused with a [ValueError] before anything is done: the world (the
    client, the trace, the log) is left as it was. *)
Theorem get_multiple_refuses_locally (REGISTERS : string -> option RegisterDefinition)
    (self : AsyncHuaweiSolar.t) (slave : option Z) (w : World) :
  get_multiple self REGISTERS [] slave w
  = (Raise (ValueError "Expected at least one register name"), w)
  /\ (forall (names : list string) (name : string),
        In name names ->
        REGISTERS name = None ->
        get_multiple self REGISTERS names slave w
        = (Raise (ValueError "Did not recognize all register names"), w))
  /\ (forall (names : list string) (registers : list RegisterDefinition) (i : nat)
             (prev cur : RegisterDefinition),
        map REGISTERS names = map Some registers ->
        nth_error registers i = Some prev ->
        nth_error registers (S i) = Some cur ->
        Reg.register prev + Reg.length prev > Reg.register cur ->
        exists msg,
          get_multiple self REGISTERS names slave w = (Raise (ValueError msg), w)).
Proof.
  split; [reflexivity|split].
  - intros names name Hin Hnone. unfold get_multiple.
    destruct names as [|n names]; [contradiction|]. cbn [List.length Nat.eqb].
    rewrite all_known_None; [reflexivity|].
    rewrite <- Hnone. apply in_map. assumption.
  - intros names registers i prev cur Hnames Hp Hc Hov.
    assert (Hlen : List.length names = List.length registers).
    { rewrite <- (length_map REGISTERS names), Hnames. apply length_map. }
    assert (Hi : (S i < List.length registers)%nat).
    { apply nth_error_Some. rewrite Hc. discriminate. }
    unfold get_multiple. rewrite Hnames, all_known_Some, Hlen.
    destruct (List.length registers) as [|n] eqn:Hn; [lia|]. cbn [Nat.eqb].
    destruct (check_registers_overlap registers w (range1 (S n))) as [msg Hmsg].
    + intros idx Hin. unfold range1 in Hin. apply in_seq in Hin. lia.
    + exists (S i), prev, cur. repeat split; try assumption.
      * unfold range1. apply in_seq. lia.
      * replace (S i - 1)%nat with i by lia. assumption.
    + exists msg. unfold bind. rewrite Hmsg. reflexivity.
Qed.

(** ** A client that is not connected *)

Definition not_connected_message : string :=
  "Modbus client is not connected to the inverter.".

Lemma _do_read_not_connected (self : AsyncHuaweiSolar.t) (register length : Z)
    (slave : option Z) (w : World) :
  connected w = false ->
  _do_read self register length slave w
  = (Raise (ConnectionException not_connected_message),
     mkWorld (script w) (trace w) (log w ++ [(ERROR, not_connected_message)]) (connected w)).
Proof.
  intros Hc. destruct w as [s t l c]. cbn in Hc. subst c. reflexivity.
Qed.

(** X2. When the client is not connected, a read takes the lock, logs
    the error, raises [ConnectionException] and releases the lock: no
    request is sent, nothing is tried again and there is no cooldown.
    [write_registers] raises the same error without sending anything. *)
Theorem disconnected_client_is_not_asked (self : AsyncHuaweiSolar.t) (register length : Z)
    (value : list Z) (slave : option Z) (w : World) :
  connected w = false ->
  _read_registers self register length slave w
  = (Raise (ConnectionException not_connected_message),
     mkWorld (script w) (trace w ++ [EvAcquire; EvRelease])
       (log w ++ [(ERROR, not_connected_message)]) false)
  /\ write_registers self register value slave w
     = (Raise (ConnectionException not_connected_message),
        mkWorld (script w) (trace w) (log w ++ [(ERROR, not_connected_message)]) false).
Proof.
  intros Hc. split.
  - rewrite _read_registers_eq.
    change (attempt timeout_or_busy DEFAULT_WAIT ?g ?t 4 1 (acquired w))
      with (match t (acquired w) with
            | (Raise e, w') =>
                if timeout_or_busy e
                then (sleep DEFAULT_WAIT ;;; attempt timeout_or_busy DEFAULT_WAIT g t 3 (1 + 1)) w'
                else (Raise e, w')
            | r => r
            end).
    assert (Hc' : connected (acquired w) = false) by exact Hc.
    rewrite (_do_read_not_connected self register length slave (acquired w) Hc').
    cbn [timeout_or_busy]. unfold released, acquired. cbn [script trace log connected].
    rewrite <- app_assoc, Hc. reflexivity.
  - destruct w as [s t l c]. cbn in Hc. subst c. reflexivity.
Qed.

Lemma disconnected_client_is_not_asked_witness :
  _read_registers sample_session 32080 2 None
    (mkWorld [Responds (ReadHoldingRegistersResponse [0; 5000])] [] [] false)
  = (Raise (ConnectionException not_connected_message),
     mkWorld [Responds (ReadHoldingRegistersResponse [0; 5000])] [EvAcquire; EvRelease]
       [(ERROR, not_connected_message)] false).
Proof.
  exact (proj1 (disconnected_client_is_not_asked sample_session 32080 2 [] None
                  (mkWorld [Responds (ReadHoldingRegistersResponse [0; 5000])] [] [] false)
                  eq_refl)).
Defined.

(** ** [set]: validation and result *)

(** X3. [set] refuses an unknown name, a register that is not writeable
    and a value that does not encode to [length] words before the lock
    is taken: the world is left as it was. *)
Theorem set_refuses_locally (REGISTERS : string -> option RegisterDefinition)
    (self : AsyncHuaweiSolar.t) (name : string) (value : Value) (slave : option Z)
    (w : World) :
  (REGISTERS name = None ->
   set self REGISTERS name value slave w = (Raise (ValueError "Invalid Register Name"), w))
  /\ (forall reg,
        REGISTERS name = Some reg ->
        Reg.writeable reg = false ->
        set self REGISTERS name value slave w
        = (Raise (WriteException "Register is not writable"), w))
  /\ (forall reg words,
        REGISTERS name = Some reg ->
        Reg.writeable reg = true ->
        Reg.encode reg value = Return words ->
        Z.of_nat (List.length words) <> Reg.length reg ->
        set self REGISTERS name value slave w
        = (Raise (WriteException "Wrong number of registers to write"), w))
  /\ (forall reg e,
        REGISTERS name = Some reg ->
        Reg.writeable reg = true ->
        Reg.encode reg value = Raise e ->
        set self REGISTERS name value slave w = (Raise e, w)).
Proof.
  unfold set. repeat split.
  - intros ->. reflexivity.
  - intros reg -> ->. reflexivity.
  - intros reg words -> -> Henc Hlen. cbn [negb]. unfold bind, lift. rewrite Henc.
    apply Z.eqb_neq in Hlen. rewrite Hlen. reflexivity.
  - intros reg e -> -> Henc. cbn [negb]. unfold bind, lift. rewrite Henc. reflexivity.
Qed.

(** X4. On a connected client, a [set] that passes the validation sends
    one write under the lock. It returns [True] exactly when the
    response echoes the address and the number of words of the
    register, and [False] on any other echo; the exception code 0x80 is
    raised as [PermissionDenied], any other exception response as a
    [WriteException]. *)
Theorem set_outcome (REGISTERS : string -> option RegisterDefinition)
    (self : AsyncHuaweiSolar.t) (name : string) (value : Value) (slave : option Z)
    (reg : RegisterDefinition) (words : list Z) (rest : list Reply) (w : World) :
  REGISTERS name = Some reg ->
  Reg.writeable reg = true ->
  Reg.encode reg value = Return words ->
  Z.of_nat (List.length words) = Reg.length reg ->
  connected w = true ->
  (forall address count,
      script w = Responds (WriteMultipleRegistersResponse address count) :: rest ->
      exists b,
        fst (set self REGISTERS name value slave w) = Return b
        /\ (b = true <-> address = Reg.register reg /\ count = Reg.length reg)
        /\ script (snd (set self REGISTERS name value slave w)) = rest)
  /\ (forall oc,
      script w = Responds (ExceptionResponse oc 128) :: rest ->
      fst (set self REGISTERS name value slave w)
      = Raise (PermissionDenied "Permission denied"))
  /\ (forall oc code,
      script w = Responds (ExceptionResponse oc code) :: rest ->
      code <> 128 ->
      fst (set self REGISTERS name value slave w)
      = Raise (WriteException (str_option (ModbusExceptions.decode code)))).
Proof.
  intros Hreg Hw Henc Hlen Hc.
  rewrite (set_eq REGISTERS self name value slave reg words w Hreg Hw Henc Hlen).
  assert (Hc' : connected (acquired w) = true) by exact Hc.
  destruct (write_registers_connected self (Reg.register reg) words slave (acquired w) Hc')
    as (H1 & H2 & _ & _).
  change (script (acquired w)) with (script w) in H1, H2.
  destruct (write_registers self (Reg.register reg) words slave (acquired w)) as [o w1].
  cbn [fst snd] in H1, H2. repeat split.
  - intros address count Hs. rewrite Hs in H1, H2. cbn in H1, H2. subst o.
    exists ((address =? Reg.register reg) && (count =? Reg.length reg)).
    cbn [set_result ret fst snd released slept script].
    split; [reflexivity|split; [|assumption]].
    rewrite andb_true_iff, !Z.eqb_eq. reflexivity.
  - intros oc Hs. rewrite Hs in H1. cbn in H1. subst o. reflexivity.
  - intros oc code Hs Hcode. rewrite Hs in H1. cbn in H1.
    apply Z.eqb_neq in Hcode. rewrite Hcode in H1. subst o. reflexivity.
Qed.

Lemma set_outcome_witness :
  fst (set sample_session SAMPLE_REGISTERS "TIME_ZONE" (VInt 60) None
         (world_of [Responds (ExceptionResponse 16 128)]))
  = Raise (PermissionDenied "Permission denied").
Proof.
  destruct (set_outcome SAMPLE_REGISTERS sample_session "TIME_ZONE" (VInt 60) None
              (Reg.mk 43006 1 (UnitStatic (Some "min"%string)) true (decode_uint 1)
                 encode_uint16)
              [60] [] (world_of [Responds (ExceptionResponse 16 128)])
              eq_refl eq_refl eq_refl eq_refl eq_refl) as (_ & H & _).
  exact (H 16 eq_refl).
Defined.

(** ** [login]: what stops it before the login request *)

Definition challenge_request (self : AsyncHuaweiSolar.t) (slave : option Z) : Event :=
  EvExecute (PrivateHuaweiModbusRequest 36 [Byte.x01; Byte.x00]
               (slave_or slave (AsyncHuaweiSolar.slave self))).

Lemma bytes_of_ints_head_too_large (x : Z) (l : list Z) :
  256 <= x -> bytes_of_ints (x :: l) = Raise (ValueError "bytes must be in range(0, 256)").
Proof.
  intros Hx. cbn [bytes_of_ints].
  replace ((0 <=? x) && (x <? 256)) with false by lia. reflexivity.
Qed.

(** X5. [login] sends the challenge request first. If the answer does
    not start with 0x11 the assertion fails; if it is empty, [content[0]]
    is an [IndexError]; if it is an exception response, it has no
    [content]; and if the user name is so long that the length byte of
    the login frame passes 255, [bytes(...)] raises a [ValueError]. In
    all four cases only the challenge has been sent: there is no sleep
    and no login request. *)
Theorem login_stops_after_challenge (sha256 : bytes -> bytes)
    (hmac_digest : bytes -> bytes -> bytes) (token_bytes : nat -> bytes)
    (self : AsyncHuaweiSolar.t) (username password : string) (slave : option Z)
    (rest : list Reply) (w : World) :
  let after := mkWorld rest (trace w ++ [challenge_request self slave])
                 (log w) (connected w) in
  let run := login sha256 hmac_digest token_bytes self username password slave w in
  (forall sub c0 nonce,
      script w = Responds (PrivateHuaweiModbusResponse sub (c0 :: nonce)) :: rest ->
      c0 <> Byte.x11 ->
      run = (Raise AssertionError, after))
  /\ (forall sub,
      script w = Responds (PrivateHuaweiModbusResponse sub []) :: rest ->
      run = (Raise IndexError, after))
  /\ (forall oc code,
      script w = Responds (ExceptionResponse oc code) :: rest ->
      run = (Raise AttributeError, after))
  /\ (forall sub nonce,
      script w = Responds (PrivateHuaweiModbusResponse sub (Byte.x11 :: nonce)) :: rest ->
      206 <= len (token_bytes 16%nat) + len (list_byte_of_string username)
             + len (hmac_digest (sha256 (list_byte_of_string password))
                      (slice 1 17 (Byte.x11 :: nonce))) - 48 ->
      run = (Raise (ValueError "bytes must be in range(0, 256)"), after)).
Proof.
  intros after run. subst after run. unfold login, challenge_request.
  repeat split.
  - intros sub c0 nonce Hs Hc0.
    unfold bind at 1. rewrite (execute_encoded _ w (encodes_private 36 _ _ ltac:(lia))).
    unfold transport at 1, emit. cbn [snd script trace log connected].
    rewrite Hs. unfold bind at 1. cbn [content_of ret].
    unfold bind at 1. cbn [item nth_error ret].
    assert (Hne : (b2z c0 =? 17) = false).
    { apply Z.eqb_neq. intros Heq. apply Hc0. clear - Heq.
      destruct c0; vm_compute in Heq; try discriminate. reflexivity. }
    rewrite Hne. reflexivity.
  - intros sub Hs.
    unfold bind at 1. rewrite (execute_encoded _ w (encodes_private 36 _ _ ltac:(lia))).
    unfold transport at 1, emit. cbn [snd script trace log connected].
    rewrite Hs. reflexivity.
  - intros oc code Hs.
    unfold bind at 1. rewrite (execute_encoded _ w (encodes_private 36 _ _ ltac:(lia))).
    unfold transport at 1, emit. cbn [snd script trace log connected].
    rewrite Hs. reflexivity.
  - intros sub nonce Hs Hlong.
    unfold bind at 1. rewrite (execute_encoded _ w (encodes_private 36 _ _ ltac:(lia))).
    unfold transport at 1, emit. cbn [snd script trace log connected].
    rewrite Hs. unfold bind at 1. cbn [content_of ret].
    unfold bind at 1. cbn [item nth_error ret].
    change (b2z Byte.x11 =? 17) with true. cbn [negb].
    unfold bind at 1. unfold lift at 1. unfold login_ints, _compute_digest.
    cbn [app]. rewrite bytes_of_ints_head_too_large by lia. reflexivity.
Qed.

(** ** The login frame *)

Lemma bytes_of_ints_app (l1 l2 : list Z) (b1 b2 : bytes) :
  bytes_of_ints l1 = Return b1 ->
  bytes_of_ints l2 = Return b2 ->
  bytes_of_ints (l1 ++ l2) = Return (b1 ++ b2).
Proof.
  revert b1. induction l1 as [|x l1 IH]; intros b1 H1 H2.
  - cbn in H1. inversion H1. exact H2.
  - cbn [app bytes_of_ints] in *.
    destruct ((0 <=? x) && (x <? 256)); [|discriminate].
    destruct (bytes_of_ints l1) as [bs| |]; try discriminate.
    inversion H1. rewrite (IH bs eq_refl H2). reflexivity.
Qed.

Lemma bytes_of_ints_cons (x : Z) (l : list Z) (bs : bytes) :
  0 <= x < 256 ->
  bytes_of_ints l = Return bs ->
  bytes_of_ints (x :: l) = Return (z2b x :: bs).
Proof.
  intros Hx Hl. cbn [bytes_of_ints].
  replace ((0 <=? x) && (x <? 256)) with true by lia. rewrite Hl. reflexivity.
Qed.

(** X6. When the user name leaves room (the three fields and the two
    inner length bytes make at most 255 bytes), the content of the login
    request is: one byte with the number of bytes that follow, the
    client challenge, the length of the user name, the user name, the
    length of the hashed password and the hashed password. *)
Theorem login_frame_layout (client_challenge encoded_username hashed_password : bytes) :
  len client_challenge + 1 + len encoded_username + 1 + len hashed_password < 256 ->
  let rest_of_frame :=
    client_challenge ++ z2b (len encoded_username) :: encoded_username
      ++ z2b (len hashed_password) :: hashed_password in
  bytes_of_ints (login_ints client_challenge encoded_username hashed_password)
  = Return (z2b (len rest_of_frame) :: rest_of_frame)
  /\ b2z (z2b (len rest_of_frame)) = len rest_of_frame
  /\ b2z (z2b (len encoded_username)) = len encoded_username
  /\ b2z (z2b (len hashed_password)) = len hashed_password.
Proof.
  intros Hfit rest_of_frame.
  assert (Hl : len rest_of_frame
               = len client_challenge + 1 + len encoded_username + 1 + len hashed_password).
  { subst rest_of_frame. unfold len. rewrite !length_app. cbn [List.length].
    rewrite !length_app. cbn [List.length]. lia. }
  assert (Hb2z : forall x, 0 <= x < 256 -> b2z (z2b x) = x).
  { intros x Hx. unfold b2z, z2b. rewrite Z.mod_small by lia.
    destruct (Byte.of_N (Z.to_N x)) as [b|] eqn:Hof.
    - apply Byte.to_of_N in Hof. rewrite Hof. lia.
    - apply Byte.of_N_None_iff in Hof. lia. }
  unfold len in *.
  split; [|repeat split; apply Hb2z; lia].
  unfold login_ints. rewrite Hl. subst rest_of_frame. unfold len. cbn [app].
  apply bytes_of_ints_cons; [lia|].
  apply bytes_of_ints_app; [apply bytes_of_ints_map|].
  apply bytes_of_ints_cons; [lia|].
  apply bytes_of_ints_app; [apply bytes_of_ints_map|].
  apply bytes_of_ints_cons; [lia|].
  apply bytes_of_ints_map.
Qed.

Lemma login_frame_layout_witness :
  bytes_of_ints (login_ints (repeat Byte.x2a 16) (list_byte_of_string "installer")
                   (repeat Byte.x00 32))
  = Return (Byte.x3b :: repeat Byte.x2a 16
              ++ Byte.x09 :: list_byte_of_string "installer"
              ++ Byte.x20 :: repeat Byte.x00 32).
Proof.
  exact (proj1 (login_frame_layout (repeat Byte.x2a 16) (list_byte_of_string "installer")
                  (repeat Byte.x00 32) eq_refl)).
Defined.

(** ** The file upload: frames of length 0 *)

Lemma read_frames_zero_length (self : AsyncHuaweiSolar.t) (file_type : Z)
    (slave : option Z) (file_length : Z) (replies : list Reply)
    (frames : list UploadModbusResponse.t) :
  0 <= file_type <= 255 ->
  0 < file_length ->
  Forall2 (answers UploadModbusResponse.__init__) replies frames ->
  forall (k : Z) (file_data : bytes) (rest : list Reply) (w : World),
    0 <= k ->
    k + Z.of_nat (List.length replies) <= 65536 ->
    script w = replies ++ rest ->
    read_frames self file_type slave (List.length replies) 0 file_length k file_data w
    = (OutOfFuel,
       mkWorld rest
         (trace w ++ frame_requests file_type (unit_id self slave) k (List.length replies))
         (log w) (connected w)).
Proof.
  intros Htype Hpos HF. induction HF as [|reply frame replies frames Hans HF IH];
    intros k file_data rest w Hk Hmax Hs.
  - cbn [List.length read_frames frame_requests seq map].
    replace (k * 0 <? file_length) with true by lia.
    rewrite app_nil_r. destruct w; cbn in *; subst; reflexivity.
  - cbn [List.length read_frames]. cbn [List.length] in Hmax.
    replace (k * 0 <? file_length) with true by lia.
    unfold bind at 1.
    rewrite (_perform_request_answered file_type
               (UploadModbusRequest file_type k (unit_id self slave))
               UploadModbusResponse.__init__ reply frame (replies ++ rest) w
               (encodes_upload file_type k (unit_id self slave) Htype ltac:(lia)) Hs Hans).
    rewrite (IH (k + 1) (file_data ++ UploadModbusResponse.frame_data frame) rest
               (executed (UploadModbusRequest file_type k (unit_id self slave))
                  (replies ++ rest) w) ltac:(lia) ltac:(lia) eq_refl).
    cbn [executed trace log connected]. rewrite frame_requests_S, <- !app_assoc.
    reflexivity.
Qed.

Lemma read_frames_zero_length_overflow (self : AsyncHuaweiSolar.t) (file_type : Z)
    (slave : option Z) (file_length : Z) (replies : list Reply)
    (frames : list UploadModbusResponse.t) :
  0 <= file_type <= 255 ->
  0 < file_length ->
  Forall2 (answers UploadModbusResponse.__init__) replies frames ->
  forall (k : Z) (file_data : bytes) (rest : list Reply) (w : World) (fuel : nat),
    0 <= k ->
    k + Z.of_nat (List.length replies) = 65536 ->
    script w = replies ++ rest ->
    (List.length replies < fuel)%nat ->
    read_frames self file_type slave fuel 0 file_length k file_data w
    = (Raise StructError,
       mkWorld rest
         (trace w ++ frame_requests file_type (unit_id self slave) k (List.length replies))
         (log w) (connected w)).
Proof.
  intros Htype Hpos HF. induction HF as [|reply frame replies frames Hans HF IH];
    intros k file_data rest w fuel Hk Hmax Hs Hfuel.
  - cbn [List.length Z.of_nat] in *. destruct fuel as [|fuel]; [lia|].
    cbn [read_frames frame_requests seq map].
    replace (k * 0 <? file_length) with true by lia.
    unfold bind at 1.
    rewrite (_perform_request_refused file_type
               (UploadModbusRequest file_type k (unit_id self slave))
               UploadModbusResponse.__init__ w
               (encode_frame_overflow file_type k (unit_id self slave) Htype ltac:(lia))).
    rewrite app_nil_r. destruct w; cbn in *; subst; reflexivity.
  - cbn [List.length] in *. destruct fuel as [|fuel]; [lia|].
    cbn [read_frames].
    replace (k * 0 <? file_length) with true by lia.
    unfold bind at 1.
    rewrite (_perform_request_answered file_type
               (UploadModbusRequest file_type k (unit_id self slave))
               UploadModbusResponse.__init__ reply frame (replies ++ rest) w
               (encodes_upload file_type k (unit_id self slave) Htype ltac:(lia)) Hs Hans).
    rewrite (IH (k + 1) (file_data ++ UploadModbusResponse.frame_data frame) rest
               (executed (UploadModbusRequest file_type k (unit_id self slave))
                  (replies ++ rest) w) fuel ltac:(lia) ltac:(lia) eq_refl ltac:(lia)).
    cbn [executed trace log connected]. rewrite frame_requests_S, <- !app_assoc.
    reflexivity.
Qed.

(** X7. When the inverter announces a [data_frame_length] of 0 for a
    file that is not empty, the test of the loop never fails: as long
    as the data requests are answered, the loop asks for the next frame,
    whatever it has received. What ends it is the encoding of the
    request: the frame number 65536 does not fit the 16 bits that
    [UploadModbusRequest.encode] packs it in, so once the frames up to
    65535 are answered the upload fails with a [struct.error], and the
    request for frame 65536 is not sent. *)
Theorem zero_frame_length_ends_by_overflow (self : AsyncHuaweiSolar.t) (file_type : Z)
    (slave : option Z) (file_length : Z) (replies : list Reply)
    (frames : list UploadModbusResponse.t) :
  0 <= file_type <= 255 ->
  0 < file_length ->
  Forall2 (answers UploadModbusResponse.__init__) replies frames ->
  forall (k : Z) (file_data : bytes) (rest : list Reply) (w : World),
    0 <= k ->
    k + Z.of_nat (List.length replies) <= 65536 ->
    script w = replies ++ rest ->
    let asked :=
      mkWorld rest
        (trace w
           ++ map (fun i => EvExecute (UploadModbusRequest file_type (k + Z.of_nat i)
                                         (slave_or slave (AsyncHuaweiSolar.slave self))))
                (seq 0 (List.length replies)))
        (log w) (connected w) in
    read_frames self file_type slave (List.length replies) 0 file_length k file_data w
    = (OutOfFuel, asked)
    /\ (k + Z.of_nat (List.length replies) = 65536 ->
        forall fuel : nat,
          (List.length replies < fuel)%nat ->
          read_frames self file_type slave fuel 0 file_length k file_data w
          = (Raise StructError, asked)).
Proof.
  intros Htype Hpos HF k file_data rest w Hk Hmax Hs asked. split.
  - exact (read_frames_zero_length self file_type slave file_length replies frames
             Htype Hpos HF k file_data rest w Hk Hmax Hs).
  - intros Hfull fuel Hfuel.
    exact (read_frames_zero_length_overflow self file_type slave file_length replies frames
             Htype Hpos HF k file_data rest w fuel Hk Hfull Hs Hfuel).
Qed.

(** The frames 65534 and 65535 are answered (with no data); there is
    fuel for a third turn, and a third reply, but no third request. *)
Lemma zero_frame_length_ends_by_overflow_witness :
  let last_frames :=
    [Responds (PrivateHuaweiModbusResponse 6 [Byte.x03; Byte.x45; Byte.xff; Byte.xfe]);
     Responds (PrivateHuaweiModbusResponse 6 [Byte.x03; Byte.x45; Byte.xff; Byte.xff])] in
  read_frames sample_session 0x45 None 3 0 300 65534 []
    (world_of (last_frames ++ [upload_frame_reply Byte.x00 0]))
  = (Raise StructError,
     mkWorld [upload_frame_reply Byte.x00 0]
       [EvExecute (UploadModbusRequest 0x45 65534 0);
        EvExecute (UploadModbusRequest 0x45 65535 0)]
       [] true).
Proof.
  intros last_frames.
  assert (HF : Forall2 (answers UploadModbusResponse.__init__) last_frames
                 [UploadModbusResponse.mk 0x45 65534 []; UploadModbusResponse.mk 0x45 65535 []]).
  { repeat constructor; eexists; eexists; (split; [reflexivity|vm_compute; reflexivity]). }
  destruct (zero_frame_length_ends_by_overflow sample_session 0x45 None 300 _ _
              ltac:(lia) eq_refl HF 65534 [] [upload_frame_reply Byte.x00 0]
              (world_of (last_frames ++ [upload_frame_reply Byte.x00 0]))
              ltac:(lia) ltac:(cbn; lia) eq_refl) as [_ H].
  exact (H eq_refl 3%nat ltac:(cbn; lia)).
Defined.

(** ** The responses of the file upload *)

Lemma StartUpload_accepts (content : bytes) (r : StartUploadModbusResponse.t) :
  StartUploadModbusResponse.__init__ content = Return r ->
  (7 <= List.length content)%nat
  /\ 0 <= StartUploadModbusResponse.file_length r < 4294967296
  /\ 0 <= StartUploadModbusResponse.data_frame_length r < 256
  /\ StartUploadModbusResponse.customised_data r = skipn 7 content
  /\ (List.length (StartUploadModbusResponse.customised_data r) <= 249)%nat.
Proof.
  unfold StartUploadModbusResponse.__init__.
  destruct content as [|b0 [|b1 [|b2 [|b3 [|b4 [|b5 [|b6 rest]]]]]]]; try discriminate.
  destruct (Z.of_nat (List.length rest) =? b2z b0 - 6) eqn:Hl; [|discriminate].
  intros H. inversion H. subst r. clear H.
  cbn [StartUploadModbusResponse.file_length StartUploadModbusResponse.data_frame_length
         StartUploadModbusResponse.customised_data skipn List.length].
  pose proof (b2z_range b0). pose proof (b2z_range b2). pose proof (b2z_range b3).
  pose proof (b2z_range b4). pose proof (b2z_range b5). pose proof (b2z_range b6).
  repeat split; try reflexivity; lia.
Qed.

Lemma Upload_accepts (content : bytes) (r : UploadModbusResponse.t) :
  UploadModbusResponse.__init__ content = Return r ->
  (4 <= List.length content)%nat
  /\ 0 <= UploadModbusResponse.frame_no r < 65536
  /\ UploadModbusResponse.frame_data r = skipn 4 content
  /\ (List.length (UploadModbusResponse.frame_data r) <= 252)%nat.
Proof.
  unfold UploadModbusResponse.__init__.
  destruct content as [|b0 [|b1 [|b2 [|b3 rest]]]]; try discriminate.
  destruct (Z.of_nat (List.length rest) =? b2z b0 - 3) eqn:Hl; [|discriminate].
  intros H. inversion H. subst r. clear H.
  cbn [UploadModbusResponse.frame_no UploadModbusResponse.frame_data skipn List.length].
  pose proof (b2z_range b0). pose proof (b2z_range b2). pose proof (b2z_range b3).
  repeat split; try reflexivity; lia.
Qed.

Lemma b2z_inj (a b : byte) : b2z a = b2z b -> a = b.
Proof.
  intros H. rewrite <- (z2b_b2z a), <- (z2b_b2z b), H. reflexivity.
Qed.

Lemma CompleteUpload_accepts (content : bytes) (r : CompleteUploadModbusResponse.t) :
  CompleteUploadModbusResponse.__init__ content = Return r ->
  (4 <= List.length content)%nat
  /\ nth_error content 0 = Some Byte.x03
  /\ 0 <= CompleteUploadModbusResponse.file_crc r < 65536.
Proof.
  unfold CompleteUploadModbusResponse.__init__.
  destruct content as [|b0 [|b1 [|b2 [|b3 rest]]]]; try discriminate.
  destruct (b2z b0 =? 3) eqn:Hl; [|discriminate].
  intros H. inversion H. subst r. clear H.
  cbn [CompleteUploadModbusResponse.file_crc nth_error List.length].
  pose proof (b2z_range b2). pose proof (b2z_range b3).
  repeat split; try lia.
  f_equal. apply b2z_inj. apply Z.eqb_eq in Hl. exact Hl.
Qed.

(** X8. What the three response classes accept. A start response needs
    7 bytes and a customised part of [data_length - 6] bytes; its file
    length is below 2^32 and its frame length below 256. A data response
    needs 4 bytes and carries [data_length - 3] bytes of frame data, so
    at most 252. A completion response needs 4 bytes and a [data_length]
    of 3; its CRC is below 2^16. Shorter contents are a [struct.error]. *)
Theorem upload_responses_accept (content : bytes) :
  (forall r, StartUploadModbusResponse.__init__ content = Return r ->
     (7 <= List.length content)%nat
     /\ 0 <= StartUploadModbusResponse.file_length r < 4294967296
     /\ 0 <= StartUploadModbusResponse.data_frame_length r < 256
     /\ StartUploadModbusResponse.customised_data r = skipn 7 content
     /\ (List.length (StartUploadModbusResponse.customised_data r) <= 249)%nat)
  /\ (forall r, UploadModbusResponse.__init__ content = Return r ->
     (4 <= List.length content)%nat
     /\ 0 <= UploadModbusResponse.frame_no r < 65536
     /\ UploadModbusResponse.frame_data r = skipn 4 content
     /\ (List.length (UploadModbusResponse.frame_data r) <= 252)%nat)
  /\ (forall r, CompleteUploadModbusResponse.__init__ content = Return r ->
     (4 <= List.length content)%nat
     /\ nth_error content 0 = Some Byte.x03
     /\ 0 <= CompleteUploadModbusResponse.file_crc r < 65536)
  /\ ((List.length content < 7)%nat ->
      StartUploadModbusResponse.__init__ content = Raise StructError)
  /\ ((List.length content < 4)%nat ->
      UploadModbusResponse.__init__ content = Raise StructError
      /\ CompleteUploadModbusResponse.__init__ content = Raise StructError).
Proof.
  split; [exact (StartUpload_accepts content)|].
  split; [exact (Upload_accepts content)|].
  split; [exact (CompleteUpload_accepts content)|].
  split.
  - intros Hlen.
    destruct content as [|b0 [|b1 [|b2 [|b3 [|b4 [|b5 [|b6 rest]]]]]]];
      try reflexivity. cbn [List.length] in Hlen. lia.
  - intros Hlen.
    destruct content as [|b0 [|b1 [|b2 [|b3 rest]]]];
      try (split; reflexivity). cbn [List.length] in Hlen. lia.
Qed.

(** ** The PV registers of the bridge *)

Fixpoint nodupb (l : list string) : bool :=
  match l with
  | [] => true
  | x :: rest => negb (existsb (String.eqb x) rest) && nodupb rest
  end.

Lemma nodupb_NoDup (l : list string) : nodupb l = true -> NoDup l.
Proof.
  induction l as [|x l IH]; cbn [nodupb]; intros H; constructor.
  - apply andb_prop in H. destruct H as [H _]. intros Hin.
    assert (Hex : existsb (String.eqb x) l = true).
    { apply existsb_exists. exists x. split; [assumption|apply String.eqb_refl]. }
    rewrite Hex in H. discriminate.
  - apply andb_prop in H. destruct H as [_ H]. exact (IH H).
Qed.

(** The attributes of [rn] the loop looks up for [n] strings, in the
    order of the loop. *)
Definition pv_registers_of (n : Z) : list string :=
  flat_map pv_attributes (seq 1 (Z.to_nat n)).

Lemma pv_registers_checked (n : Z) :
  1 <= n <= 24 ->
  (Z.of_nat (List.length (pv_registers_of n)) =? 2 * n) && nodupb (pv_registers_of n) = true.
Proof.
  intros Hn.
  apply (holds_upto_spec
           (fun n => (Z.of_nat (List.length (pv_registers_of n)) =? 2 * n)
                     && nodupb (pv_registers_of n)) 24 1).
  - vm_compute. reflexivity.
  - lia.
Qed.

Lemma all_known_values (rn_getattr : string -> option string) (value : string -> string)
    (names : list string) :
  (forall name, In name names -> rn_getattr name = Some (value name)) ->
  all_known (map rn_getattr names) = Some (map value names).
Proof.
  induction names as [|name names IH]; intros H; [reflexivity|].
  cbn [map all_known]. rewrite (H name (or_introl eq_refl)).
  rewrite IH; [reflexivity|]. intros name' Hin. apply H. right. exact Hin.
Qed.

Lemma all_known_missing {A} (l : list (option A)) :
  In None l -> all_known l = None.
Proof.
  induction l as [|[a|] l IH]; intros H; cbn [all_known].
  - destruct H.
  - destruct H as [H|H]; [discriminate|]. rewrite (IH H). reflexivity.
  - reflexivity.
Qed.

Lemma extend_pv_registers_run (rn_getattr : string -> option string)
    (value : string -> string) (idxs : list nat) :
  forall acc : list string,
    (forall idx name, In idx idxs -> In name (pv_attributes idx) ->
       rn_getattr name = Some (value name)) ->
    extend_pv_registers rn_getattr idxs acc
    = (Return tt, acc ++ map value (flat_map pv_attributes idxs)).
Proof.
  induction idxs as [|idx idxs IH]; intros acc H.
  - cbn. rewrite app_nil_r. reflexivity.
  - cbn [extend_pv_registers flat_map].
    rewrite (all_known_values rn_getattr value (pv_attributes idx)).
    + rewrite IH.
      * rewrite map_app, app_assoc. reflexivity.
      * intros idx' name Hi Hn. apply (H idx' name); [right; exact Hi|exact Hn].
    + intros name Hn. apply (H idx name); [left; reflexivity|exact Hn].
Qed.

Lemma extend_pv_registers_missing (rn_getattr : string -> option string)
    (value : string -> string) (pre : list nat) (k : nat) (post : list nat) :
  forall acc : list string,
    (forall idx name, In idx pre -> In name (pv_attributes idx) ->
       rn_getattr name = Some (value name)) ->
    (exists name, In name (pv_attributes k) /\ rn_getattr name = None) ->
    extend_pv_registers rn_getattr (pre ++ k :: post) acc
    = (Raise AttributeError, acc ++ map value (flat_map pv_attributes pre)).
Proof.
  induction pre as [|idx pre IH]; intros acc H (name & Hin & Hnone).
  - cbn [app extend_pv_registers flat_map map]. rewrite all_known_missing.
    + rewrite app_nil_r. reflexivity.
    + rewrite <- Hnone. apply in_map. exact Hin.
  - cbn [app extend_pv_registers flat_map].
    rewrite (all_known_values rn_getattr value (pv_attributes idx)).
    + rewrite IH.
      * rewrite map_app, app_assoc. reflexivity.
      * intros idx' name' Hi Hn. apply (H idx' name'); [right; exact Hi|exact Hn].
      * exists name. split; assumption.
    + intros name' Hn. apply (H idx name'); [left; reflexivity|exact Hn].
Qed.

Lemma _compute_pv_registers_run (rn_getattr : string -> option string)
    (value : string -> string) (self : HuaweiSolarBridge.t) :
  1 <= HuaweiSolarBridge.pv_string_count self <= 24 ->
  (forall name, In name (pv_registers_of (HuaweiSolarBridge.pv_string_count self)) ->
     rn_getattr name = Some (value name)) ->
  _compute_pv_registers rn_getattr self
  = (Return tt,
     set__pv_registers self
       (map value (pv_registers_of (HuaweiSolarBridge.pv_string_count self)))).
Proof.
  intros Hn Hall. unfold _compute_pv_registers.
  replace ((1 <=? HuaweiSolarBridge.pv_string_count self)
           && (HuaweiSolarBridge.pv_string_count self <=? 24)) with true by lia.
  rewrite (extend_pv_registers_run rn_getattr value).
  - reflexivity.
  - intros idx name Hi Hname. apply Hall. unfold pv_registers_of.
    apply in_flat_map. exists idx. split; assumption.
Qed.

(** X9. [_compute_pv_registers] and the module [rn], whose constants are
    not among the sources: [value] gives the value of a constant that
    exists. For a string count [n] between 1 and 24 whose 2 n constants
    [PV_01_VOLTAGE], [PV_01_CURRENT], [PV_02_VOLTAGE], ... (2 n names,
    all different) exist, the method stores their values in this order
    and changes no other field of the bridge. When a constant of string
    [k] is missing, the [AttributeError] leaves the list with the values
    of the strings before [k]. Any other count fails the assertion and
    leaves the bridge as it was. *)
Theorem pv_registers_computed (rn_getattr : string -> option string)
    (value : string -> string) (self : HuaweiSolarBridge.t) :
  let n := HuaweiSolarBridge.pv_string_count self in
  let stored (names : list string) : HuaweiSolarBridge.t :=
    HuaweiSolarBridge.mk
      (HuaweiSolarBridge.client self) (HuaweiSolarBridge._primary self)
      (HuaweiSolarBridge.slave_id self) n
      (HuaweiSolarBridge.has_optimizers self)
      (HuaweiSolarBridge.battery_1_type self) (HuaweiSolarBridge.battery_2_type self)
      (HuaweiSolarBridge.power_meter_type self)
      (Some names)
      (HuaweiSolarBridge.__enable_heartbeat self)
      (HuaweiSolarBridge.__heartbeat_task self) in
  (1 <= n <= 24 ->
   (forall name, In name (pv_registers_of n) -> rn_getattr name = Some (value name)) ->
   _compute_pv_registers rn_getattr self
   = (Return tt, stored (map value (pv_registers_of n))))
  /\ (1 <= n <= 24 ->
      Z.of_nat (List.length (pv_registers_of n)) = 2 * n
      /\ NoDup (pv_registers_of n)
      /\ forall idx : nat, 1 <= Z.of_nat idx <= n ->
           In ("PV_" ++ two_digits (Z.of_nat idx) ++ "_VOLTAGE")%string (pv_registers_of n)
           /\ In ("PV_" ++ two_digits (Z.of_nat idx) ++ "_CURRENT")%string
                (pv_registers_of n))
  /\ (1 <= n <= 24 ->
      forall k : nat,
        1 <= Z.of_nat k <= n ->
        (forall name, In name (pv_registers_of (Z.of_nat k - 1)) ->
           rn_getattr name = Some (value name)) ->
        (exists name, In name (pv_attributes k) /\ rn_getattr name = None) ->
        _compute_pv_registers rn_getattr self
        = (Raise AttributeError, stored (map value (pv_registers_of (Z.of_nat k - 1)))))
  /\ (n < 1 \/ 24 < n ->
      _compute_pv_registers rn_getattr self = (Raise AssertionError, self)).
Proof.
  intros n stored. split; [|split; [|split]].
  - intros Hn Hall.
    exact (_compute_pv_registers_run rn_getattr value self Hn Hall).
  - intros Hn.
    pose proof (pv_registers_checked n Hn) as Hchk. apply andb_prop in Hchk.
    destruct Hchk as [Hlen Hnd]. apply Z.eqb_eq in Hlen.
    split; [assumption|]. split; [exact (nodupb_NoDup _ Hnd)|].
    intros idx Hidx. unfold pv_registers_of.
    split; apply in_flat_map; exists idx; (split; [apply in_seq; lia|]);
      unfold pv_attributes; [left|right; left]; reflexivity.
  - intros Hn k Hk Hbefore Hmissing. unfold _compute_pv_registers. fold n.
    replace ((1 <=? n) && (n <=? 24)) with true by lia.
    assert (Hsplit : seq 1 (Z.to_nat n)
                     = seq 1 (Z.to_nat (Z.of_nat k - 1))
                         ++ k :: seq (S k) (Z.to_nat n - k)).
    { replace (Z.to_nat n) with (Z.to_nat (Z.of_nat k - 1) + S (Z.to_nat n - k))%nat by lia.
      rewrite seq_app. cbn [seq].
      replace (1 + Z.to_nat (Z.of_nat k - 1))%nat with k by lia.
      replace (Z.to_nat (Z.of_nat k - 1) + S (Z.to_nat n - k) - k)%nat
        with (Z.to_nat n - k)%nat by lia.
      reflexivity. }
    rewrite Hsplit.
    rewrite (extend_pv_registers_missing rn_getattr value).
    + reflexivity.
    + intros idx name Hi Hname. apply Hbefore. unfold pv_registers_of.
      apply in_flat_map. exists idx. split; assumption.
    + exact Hmissing.
  - intros Hn. unfold _compute_pv_registers. fold n.
    replace ((1 <=? n) && (n <=? 24)) with false by lia. reflexivity.
Qed.

(** Two strings, in a module whose constants are the lower-case words
    ["pv_01_voltage"], ...: the values are stored, not the names. *)
Definition lower_case_rn (name : string) : string :=
  if String.eqb name "PV_01_VOLTAGE" then "pv_01_voltage"
  else if String.eqb name "PV_01_CURRENT" then "pv_01_current"
  else if String.eqb name "PV_02_VOLTAGE" then "pv_02_voltage"
  else if String.eqb name "PV_02_CURRENT" then "pv_02_current"
  else name.

Lemma pv_registers_computed_witness :
  _compute_pv_registers (fun name => Some (lower_case_rn name))
    (HuaweiSolarBridge.mk sample_session true 0 2 (VBool false)
       StorageProductModel_NONE StorageProductModel_NONE VNone None false None)
  = (Return tt,
     HuaweiSolarBridge.mk sample_session true 0 2 (VBool false)
       StorageProductModel_NONE StorageProductModel_NONE VNone
       (Some ["pv_01_voltage"; "pv_01_current"; "pv_02_voltage"; "pv_02_current"]%string)
       false None).
Proof.
  destruct (pv_registers_computed (fun name => Some (lower_case_rn name)) lower_case_rn
              (HuaweiSolarBridge.mk sample_session true 0 2 (VBool false)
                 StorageProductModel_NONE StorageProductModel_NONE VNone None false None))
    as (H & _).
  exact (H ltac:(cbn; lia) (fun name _ => eq_refl)).
Defined.

(** ** Session initialisation *)

Definition locked_read (self : AsyncHuaweiSolar.t) (register length : Z)
    (slave : option Z) : list Event :=
  [EvAcquire; read_call self register length slave;
   EvSleep (AsyncHuaweiSolar._cooldown_time self); EvRelease].

Lemma _read_registers_answered (self : AsyncHuaweiSolar.t) (register length : Z)
    (slave : option Z) (words : list Z) (rest : list Reply) (w : World) :
  connected w = true ->
  script w = Responds (ReadHoldingRegistersResponse words) :: rest ->
  _read_registers self register length slave w
  = (Return (ReadHoldingRegistersResponse words),
     mkWorld rest (trace w ++ locked_read self register length slave) (log w) true).
Proof.
  intros Hc Hs. destruct w as [s t l c]. cbn in Hc, Hs. subst s c.
  rewrite _read_registers_eq. cbn.
  unfold released, slept, locked_read, read_call. cbn [script trace log connected].
  rewrite <- !app_assoc. reflexivity.
Qed.

Lemma _read_registers_exception (self : AsyncHuaweiSolar.t) (register length : Z)
    (slave : option Z) (oc code : Z) (rest : list Reply) (w : World) :
  connected w = true ->
  script w = Responds (ExceptionResponse oc code) :: rest ->
  code <> ModbusExceptions.SlaveBusy ->
  _read_registers self register length slave w
  = (Raise (ReadException
       ("Got error while reading from register " ++ str_int register
          ++ " with length " ++ str_int length ++ ": "
          ++ str_response (ExceptionResponse oc code))%string),
     mkWorld rest (trace w ++ [EvAcquire; read_call self register length slave; EvRelease])
       (log w) true).
Proof.
  intros Hc Hs Hcode. destruct w as [s t l c]. cbn in Hc, Hs. subst s c.
  rewrite _read_registers_eq.
  change (attempt timeout_or_busy DEFAULT_WAIT ?g ?t0 4 1 ?w0)
    with (match t0 w0 with
          | (Raise e, w') =>
              if timeout_or_busy e
              then (sleep DEFAULT_WAIT ;;; attempt timeout_or_busy DEFAULT_WAIT g t0 3 (1 + 1)) w'
              else (Raise e, w')
          | r => r
          end).
  apply Z.eqb_neq in Hcode.
  unfold _do_read, bind, is_client_connected, try_except, transport, emit, acquired.
  cbn [connected negb snd script trace log]. rewrite Hcode. cbn.
  unfold released, read_call. cbn [script trace log connected].
  rewrite <- !app_assoc. reflexivity.
Qed.

(** [get] of one known register, answered by the client. *)
Lemma get_answered (REGISTERS : string -> option RegisterDefinition)
    (self : AsyncHuaweiSolar.t) (name : string) (slave : option Z)
    (reg : RegisterDefinition) (words : list Z) (v : Value) (d : BinaryPayloadDecoder)
    (rest : list Reply) (w : World) :
  REGISTERS name = Some reg ->
  connected w = true ->
  script w = Responds (ReadHoldingRegistersResponse words) :: rest ->
  Reg.decode reg (fromRegisters words) self = (Return v, d) ->
  get self REGISTERS name slave w
  = (Return (Result.mk v (exposed_unit reg)),
     mkWorld rest (trace w ++ locked_read self (Reg.register reg) (Reg.length reg) slave)
       (log w) true).
Proof.
  intros Hreg Hc Hs Hdec. unfold get, get_multiple. cbn [List.length Nat.eqb map].
  rewrite Hreg. cbn [all_known range1 Nat.sub seq check_registers last].
  replace (Reg.register reg + Reg.length reg - Reg.register reg) with (Reg.length reg) by lia.
  unfold bind, ret.
  rewrite (_read_registers_answered self (Reg.register reg) (Reg.length reg) slave
             words rest w Hc Hs).
  unfold _decode_response, exposed_unit. rewrite Hdec.
  destruct (Reg.unit reg); reflexivity.
Qed.

(** [get] of one known register, refused by the inverter. *)
Lemma get_refused (REGISTERS : string -> option RegisterDefinition)
    (self : AsyncHuaweiSolar.t) (name : string) (slave : option Z)
    (reg : RegisterDefinition) (oc code : Z) (rest : list Reply) (w : World) :
  REGISTERS name = Some reg ->
  connected w = true ->
  script w = Responds (ExceptionResponse oc code) :: rest ->
  code <> ModbusExceptions.SlaveBusy ->
  get self REGISTERS name slave w
  = (Raise (ReadException
       ("Got error while reading from register " ++ str_int (Reg.register reg)
          ++ " with length " ++ str_int (Reg.length reg) ++ ": "
          ++ str_response (ExceptionResponse oc code))%string),
     mkWorld rest
       (trace w ++ [EvAcquire; read_call self (Reg.register reg) (Reg.length reg) slave;
                    EvRelease])
       (log w) true).
Proof.
  intros Hreg Hc Hs Hcode. unfold get, get_multiple. cbn [List.length Nat.eqb map].
  rewrite Hreg. cbn [all_known range1 Nat.sub seq check_registers last].
  replace (Reg.register reg + Reg.length reg - Reg.register reg) with (Reg.length reg) by lia.
  unfold bind, ret.
  rewrite (_read_registers_exception self (Reg.register reg) (Reg.length reg) slave
             oc code rest w Hc Hs Hcode).
  reflexivity.
Qed.

(** X10. For a slave other than 0 there is no SmartLogger probe: when
    the inverter answers the time zone and the battery model,
    [_initialize] makes exactly these two locked reads, in this order,
    and stores the two decoded values. *)
Theorem initialize_plain_inverter (REGISTERS : string -> option RegisterDefinition)
    (self : AsyncHuaweiSolar.t) (tz bat : RegisterDefinition) (tz_words bat_words : list Z)
    (tz_value bat_value : Value) (d1 d2 : BinaryPayloadDecoder)
    (rest : list Reply) (w : World) :
  AsyncHuaweiSolar.slave self <> 0 ->
  AsyncHuaweiSolar.detected_smart_logger self = false ->
  REGISTERS rn.TIME_ZONE = Some tz ->
  REGISTERS rn.STORAGE_UNIT_1_PRODUCT_MODEL = Some bat ->
  connected w = true ->
  script w = Responds (ReadHoldingRegistersResponse tz_words)
               :: Responds (ReadHoldingRegistersResponse bat_words) :: rest ->
  Reg.decode tz (fromRegisters tz_words) self = (Return tz_value, d1) ->
  Reg.decode bat (fromRegisters bat_words) (set_time_zone self tz_value)
  = (Return bat_value, d2) ->
  _initialize REGISTERS self w
  = (Return tt,
     set_battery_type (set_time_zone self tz_value) bat_value,
     mkWorld rest
       (trace w ++ locked_read self (Reg.register tz) (Reg.length tz) None
          ++ locked_read self (Reg.register bat) (Reg.length bat) None)
       (log w) true).
Proof.
  intros Hslave Hdet Htz Hbat Hc Hs Hd1 Hd2.
  unfold _initialize, probe_smart_logger.
  apply Z.eqb_neq in Hslave. rewrite Hslave, Hdet.
  rewrite (get_answered REGISTERS self rn.TIME_ZONE None tz tz_words tz_value d1
             (Responds (ReadHoldingRegistersResponse bat_words) :: rest) w Htz Hc Hs Hd1).
  cbn [Result.value]. unfold probe_battery.
  erewrite (get_answered REGISTERS (set_time_zone self tz_value)
              rn.STORAGE_UNIT_1_PRODUCT_MODEL None bat bat_words bat_value d2 rest);
    [|exact Hbat|reflexivity|reflexivity|exact Hd2].
  cbn [Result.value trace log]. rewrite <- app_assoc. reflexivity.
Qed.

Lemma initialize_plain_inverter_witness :
  _initialize SAMPLE_REGISTERS (AsyncHuaweiSolar.__init__ 1 5000 50)
    (world_of [Responds (ReadHoldingRegistersResponse [60]);
               Responds (ReadHoldingRegistersResponse [2])])
  = (Return tt,
     AsyncHuaweiSolar.mk 1 5000 50 (VInt 60) (VInt 2) false None,
     mkWorld []
       [EvAcquire; EvReadHolding 43006 1 1 5000; EvSleep 50; EvRelease;
        EvAcquire; EvReadHolding 47000 1 1 5000; EvSleep 50; EvRelease] [] true).
Proof.
  exact (initialize_plain_inverter SAMPLE_REGISTERS (AsyncHuaweiSolar.__init__ 1 5000 50)
           (Reg.mk 43006 1 (UnitStatic (Some "min"%string)) true (decode_uint 1)
              encode_uint16)
           (sample_register 47000 1 "") [60] [2] (VInt 60) (VInt 2)
           (mkDecoder (flat_map pack_H [60]) 2) (mkDecoder (flat_map pack_H [2]) 2) []
           (world_of [Responds (ReadHoldingRegistersResponse [60]);
                      Responds (ReadHoldingRegistersResponse [2])])
           ltac:(discriminate) eq_refl eq_refl eq_refl eq_refl eq_refl eq_refl eq_refl).
Defined.

(** X11. For slave 0, when the SmartLogger register answers with a
    power that is not negative, the device is marked as a SmartLogger:
    the time zone is then read from the SmartLogger register and the
    battery is not probed at all ([battery_type] keeps its value). *)
Theorem initialize_smart_logger (REGISTERS : string -> option RegisterDefinition)
    (self : AsyncHuaweiSolar.t) (power_reg tz : RegisterDefinition)
    (power_words tz_words : list Z) (power : Z) (tz_value : Value)
    (d1 d2 : BinaryPayloadDecoder) (rest : list Reply) (w : World) :
  AsyncHuaweiSolar.slave self = 0 ->
  REGISTERS rn.SMARTLOGGER_FIRST_SLAVE_POWER = Some power_reg ->
  REGISTERS rn.SMARTLOGGER_TIME_ZONE = Some tz ->
  connected w = true ->
  script w = Responds (ReadHoldingRegistersResponse power_words)
               :: Responds (ReadHoldingRegistersResponse tz_words) :: rest ->
  Reg.decode power_reg (fromRegisters power_words) self = (Return (VInt power), d1) ->
  0 <= power ->
  let detected := set_detected_smart_logger (set_inv_1_power self (VInt power)) true in
  Reg.decode tz (fromRegisters tz_words) detected = (Return tz_value, d2) ->
  _initialize REGISTERS self w
  = (Return tt,
     set_time_zone detected tz_value,
     mkWorld rest
       (trace w ++ locked_read self (Reg.register power_reg) (Reg.length power_reg) None
          ++ locked_read self (Reg.register tz) (Reg.length tz) None)
       (log w ++ [(INFO, "Smartlogger detected"%string)]) true)
  /\ AsyncHuaweiSolar.battery_type (set_time_zone detected tz_value)
     = AsyncHuaweiSolar.battery_type self
  /\ AsyncHuaweiSolar.detected_smart_logger (set_time_zone detected tz_value) = true.
Proof.
  intros Hslave Hp Htz Hc Hs Hd1 Hpow detected Hd2.
  split; [|split; reflexivity].
  unfold _initialize, probe_smart_logger. rewrite Hslave. cbn [Z.eqb].
  rewrite (get_answered REGISTERS self rn.SMARTLOGGER_FIRST_SLAVE_POWER None power_reg
             power_words (VInt power) d1
             (Responds (ReadHoldingRegistersResponse tz_words) :: rest) w Hp Hc Hs Hd1).
  cbn [Result.value ge_zero]. replace (power >=? 0) with true by lia.
  fold detected. cbn [AsyncHuaweiSolar.detected_smart_logger detected
                        set_detected_smart_logger].
  unfold LOGGER. cbn [snd script trace log connected].
  erewrite (get_answered REGISTERS detected rn.SMARTLOGGER_TIME_ZONE None tz tz_words
              tz_value d2 rest); [|exact Htz|reflexivity|reflexivity|exact Hd2].
  cbn [Result.value trace log]. rewrite <- app_assoc. reflexivity.
Qed.

(** X12. For slave 0, when the inverter refuses the SmartLogger register
    with an exception response (other than SlaveBusy), the
    [ReadException] is swallowed: the device is not marked as a
    SmartLogger and the initialisation goes on with the ordinary time
    zone and the battery probe. *)
Theorem initialize_without_smart_logger (REGISTERS : string -> option RegisterDefinition)
    (self : AsyncHuaweiSolar.t) (power_reg tz bat : RegisterDefinition)
    (oc code : Z) (tz_words bat_words : list Z) (tz_value bat_value : Value)
    (d1 d2 : BinaryPayloadDecoder) (rest : list Reply) (w : World) :
  AsyncHuaweiSolar.slave self = 0 ->
  AsyncHuaweiSolar.detected_smart_logger self = false ->
  REGISTERS rn.SMARTLOGGER_FIRST_SLAVE_POWER = Some power_reg ->
  REGISTERS rn.TIME_ZONE = Some tz ->
  REGISTERS rn.STORAGE_UNIT_1_PRODUCT_MODEL = Some bat ->
  connected w = true ->
  code <> ModbusExceptions.SlaveBusy ->
  script w = Responds (ExceptionResponse oc code)
               :: Responds (ReadHoldingRegistersResponse tz_words)
               :: Responds (ReadHoldingRegistersResponse bat_words) :: rest ->
  Reg.decode tz (fromRegisters tz_words) self = (Return tz_value, d1) ->
  Reg.decode bat (fromRegisters bat_words) (set_time_zone self tz_value)
  = (Return bat_value, d2) ->
  _initialize REGISTERS self w
  = (Return tt,
     set_battery_type (set_time_zone self tz_value) bat_value,
     mkWorld rest
       (trace w
          ++ [EvAcquire;
              read_call self (Reg.register power_reg) (Reg.length power_reg) None;
              EvRelease]
          ++ locked_read self (Reg.register tz) (Reg.length tz) None
          ++ locked_read self (Reg.register bat) (Reg.length bat) None)
       (log w) true).
Proof.
  intros Hslave Hdet Hp Htz Hbat Hc Hcode Hs Hd1 Hd2.
  unfold _initialize, probe_smart_logger. rewrite Hslave. cbn [Z.eqb].
  erewrite (get_refused REGISTERS self rn.SMARTLOGGER_FIRST_SLAVE_POWER None power_reg
              oc code); [|exact Hp|exact Hc|exact Hs|exact Hcode].
  rewrite Hdet.
  erewrite (get_answered REGISTERS self rn.TIME_ZONE None tz tz_words tz_value d1
              (Responds (ReadHoldingRegistersResponse bat_words) :: rest));
    [|exact Htz|reflexivity|reflexivity|exact Hd1].
  cbn [Result.value]. unfold probe_battery.
  erewrite (get_answered REGISTERS (set_time_zone self tz_value)
              rn.STORAGE_UNIT_1_PRODUCT_MODEL None bat bat_words bat_value d2 rest);
    [|exact Hbat|reflexivity|reflexivity|exact Hd2].
  cbn [Result.value trace log]. rewrite <- !app_assoc. reflexivity.
Qed.

(** The sample catalogue with two SmartLogger registers added, at
    addresses chosen for the example. *)
Definition SMARTLOGGER_SAMPLE (name : string) : option RegisterDefinition :=
  if String.eqb name rn.SMARTLOGGER_FIRST_SLAVE_POWER then Some (sample_register 51000 2 "W")
  else if String.eqb name rn.SMARTLOGGER_TIME_ZONE then Some (sample_register 50000 1 "min")
  else SAMPLE_REGISTERS name.

Lemma initialize_smart_logger_witness :
  _initialize SMARTLOGGER_SAMPLE sample_session
    (world_of [Responds (ReadHoldingRegistersResponse [0; 1200]);
               Responds (ReadHoldingRegistersResponse [60])])
  = (Return tt,
     AsyncHuaweiSolar.mk 0 5000 50 (VInt 60) VNone true (Some (VInt 1200)),
     mkWorld []
       [EvAcquire; EvReadHolding 51000 2 0 5000; EvSleep 50; EvRelease;
        EvAcquire; EvReadHolding 50000 1 0 5000; EvSleep 50; EvRelease]
       [(INFO, "Smartlogger detected"%string)] true).
Proof.
  exact (proj1 (initialize_smart_logger SMARTLOGGER_SAMPLE sample_session
           (sample_register 51000 2 "W") (sample_register 50000 1 "min")
           [0; 1200] [60] 1200 (VInt 60)
           (mkDecoder (flat_map pack_H [0; 1200]) 4) (mkDecoder (flat_map pack_H [60]) 2) []
           (world_of [Responds (ReadHoldingRegistersResponse [0; 1200]);
                      Responds (ReadHoldingRegistersResponse [60])])
           eq_refl eq_refl eq_refl eq_refl eq_refl eq_refl ltac:(discriminate) eq_refl)).
Defined.

Lemma initialize_without_smart_logger_witness :
  _initialize SMARTLOGGER_SAMPLE sample_session
    (world_of [Responds (ExceptionResponse 3 ModbusExceptions.IllegalAddress);
               Responds (ReadHoldingRegistersResponse [60]);
               Responds (ReadHoldingRegistersResponse [2])])
  = (Return tt,
     AsyncHuaweiSolar.mk 0 5000 50 (VInt 60) (VInt 2) false None,
     mkWorld []
       [EvAcquire; EvReadHolding 51000 2 0 5000; EvRelease;
        EvAcquire; EvReadHolding 43006 1 0 5000; EvSleep 50; EvRelease;
        EvAcquire; EvReadHolding 47000 1 0 5000; EvSleep 50; EvRelease] [] true).
Proof.
  exact (initialize_without_smart_logger SMARTLOGGER_SAMPLE sample_session
           (sample_register 51000 2 "W")
           (Reg.mk 43006 1 (UnitStatic (Some "min"%string)) true (decode_uint 1)
              encode_uint16)
           (sample_register 47000 1 "") 3 ModbusExceptions.IllegalAddress
           [60] [2] (VInt 60) (VInt 2)
           (mkDecoder (flat_map pack_H [60]) 2) (mkDecoder (flat_map pack_H [2]) 2) []
           (world_of [Responds (ExceptionResponse 3 ModbusExceptions.IllegalAddress);
                      Responds (ReadHoldingRegistersResponse [60]);
                      Responds (ReadHoldingRegistersResponse [2])])
           eq_refl eq_refl eq_refl eq_refl eq_refl eq_refl ltac:(discriminate)
           eq_refl eq_refl eq_refl).
Defined.

(** ** The whole file upload *)

Definition start_request (self : AsyncHuaweiSolar.t) (file_type : Z)
    (customized_data : option bytes) (slave : option Z) : Request :=
  StartUploadModbusRequest file_type
    (match customized_data with Some d => d | None => [] end) (unit_id self slave).

Definition crc_message (file_type : Z) (file_data : bytes) (swapped_crc : Z) : string :=
  ("Computed CRC " ++ hex (computeCRC file_data) ++ " for file " ++ hex file_type
     ++ " does not match expected value " ++ hex swapped_crc)%string.

Lemma complete_upload_run (self : AsyncHuaweiSolar.t) (file_type : Z) (slave : option Z)
    (file_data : bytes) (reply : Reply) (complete : CompleteUploadModbusResponse.t)
    (rest : list Reply) (w : World) :
  0 <= file_type <= 255 ->
  script w = reply :: rest ->
  answers CompleteUploadModbusResponse.__init__ reply complete ->
  let swapped_crc := swap16 (CompleteUploadModbusResponse.file_crc complete) in
  complete_upload self file_type slave file_data w
  = (if computeCRC file_data =? swapped_crc then Return file_data
     else Raise (ReadException (crc_message file_type file_data swapped_crc)),
     executed (CompleteUploadModbusRequest file_type (unit_id self slave)) rest w).
Proof.
  intros Htype Hs Hans swapped_crc. unfold complete_upload, bind.
  rewrite (_perform_request_answered file_type _ CompleteUploadModbusResponse.__init__
             reply complete rest w
             (encodes_complete file_type (unit_id self slave) Htype) Hs Hans).
  fold (swap16 (CompleteUploadModbusResponse.file_crc complete)). fold swapped_crc.
  unfold checkCRC. destruct (computeCRC file_data =? swapped_crc); reflexivity.
Qed.

Lemma _do_read_file_run (self : AsyncHuaweiSolar.t) (file_type : Z)
    (customized_data : option bytes) (slave : option Z)
    (start_reply : Reply) (start : StartUploadModbusResponse.t)
    (replies : list Reply) (frames : list UploadModbusResponse.t)
    (rest : list Reply) (w : World) (fuel : nat) :
  0 <= file_type <= 255 ->
  Z.of_nat (List.length (match customized_data with Some d => d | None => [] end : bytes))
  <= 254 ->
  0 < StartUploadModbusResponse.data_frame_length start ->
  answers StartUploadModbusResponse.__init__ start_reply start ->
  Forall2 (answers UploadModbusResponse.__init__) replies frames ->
  Z.of_nat (List.length replies)
  = ceil_div (StartUploadModbusResponse.file_length start)
      (StartUploadModbusResponse.data_frame_length start) ->
  Z.of_nat (List.length replies) <= 65536 ->
  script w = start_reply :: replies ++ rest ->
  (List.length replies <= fuel)%nat ->
  _do_read_file self file_type customized_data slave fuel w
  = complete_upload self file_type slave
      (List.concat (map UploadModbusResponse.frame_data frames))
      (mkWorld rest
         (trace w ++ EvExecute (start_request self file_type customized_data slave)
            :: frame_requests file_type (unit_id self slave) 0 (List.length replies))
         (log w) (connected w)).
Proof.
  intros Htype Hcd Hpos Hstart HF Hn Hmax Hs Hfuel.
  set (dfl := StartUploadModbusResponse.data_frame_length start) in *.
  set (fl := StartUploadModbusResponse.file_length start) in *.
  assert (Hfl : 0 <= fl).
  { destruct Hstart as (sub & content & _ & Hparse).
    exact (StartUpload_file_length_nonneg content start Hparse). }
  unfold ceil_div in Hn.
  assert (Hdiv : dfl * ((fl + dfl - 1) / dfl) <= fl + dfl - 1 < dfl * ((fl + dfl - 1) / dfl + 1)).
  { pose proof (Z.mul_div_le (fl + dfl - 1) dfl Hpos).
    pose proof (Z.mul_succ_div_gt (fl + dfl - 1) dfl Hpos). lia. }
  unfold _do_read_file. unfold bind at 1.
  rewrite (_perform_request_answered file_type _ StartUploadModbusResponse.__init__
             start_reply start (replies ++ rest) w
             (encodes_start file_type _ (unit_id self slave) Htype Hcd) Hs Hstart).
  fold dfl fl. unfold bind at 1.
  rewrite (read_frames_run self file_type slave dfl fl replies frames Htype Hpos HF 0 []
             rest _ fuel); try lia; try reflexivity.
  cbn [executed trace log connected app]. unfold start_request.
  rewrite <- app_assoc. reflexivity.
Qed.

(** X13. A whole upload on a client that answers every request, for
    requests that can be encoded (a file type of one byte, customised
    data of at most 254 bytes, at most 65536 frames, so that the frame
    numbers fit 16 bits): the lock is taken once; the start request, the
    data requests for the frames 0 .. n-1 and the completion request are
    sent in this order and nothing else; when the CRC matches, the
    assembled data is returned after the cooldown; when it does not, the
    [ReadException] is raised and the lock is released without a
    cooldown. *)
Theorem get_file_uploads (self : AsyncHuaweiSolar.t) (file_type : Z)
    (customized_data : option bytes) (slave : option Z)
    (start_reply complete_reply : Reply) (start : StartUploadModbusResponse.t)
    (complete : CompleteUploadModbusResponse.t)
    (replies : list Reply) (frames : list UploadModbusResponse.t)
    (rest : list Reply) (w : World) (fuel : nat) :
  0 <= file_type <= 255 ->
  Z.of_nat (List.length (match customized_data with Some d => d | None => [] end : bytes))
  <= 254 ->
  0 < StartUploadModbusResponse.data_frame_length start ->
  answers StartUploadModbusResponse.__init__ start_reply start ->
  Forall2 (answers UploadModbusResponse.__init__) replies frames ->
  Z.of_nat (List.length replies)
  = ceil_div (StartUploadModbusResponse.file_length start)
      (StartUploadModbusResponse.data_frame_length start) ->
  Z.of_nat (List.length replies) <= 65536 ->
  answers CompleteUploadModbusResponse.__init__ complete_reply complete ->
  script w = start_reply :: replies ++ complete_reply :: rest ->
  (List.length replies <= fuel)%nat ->
  let file_data := List.concat (map UploadModbusResponse.frame_data frames) in
  let swapped_crc := swap16 (CompleteUploadModbusResponse.file_crc complete) in
  let requests :=
    EvExecute (start_request self file_type customized_data slave)
      :: frame_requests file_type (unit_id self slave) 0 (List.length replies)
      ++ [EvExecute (CompleteUploadModbusRequest file_type (unit_id self slave))] in
  get_file self file_type customized_data slave fuel w
  = if computeCRC file_data =? swapped_crc then
      (Return file_data,
       mkWorld rest
         (trace w ++ EvAcquire :: requests
            ++ [EvSleep (AsyncHuaweiSolar._cooldown_time self); EvRelease])
         (log w) (connected w))
    else
      (Raise (ReadException (crc_message file_type file_data swapped_crc)),
       mkWorld rest (trace w ++ EvAcquire :: requests ++ [EvRelease])
         (log w) (connected w)).
Proof.
  intros Htype Hcd Hpos Hstart HF Hn Hmax Hcomplete Hs Hfuel file_data swapped_crc requests.
  unfold get_file. rewrite with_lock_eq.
  assert (Hs' : script (acquired w) = start_reply :: replies ++ complete_reply :: rest)
    by exact Hs.
  set (after := executed (CompleteUploadModbusRequest file_type (unit_id self slave)) rest
         (mkWorld (complete_reply :: rest)
            (trace (acquired w)
               ++ EvExecute (start_request self file_type customized_data slave)
               :: frame_requests file_type (unit_id self slave) 0 (List.length replies))
            (log (acquired w)) (connected (acquired w)))).
  assert (Hbody :
    (result <- _do_read_file self file_type customized_data slave fuel ;;
     sleep (AsyncHuaweiSolar._cooldown_time self) ;;; ret result) (acquired w)
    = if computeCRC file_data =? swapped_crc
      then (Return file_data, slept (AsyncHuaweiSolar._cooldown_time self) after)
      else (Raise (ReadException (crc_message file_type file_data swapped_crc)), after)).
  { unfold bind at 1.
    rewrite (_do_read_file_run self file_type customized_data slave start_reply start
               replies frames (complete_reply :: rest) (acquired w) fuel
               Htype Hcd Hpos Hstart HF Hn Hmax Hs' Hfuel).
    erewrite (complete_upload_run self file_type slave _ complete_reply complete rest);
      [|exact Htype|reflexivity|exact Hcomplete].
    fold file_data swapped_crc. fold after.
    destruct (computeCRC file_data =? swapped_crc); reflexivity. }
  rewrite Hbody.
  destruct (computeCRC file_data =? swapped_crc);
    cbn [fst snd]; subst after requests;
    unfold released, slept, executed, acquired; cbn [script trace log connected];
    rewrite <- ?app_assoc; cbn [app]; rewrite <- ?app_assoc; reflexivity.
Qed.

Definition digits_frame_reply (frame_no : byte) (data : string) : Reply :=
  Responds (PrivateHuaweiModbusResponse 6
    (z2b (Z.of_nat (String.length data) + 3) :: Byte.x45 :: Byte.x00 :: frame_no
       :: list_byte_of_string data)).

(** The nine digits in frames of four bytes, with their CRC 0x4B37. *)
Lemma get_file_uploads_witness :
  get_file sample_session 0x45 None None 3
    (world_of [Responds (PrivateHuaweiModbusResponse 5
                 [Byte.x06; Byte.x45; Byte.x00; Byte.x00; Byte.x00; Byte.x09; Byte.x04]);
               digits_frame_reply Byte.x00 "1234"; digits_frame_reply Byte.x01 "5678";
               digits_frame_reply Byte.x02 "9";
               Responds (PrivateHuaweiModbusResponse 12
                 [Byte.x03; Byte.x45; Byte.x4b; Byte.x37])])
  = (Return (list_byte_of_string "123456789"),
     mkWorld []
       [EvAcquire;
        EvExecute (StartUploadModbusRequest 0x45 [] 0);
        EvExecute (UploadModbusRequest 0x45 0 0);
        EvExecute (UploadModbusRequest 0x45 1 0);
        EvExecute (UploadModbusRequest 0x45 2 0);
        EvExecute (CompleteUploadModbusRequest 0x45 0);
        EvSleep 50; EvRelease] [] true).
Proof.
  assert (Hstart : answers StartUploadModbusResponse.__init__
            (Responds (PrivateHuaweiModbusResponse 5
               [Byte.x06; Byte.x45; Byte.x00; Byte.x00; Byte.x00; Byte.x09; Byte.x04]))
            (StartUploadModbusResponse.mk 0x45 9 4 [])).
  { eexists; eexists; split; reflexivity. }
  assert (HF : Forall2 (answers UploadModbusResponse.__init__)
            [digits_frame_reply Byte.x00 "1234"; digits_frame_reply Byte.x01 "5678";
             digits_frame_reply Byte.x02 "9"]
            [UploadModbusResponse.mk 0x45 0 (list_byte_of_string "1234");
             UploadModbusResponse.mk 0x45 1 (list_byte_of_string "5678");
             UploadModbusResponse.mk 0x45 2 (list_byte_of_string "9")]).
  { repeat constructor; eexists; eexists; (split; [reflexivity|vm_compute; reflexivity]). }
  assert (Hcomplete : answers CompleteUploadModbusResponse.__init__
            (Responds (PrivateHuaweiModbusResponse 12
               [Byte.x03; Byte.x45; Byte.x4b; Byte.x37]))
            (CompleteUploadModbusResponse.mk 0x45 0x4b37)).
  { eexists; eexists; split; reflexivity. }
  exact (get_file_uploads sample_session 0x45 None None _ _
           (StartUploadModbusResponse.mk 0x45 9 4 [])
           (CompleteUploadModbusResponse.mk 0x45 0x4b37) _ _ []
           (world_of _) 3 ltac:(lia) ltac:(cbn; lia) eq_refl Hstart HF eq_refl
           ltac:(cbn; lia) Hcomplete eq_refl (le_n 3)).
Defined.

(** ** The retry loop around an upload request *)

(** What one try of [_perform_request] makes of the reply. *)
Definition upload_attempt_outcome {R} (file_type : Z) (response_type : bytes -> Outcome R)
    (reply : Reply) : Outcome R :=
  match reply with
  | TimesOut => Raise TimeoutError
  | ConnectionLost string => Raise (ModbusConnectionException string)
  | Responds (ExceptionResponse _ code) =>
      if code =? 128 then Raise (PermissionDenied "Permission denied")
      else if code =? 6 then Raise SlaveBusyException
      else Raise (ReadException
             ("Exception occured while trying to read file " ++ hex file_type
                ++ ": " ++ hex code)%string)
  | Responds (PrivateHuaweiModbusResponse _ content) => response_type content
  | Responds _ => Raise AttributeError
  end.

(** The outcome ends the loop: it is not one of the retried errors. *)
Definition final {R} (o : Outcome R) : Prop :=
  match o with
  | Raise e => timeout_or_busy e = false
  | _ => True
  end.

Section UploadRetry.
Context {R : Type}.
Variable file_type : Z.
Variable request : Request.
Variable response_type : bytes -> Outcome R.
Hypothesis request_encodes : encodes request.

Let target : M R :=
  (response <- execute request ;;
   match response with
   | ExceptionResponse _ exception_code =>
       if exception_code =? 128 then raise (PermissionDenied "Permission denied")
       else if exception_code =? 6 then raise SlaveBusyException
       else raise (ReadException
                     ("Exception occured while trying to read file " ++ hex file_type
                        ++ ": " ++ hex exception_code)%string)
   | PrivateHuaweiModbusResponse _ content => lift (response_type content)
   | _ => raise AttributeError
   end).

Let giveup (tries : Z) : M unit :=
  raise (ReadException ("Failed to read file " ++ str_int file_type
                          ++ " after " ++ str_int tries ++ " tries")%string).

Let loop : nat -> Z -> M R :=
  attempt timeout_or_busy FILE_UPLOAD_RETRY_TIMEOUT giveup target.

Lemma upload_target_eq (reply : Reply) (rest : list Reply) (w : World) :
  script w = reply :: rest ->
  target w = (upload_attempt_outcome file_type response_type reply, executed request rest w).
Proof.
  intros Hs. unfold target, bind. rewrite (execute_encoded request w request_encodes).
  unfold transport, emit. cbn [snd script trace log connected].
  rewrite Hs.
  destruct reply as [[regs|a c|a v|sub content|oc code]| |]; cbn; try reflexivity.
  destruct (code =? 128); [reflexivity|].
  destruct (code =? 6); reflexivity.
Qed.

Lemma upload_transient (reply : Reply) :
  transient reply = true ->
  exists e, upload_attempt_outcome file_type response_type reply = Raise e
            /\ timeout_or_busy e = true.
Proof.
  destruct reply as [[]| |]; cbn; try discriminate.
  - intros Hc. apply Z.eqb_eq in Hc. subst. eexists; split; reflexivity.
  - intros _. eexists; split; reflexivity.
Qed.

Lemma upload_loop_eq (n : nat) (tries : Z) (w : World) :
  loop n tries w =
  match target w with
  | (Raise e, w') =>
      if timeout_or_busy e then
        match n with
        | O => (giveup tries ;;; raise e) w'
        | S n' => (sleep FILE_UPLOAD_RETRY_TIMEOUT ;;; loop n' (tries + 1)) w'
        end
      else (Raise e, w')
  | r => r
  end.
Proof. destruct n; reflexivity. Qed.

Lemma upload_loop_absorbs (pre : list Reply) :
  forall (n : nat) (tries : Z) (w : World) (reply : Reply) (rest : list Reply),
    script w = pre ++ reply :: rest ->
    forallb transient pre = true ->
    final (upload_attempt_outcome file_type response_type reply) ->
    (List.length pre <= n)%nat ->
    loop n tries w
    = (upload_attempt_outcome file_type response_type reply,
       mkWorld rest
         (trace w ++ EvExecute request
            :: retries FILE_UPLOAD_RETRY_TIMEOUT (EvExecute request) (List.length pre))
         (log w) (connected w)).
Proof.
  induction pre as [|a pre IH]; intros n tries w reply rest Hs Hpre Hfin Hn;
    rewrite upload_loop_eq.
  - rewrite (upload_target_eq reply rest w Hs).
    destruct (upload_attempt_outcome file_type response_type reply) as [r|e|];
      try reflexivity.
    cbn in Hfin. rewrite Hfin. reflexivity.
  - cbn [forallb] in Hpre. apply andb_prop in Hpre. destruct Hpre as [Ha Hpre].
    rewrite (upload_target_eq a (pre ++ reply :: rest) w Hs).
    destruct (upload_transient a Ha) as (e & He & Hre). rewrite He, Hre.
    destruct n as [|n]; [cbn in Hn; lia|].
    rewrite sleep_then.
    rewrite (IH n (tries + 1) _ reply rest); try assumption; try reflexivity.
    + cbn [executed trace log connected List.length retries].
      rewrite <- !app_assoc. reflexivity.
    + cbn in Hn. lia.
Qed.

Lemma upload_loop_exhausts (n : nat) :
  forall (pre : list Reply) (tries : Z) (w : World) (rest : list Reply),
    script w = pre ++ rest ->
    forallb transient pre = true ->
    List.length pre = S n ->
    loop n tries w
    = (Raise (ReadException ("Failed to read file " ++ str_int file_type ++ " after "
                               ++ str_int (tries + Z.of_nat n) ++ " tries")%string),
       mkWorld rest
         (trace w ++ EvExecute request
            :: retries FILE_UPLOAD_RETRY_TIMEOUT (EvExecute request) n)
         (log w) (connected w)).
Proof.
  induction n as [|n IH]; intros pre tries w rest Hs Hpre Hlen;
    rewrite upload_loop_eq;
    destruct pre as [|a pre]; try discriminate;
    cbn [forallb] in Hpre; apply andb_prop in Hpre; destruct Hpre as [Ha Hpre];
    rewrite (upload_target_eq a (pre ++ rest) w Hs);
    destruct (upload_transient a Ha) as (e & He & Hre); rewrite He, Hre.
  - destruct pre; [|discriminate]. unfold bind, giveup, raise.
    rewrite Z.add_0_r. reflexivity.
  - rewrite sleep_then.
    rewrite (IH pre (tries + 1) _ rest); try assumption; try reflexivity.
    + cbn [executed trace log connected retries].
      replace (tries + 1 + Z.of_nat n) with (tries + Z.of_nat (S n)) by lia.
      rewrite <- !app_assoc. reflexivity.
    + cbn in Hlen. lia.
Qed.
End UploadRetry.

(** X14. The retry policy of an upload request. A request that can be
    encoded is sent; a timeout and a SlaveBusy exception response (code
    6) are tried again after a constant wait of 10 s (10000 ms), up to 6
    tries in all. After fewer than 6 transient replies, an answer ends
    the request with its parsed response, the exception code 0x80 with
    [PermissionDenied] and any other exception code with a
    [ReadException], each without a further try. Six transient replies
    in a row end it with the [ReadException] that names the 6 tries. A
    request that cannot be encoded ends with the [struct.error]: it is
    not sent and not tried again. *)
Theorem upload_request_retry_policy {R : Type} (file_type : Z) (request : Request)
    (response_type : bytes -> Outcome R) (pre rest : list Reply) (w : World) :
  script w = pre ++ rest ->
  forallb transient pre = true ->
  let tried (n : nat) (left : list Reply) : World :=
    mkWorld left (trace w ++ EvExecute request :: retries 10000 (EvExecute request) n)
      (log w) (connected w) in
  ((exists packet, encode request = Return packet) ->
   (List.length pre = 6%nat ->
    _perform_request file_type request response_type w
    = (Raise (ReadException
         ("Failed to read file " ++ str_int file_type ++ " after 6 tries")%string),
       tried 5%nat rest))
   /\ ((List.length pre < 6)%nat ->
       forall (reply : Reply) (rest' : list Reply),
         rest = reply :: rest' ->
         (forall r, answers response_type reply r ->
            _perform_request file_type request response_type w
            = (Return r, tried (List.length pre) rest'))
         /\ (forall oc, reply = Responds (ExceptionResponse oc 128) ->
            _perform_request file_type request response_type w
            = (Raise (PermissionDenied "Permission denied"), tried (List.length pre) rest'))
         /\ (forall oc code, reply = Responds (ExceptionResponse oc code) ->
            code <> 128 -> code <> 6 ->
            _perform_request file_type request response_type w
            = (Raise (ReadException
                 ("Exception occured while trying to read file " ++ hex file_type
                    ++ ": " ++ hex code)%string),
               tried (List.length pre) rest'))))
  /\ (encode request = Raise StructError ->
      _perform_request file_type request response_type w = (Raise StructError, w)).
Proof.
  intros Hs Hpre tried. split; [intros Henc; split|].
  - intros Hlen.
    exact (upload_loop_exhausts file_type request response_type Henc 5 pre 1 w rest
             Hs Hpre Hlen).
  - intros Hlen reply rest' ->.
    assert (Hrun : final (upload_attempt_outcome file_type response_type reply) ->
              _perform_request file_type request response_type w
              = (upload_attempt_outcome file_type response_type reply,
                 tried (List.length pre) rest')).
    { intros Hfin.
      apply (upload_loop_absorbs file_type request response_type Henc pre 5 1 w reply rest'
               Hs Hpre Hfin). lia. }
    repeat split.
    + intros r (sub & content & -> & Hr). rewrite Hrun; cbn; rewrite Hr; reflexivity.
    + intros oc ->. rewrite Hrun; reflexivity.
    + intros oc code -> H128 H6. apply Z.eqb_neq in H128, H6.
      rewrite Hrun; cbn; rewrite H128, H6; reflexivity.
  - intros Henc. exact (_perform_request_refused file_type request response_type w Henc).
Qed.

Lemma upload_request_retry_policy_witness :
  _perform_request 0x45 (CompleteUploadModbusRequest 0x45 0)
    CompleteUploadModbusResponse.__init__
    (world_of [TimesOut; Responds (ExceptionResponse 65 6);
               Responds (ExceptionResponse 65 128)])
  = (Raise (PermissionDenied "Permission denied"),
     mkWorld []
       [EvExecute (CompleteUploadModbusRequest 0x45 0); EvSleep 10000;
        EvExecute (CompleteUploadModbusRequest 0x45 0); EvSleep 10000;
        EvExecute (CompleteUploadModbusRequest 0x45 0)] [] true).
Proof.
  destruct (upload_request_retry_policy 0x45 (CompleteUploadModbusRequest 0x45 0)
              CompleteUploadModbusResponse.__init__
              [TimesOut; Responds (ExceptionResponse 65 6)]
              [Responds (ExceptionResponse 65 128)]
              (world_of [TimesOut; Responds (ExceptionResponse 65 6);
                         Responds (ExceptionResponse 65 128)])
              eq_refl eq_refl) as [H _].
  destruct (H (ex_intro _ _ eq_refl)) as [_ H'].
  destruct (H' ltac:(cbn; lia) (Responds (ExceptionResponse 65 128)) [] eq_refl)
    as (_ & Hdenied & _).
  exact (Hdenied 65 eq_refl).
Defined.

(** * The rest of the session and of the bridge *)

(** ** Heartbeat *)

(** [isinstance(err, HuaweiSolarException)] *)
Definition is_HuaweiSolarException (e : Exn) : bool :=
  match e with
  | HuaweiSolarException _ | ConnectionException _ | ReadException _
  | WriteException _ | PermissionDenied _ | SlaveBusyException | InvalidCredentials => true
  | _ => false
  end.

(** The keyword under which a call names the slave. The request classes
    of the pymodbus the module imports ([pymodbus.client.asynchronous],
    version 2) take the unit of a request from the keyword [unit]
    ([kwargs.get('unit', Defaults.UnitId)] in [ModbusPDU.__init__]) and
    read no keyword [slave]: a request built with [slave=...] keeps
    [Defaults.UnitId]. *)
Definition Defaults_UnitId : Z := 0.

Inductive Keyword : Type :=
| kw_unit (value : Z)
| kw_slave (value : Z).

Definition pdu_unit_id (kw : Keyword) : Z :=
  match kw with
  | kw_unit value => value
  | kw_slave _ => Defaults_UnitId
  end.

(** [AsyncHuaweiSolar.heartbeat]; the call is
    [write_register(HEARTBEAT_REGISTER, 0x1, slave=slave_id or self.slave)]. *)
Definition heartbeat (self : AsyncHuaweiSolar.t) (slave_id : Z) : M bool :=
  c <- is_client_connected ;;
  if negb c then ret false
  else
    try_except
      (response <- transport (EvWriteRegister HEARTBEAT_REGISTER 1
                                (pdu_unit_id
                                   (kw_slave (slave_or (Some slave_id)
                                                (AsyncHuaweiSolar.slave self))))) ;;
       match response with
       | ExceptionResponse _ _ =>
           LOGGER WARNING
             ("Received an error after sending the heartbeat command: "
                ++ str_response response)%string ;;;
           ret false
       | _ => ret true
       end)
      (fun err =>
         if is_HuaweiSolarException err then
           Some (LOGGER ERROR ("Exception during heartbeat: " ++ str_exn err)%string ;;;
                 ret false)
         else None).

Definition HEARTBEAT_INTERVAL : Z := 15000.

(** The coroutine of [HuaweiSolarBridge.start_heartbeat]:
    [while self.__enable_heartbeat: ...]. The loop has no bound of its
    own, so it runs on fuel; it hands back the flag with which it ends. *)
Fixpoint heartbeat_loop (fuel : nat) (client : AsyncHuaweiSolar.t) (slave_id : Z)
    (enable_heartbeat : bool) : M bool :=
  if enable_heartbeat then
    match fuel with
    | O => lift OutOfFuel
    | S fuel' =>
        enabled <-
          try_except
            (enabled <- heartbeat client slave_id ;;
             sleep HEARTBEAT_INTERVAL ;;;
             ret enabled)
            (fun err =>
               if is_HuaweiSolarException err then
                 Some (LOGGER WARNING
                         ("Heartbeat stopped because of, " ++ str_exn err)%string ;;;
                       ret false)
               else None) ;;
        heartbeat_loop fuel' client slave_id enabled
    end
  else ret enable_heartbeat.

(** ** [has_write_permission] *)

(** [HuaweiSolarBridge.has_write_permission] *)
Definition has_write_permission (REGISTERS : string -> option RegisterDefinition)
    (self : HuaweiSolarBridge.t) : M bool :=
  try_except
    (time_zone <- get (HuaweiSolarBridge.client self) REGISTERS rn.TIME_ZONE
                    (Some (HuaweiSolarBridge.slave_id self)) ;;
     set (HuaweiSolarBridge.client self) REGISTERS rn.TIME_ZONE (Result.value time_zone)
       (Some (HuaweiSolarBridge.slave_id self)) ;;;
     ret true)
    (fun err =>
       match err with
       | PermissionDenied _ => Some (ret false)
       | _ => None
       end).

(** ** [create] *)


(** ** Properties of the heartbeat *)

(** The request of the heartbeat as the client sends it: unit 0. *)
Definition heartbeat_write : Event := EvWriteRegister 49999 1 0.

Definition heartbeat_warning (response : Response) : LogLevel * string :=
  (WARNING, ("Received an error after sending the heartbeat command: "
               ++ str_response response)%string).

Lemma heartbeat_connected (self : AsyncHuaweiSolar.t) (slave_id : Z)
    (reply : Reply) (rest : list Reply) (w : World) :
  connected w = true ->
  script w = reply :: rest ->
  heartbeat self slave_id w
  = match reply with
    | Responds (ExceptionResponse oc code) =>
        (Return false,
         mkWorld rest (trace w ++ [heartbeat_write])
           (log w ++ [heartbeat_warning (ExceptionResponse oc code)]) true)
    | Responds _ =>
        (Return true, mkWorld rest (trace w ++ [heartbeat_write]) (log w) true)
    | TimesOut =>
        (Raise TimeoutError,
         mkWorld rest (trace w ++ [heartbeat_write]) (log w) true)
    | ConnectionLost string =>
        (Raise (ModbusConnectionException string),
         mkWorld rest (trace w ++ [heartbeat_write]) (log w) true)
    end.
Proof.
  intros Hc Hs. destruct w as [s t l c]. cbn in Hc, Hs. subst s c.
  destruct reply as [[]| |]; reflexivity.
Qed.

(** X15. [heartbeat] on a client that is not connected returns [False]
    and sends nothing. On a connected client it writes 1 to register
    49999 once, without taking the lock and without a cooldown. The
    slave is passed under the keyword [slave], which the requests of
    pymodbus 2 do not read: whatever [slave_id] and the slave of the
    session are, the request goes to unit 0. Any response but an
    exception response gives [True]; an exception response gives [False]
    and a warning in the log; a timeout or a lost connection is not
    caught and reaches the caller. *)
Theorem heartbeat_outcome (self : AsyncHuaweiSolar.t) (slave_id : Z) (w : World) :
  (connected w = false -> heartbeat self slave_id w = (Return false, w))
  /\ (connected w = true ->
      forall (reply : Reply) (rest : list Reply),
        script w = reply :: rest ->
        let sent := mkWorld rest (trace w ++ [EvWriteRegister 49999 1 0]) (log w) true in
        (forall oc code, reply = Responds (ExceptionResponse oc code) ->
           heartbeat self slave_id w
           = (Return false,
              mkWorld rest (trace w ++ [EvWriteRegister 49999 1 0])
                (log w ++ [heartbeat_warning (ExceptionResponse oc code)]) true))
        /\ (forall response,
              reply = Responds response ->
              (forall oc code, response <> ExceptionResponse oc code) ->
              heartbeat self slave_id w = (Return true, sent))
        /\ (reply = TimesOut -> heartbeat self slave_id w = (Raise TimeoutError, sent))
        /\ (forall string, reply = ConnectionLost string ->
            heartbeat self slave_id w = (Raise (ModbusConnectionException string), sent))).
Proof.
  split.
  - intros Hc. destruct w as [s t l c]. cbn in Hc. subst c. reflexivity.
  - intros Hc reply rest Hs sent.
    pose proof (heartbeat_connected self slave_id reply rest w Hc Hs) as H.
    repeat split.
    + intros oc code ->. exact H.
    + intros response -> Hne. rewrite H.
      destruct response; try reflexivity.
      exfalso. exact (Hne _ _ eq_refl).
    + intros ->. exact H.
    + intros string ->. exact H.
Qed.

(** [n] heartbeats, each followed by the wait of 15 s. *)
Fixpoint beats (ev : Event) (n : nat) : list Event :=
  match n with
  | O => []
  | S n' => ev :: EvSleep 15000 :: beats ev n'
  end.

Lemma beats_snoc (ev : Event) (n : nat) :
  beats ev (S n) = beats ev n ++ [ev; EvSleep 15000].
Proof.
  cbn [beats]. induction n as [|n IH]; [reflexivity|].
  cbn [beats app]. rewrite <- IH. reflexivity.
Qed.

Definition acknowledges (reply : Reply) : bool :=
  match reply with
  | Responds (ExceptionResponse _ _) => false
  | Responds _ => true
  | _ => false
  end.

Lemma heartbeat_loop_beats (client : AsyncHuaweiSolar.t) (slave_id : Z) (oks : list Reply) :
  forallb acknowledges oks = true ->
  forall (fuel : nat) (rest : list Reply) (w : World),
    connected w = true ->
    script w = oks ++ rest ->
    (List.length oks <= fuel)%nat ->
    heartbeat_loop fuel client slave_id true w
    = heartbeat_loop (fuel - List.length oks) client slave_id true
        (mkWorld rest (trace w ++ beats (heartbeat_write) (List.length oks))
           (log w) true).
Proof.
  induction oks as [|ok oks IH]; intros Hoks fuel rest w Hc Hs Hfuel.
  - cbn [List.length beats]. rewrite Nat.sub_0_r, app_nil_r.
    destruct w as [s t l c]. cbn in Hc, Hs. subst s c. reflexivity.
  - cbn [forallb] in Hoks. apply andb_prop in Hoks. destruct Hoks as [Hok Hoks].
    cbn [List.length] in *. destruct fuel as [|fuel]; [lia|].
    cbn [heartbeat_loop Nat.sub]. unfold bind at 1. unfold try_except at 1.
    unfold bind at 1.
    rewrite (heartbeat_connected client slave_id ok (oks ++ rest) w Hc Hs).
    destruct ok as [[]| |]; try discriminate;
      cbn [sleep emit ret bind fst snd script trace log connected];
      (rewrite (IH Hoks fuel rest); [|reflexivity|reflexivity|lia]);
      cbn [trace log]; rewrite <- !app_assoc; reflexivity.
Qed.

(** X16. The heartbeat coroutine of the bridge: as long as the inverter
    acknowledges, it writes the heartbeat and waits 15 s, again and
    again. An exception response ends it: the heartbeat returns [False],
    the coroutine still waits its 15 s and then leaves the loop with the
    flag cleared. A timeout ends it at once with the [TimeoutError],
    which the [except HuaweiSolarException] of the coroutine does not
    catch. *)
Theorem heartbeat_loop_ends (client : AsyncHuaweiSolar.t) (slave_id : Z)
    (oks : list Reply) (rest : list Reply) (fuel : nat) (w : World) :
  forallb acknowledges oks = true ->
  connected w = true ->
  (List.length oks < fuel)%nat ->
  let ev := EvWriteRegister 49999 1 0 in
  (forall oc code,
      script w = oks ++ Responds (ExceptionResponse oc code) :: rest ->
      heartbeat_loop fuel client slave_id true w
      = (Return false,
         mkWorld rest (trace w ++ beats ev (S (List.length oks)))
           (log w ++ [heartbeat_warning (ExceptionResponse oc code)]) true))
  /\ (script w = oks ++ TimesOut :: rest ->
      heartbeat_loop fuel client slave_id true w
      = (Raise TimeoutError,
         mkWorld rest (trace w ++ beats ev (List.length oks) ++ [ev]) (log w) true))
  /\ heartbeat_loop fuel client slave_id false w = (Return false, w).
Proof.
  intros Hoks Hc Hfuel ev. split; [|split].
  - intros oc code Hs.
    rewrite (heartbeat_loop_beats client slave_id oks Hoks fuel _ w Hc Hs) by lia.
    destruct (fuel - List.length oks)%nat as [|fuel'] eqn:Hf; [lia|].
    cbn [heartbeat_loop]. unfold bind at 1. unfold try_except at 1. unfold bind at 1.
    erewrite heartbeat_connected; [|reflexivity|reflexivity].
    cbn [sleep emit ret bind fst snd script trace log connected].
    rewrite beats_snoc. fold ev.
    destruct fuel'; cbn [heartbeat_loop ret]; rewrite <- !app_assoc; reflexivity.
  - intros Hs.
    rewrite (heartbeat_loop_beats client slave_id oks Hoks fuel _ w Hc Hs) by lia.
    destruct (fuel - List.length oks)%nat as [|fuel'] eqn:Hf; [lia|].
    cbn [heartbeat_loop]. unfold bind at 1. unfold try_except at 1. unfold bind at 1.
    erewrite heartbeat_connected; [|reflexivity|reflexivity].
    cbn [is_HuaweiSolarException trace log]. rewrite <- !app_assoc. reflexivity.
  - destruct fuel; reflexivity.
Qed.

(** A bridge of slave 3 on a session of slave 1: one heartbeat is
    acknowledged, the second one refused. *)
Lemma heartbeat_loop_ends_witness :
  heartbeat_loop 5 (AsyncHuaweiSolar.__init__ 1 DEFAULT_TIMEOUT DEFAULT_COOLDOWN_TIME) 3 true
    (world_of [Responds (WriteSingleRegisterResponse 49999 1);
               Responds (ExceptionResponse 6 4)])
  = (Return false,
     mkWorld []
       [EvWriteRegister 49999 1 0; EvSleep 15000; EvWriteRegister 49999 1 0; EvSleep 15000]
       [heartbeat_warning (ExceptionResponse 6 4)] true).
Proof.
  destruct (heartbeat_loop_ends
              (AsyncHuaweiSolar.__init__ 1 DEFAULT_TIMEOUT DEFAULT_COOLDOWN_TIME) 3
              [Responds (WriteSingleRegisterResponse 49999 1)] [] 5
              (world_of [Responds (WriteSingleRegisterResponse 49999 1);
                         Responds (ExceptionResponse 6 4)])
              eq_refl eq_refl ltac:(cbn; lia)) as [H _].
  exact (H 6 4 eq_refl).
Defined.

(** ** Properties of [has_write_permission] and of [create] *)

Lemma write_registers_reply (self : AsyncHuaweiSolar.t) (register : Z) (value : list Z)
    (slave : option Z) (reply : Reply) (rest : list Reply) (w : World) :
  connected w = true ->
  script w = reply :: rest ->
  match reply with
  | Responds _ | TimesOut =>
      write_registers self register value slave w
      = (write_attempt_outcome (Some reply),
         mkWorld rest (trace w ++ [write_call self register value slave]) (log w) true)
  | ConnectionLost _ => True
  end.
Proof.
  intros Hc Hs. destruct w as [s t l c]. cbn in Hc, Hs. subst s c.
  destruct reply as [[]| |]; try reflexivity; try exact I.
  unfold write_registers, bind, is_client_connected, try_except, transport, emit.
  cbn. destruct (exception_code =? 128); reflexivity.
Qed.

Lemma set_refused (REGISTERS : string -> option RegisterDefinition)
    (self : AsyncHuaweiSolar.t) (name : string) (value : Value) (slave : option Z)
    (reg : RegisterDefinition) (words : list Z) (oc code : Z) (rest : list Reply)
    (w : World) :
  REGISTERS name = Some reg ->
  Reg.writeable reg = true ->
  Reg.encode reg value = Return words ->
  Z.of_nat (List.length words) = Reg.length reg ->
  connected w = true ->
  script w = Responds (ExceptionResponse oc code) :: rest ->
  set self REGISTERS name value slave w
  = ((if code =? 128 then Raise (PermissionDenied "Permission denied")
      else Raise (WriteException (str_option (ModbusExceptions.decode code)))),
     mkWorld rest
       (trace w ++ [EvAcquire; write_call self (Reg.register reg) words slave; EvRelease])
       (log w) true).
Proof.
  intros Hreg Hw Henc Hlen Hc Hs.
  rewrite (set_eq REGISTERS self name value slave reg words w Hreg Hw Henc Hlen).
  pose proof (write_registers_reply self (Reg.register reg) words slave
                (Responds (ExceptionResponse oc code)) rest (acquired w) Hc Hs) as Hwr.
  cbn beta iota in Hwr. rewrite Hwr. cbn [write_attempt_outcome].
  destruct (code =? 128); unfold released, acquired;
    cbn [script trace log connected]; rewrite <- !app_assoc; reflexivity.
Qed.

Lemma set_echoed (REGISTERS : string -> option RegisterDefinition)
    (self : AsyncHuaweiSolar.t) (name : string) (value : Value) (slave : option Z)
    (reg : RegisterDefinition) (words : list Z) (address count : Z) (rest : list Reply)
    (w : World) :
  REGISTERS name = Some reg ->
  Reg.writeable reg = true ->
  Reg.encode reg value = Return words ->
  Z.of_nat (List.length words) = Reg.length reg ->
  connected w = true ->
  script w = Responds (WriteMultipleRegistersResponse address count) :: rest ->
  set self REGISTERS name value slave w
  = (Return ((address =? Reg.register reg) && (count =? Reg.length reg)),
     mkWorld rest
       (trace w ++ [EvAcquire; write_call self (Reg.register reg) words slave;
                    EvSleep (AsyncHuaweiSolar._cooldown_time self); EvRelease])
       (log w) true).
Proof.
  intros Hreg Hw Henc Hlen Hc Hs.
  rewrite (set_eq REGISTERS self name value slave reg words w Hreg Hw Henc Hlen).
  pose proof (write_registers_reply self (Reg.register reg) words slave
                (Responds (WriteMultipleRegistersResponse address count)) rest
                (acquired w) Hc Hs) as Hwr.
  cbn beta iota in Hwr. rewrite Hwr.
  cbn [write_attempt_outcome set_result ret]. unfold released, slept, acquired.
  cbn [script trace log connected]. rewrite <- !app_assoc. reflexivity.
Qed.

(** X17. [has_write_permission] reads the time zone and writes the value
    back. It returns [False] exactly when the write is refused with the
    exception code 0x80. When the write is answered it returns [True]
    whatever the echo is: the result of [set] is not looked at. Any
    other refusal of the write is raised as a [WriteException]. *)
Theorem has_write_permission_outcome (REGISTERS : string -> option RegisterDefinition)
    (self : HuaweiSolarBridge.t) (reg : RegisterDefinition) (tz_words words : list Z)
    (tz_value : Value) (d : BinaryPayloadDecoder) (write_reply : Reply)
    (rest : list Reply) (w : World) :
  REGISTERS rn.TIME_ZONE = Some reg ->
  Reg.writeable reg = true ->
  Reg.decode reg (fromRegisters tz_words) (HuaweiSolarBridge.client self)
  = (Return tz_value, d) ->
  Reg.encode reg tz_value = Return words ->
  Z.of_nat (List.length words) = Reg.length reg ->
  connected w = true ->
  script w = Responds (ReadHoldingRegistersResponse tz_words) :: write_reply :: rest ->
  (forall oc, write_reply = Responds (ExceptionResponse oc 128) ->
     fst (has_write_permission REGISTERS self w) = Return false)
  /\ (forall address count,
        write_reply = Responds (WriteMultipleRegistersResponse address count) ->
        fst (has_write_permission REGISTERS self w) = Return true)
  /\ (forall oc code, write_reply = Responds (ExceptionResponse oc code) ->
        code <> 128 ->
        fst (has_write_permission REGISTERS self w)
        = Raise (WriteException (str_option (ModbusExceptions.decode code)))).
Proof.
  intros Hreg Hw Hdec Henc Hlen Hc Hs.
  assert (Hget := get_answered REGISTERS (HuaweiSolarBridge.client self) rn.TIME_ZONE
                    (Some (HuaweiSolarBridge.slave_id self)) reg tz_words tz_value d
                    (write_reply :: rest) w Hreg Hc Hs Hdec).
  repeat split.
  - intros oc ->. unfold has_write_permission, try_except. unfold bind at 1.
    rewrite Hget. cbn [Result.value]. unfold bind at 1.
    erewrite set_refused; [|exact Hreg|exact Hw|exact Henc|exact Hlen
                           |reflexivity|reflexivity].
    reflexivity.
  - intros address count ->. unfold has_write_permission, try_except. unfold bind at 1.
    rewrite Hget. cbn [Result.value]. unfold bind at 1.
    erewrite set_echoed; [|exact Hreg|exact Hw|exact Henc|exact Hlen
                          |reflexivity|reflexivity].
    reflexivity.
  - intros oc code -> Hcode. unfold has_write_permission, try_except. unfold bind at 1.
    rewrite Hget. cbn [Result.value]. unfold bind at 1.
    erewrite set_refused; [|exact Hreg|exact Hw|exact Henc|exact Hlen
                           |reflexivity|reflexivity].
    apply Z.eqb_neq in Hcode. rewrite Hcode. reflexivity.
Qed.

(** A time zone of 60 minutes is written back; the inverter echoes
    another address, and the permission is reported all the same. *)
Lemma has_write_permission_outcome_witness :
  fst (has_write_permission SAMPLE_REGISTERS sample_bridge
         (world_of [Responds (ReadHoldingRegistersResponse [60]);
                    Responds (WriteMultipleRegistersResponse 0 0)]))
  = Return true.
Proof.
  destruct (has_write_permission_outcome SAMPLE_REGISTERS sample_bridge
              (Reg.mk 43006 1 (UnitStatic (Some "min"%string)) true (decode_uint 1)
                 encode_uint16)
              [60] [60] (VInt 60) (mkDecoder (flat_map pack_H [60]) 2)
              (Responds (WriteMultipleRegistersResponse 0 0)) []
              (world_of [Responds (ReadHoldingRegistersResponse [60]);
                         Responds (WriteMultipleRegistersResponse 0 0)])
              eq_refl eq_refl eq_refl eq_refl eq_refl eq_refl eq_refl) as (_ & H & _).
  exact (H 0 0 eq_refl).
Defined.




(** ** Populating the bridge *)

















(** ** Extra slaves *)







(** ** Decoding the private requests *)

(** The [decode] methods of the four request classes: the request object
    after [self.decode(data)], when the method returns.
    [struct.unpack] takes data of exactly the size of its format. *)
Definition decode (self : Request) (data : bytes) : Outcome Request :=
  match self with
  | PrivateHuaweiModbusRequest _ _ unit =>
      match data with
      | [] => Raise IndexError
      | b0 :: rest => Return (PrivateHuaweiModbusRequest (b2z b0) rest unit)
      end
  | StartUploadModbusRequest _ _ unit =>
      match data with
      | [b0; b1; b2] =>
          let sub_function_code := b2z b0 in
          let data_length := b2z b1 in
          let customised_data := skipn 3 data in
          if negb (sub_function_code =? 0x05) then Raise AssertionError
          else if negb (Z.of_nat (List.length customised_data) =? data_length - 1)
          then Raise AssertionError
          else Return (StartUploadModbusRequest (b2z b2) customised_data unit)
      | _ => Raise StructError
      end
  | UploadModbusRequest _ _ unit =>
      match data with
      | [b0; b1; b2; b3; b4] =>
          let sub_function_code := b2z b0 in
          let data_length := b2z b1 in
          if negb (sub_function_code =? 0x06) then Raise AssertionError
          else if negb (data_length =? 3) then Raise AssertionError
          else Return (UploadModbusRequest (b2z b2) (b2z b3 * 256 + b2z b4) unit)
      | _ => Raise StructError
      end
  | CompleteUploadModbusRequest _ unit =>
      match data with
      | [b0; b1; b2] =>
          let sub_function_code := b2z b0 in
          let data_length := b2z b1 in
          if negb (sub_function_code =? 0x0C) then Raise AssertionError
          else if negb (data_length =? 1) then Raise AssertionError
          else Return (CompleteUploadModbusRequest (b2z b2) unit)
      | _ => Raise StructError
      end
  end.





